(** * The LLAMBO acquisition function (llambo/acquisition_function.py)

    A shallow embedding of the class [LLM_ACQ]: target computation,
    few-shot row formatting, concurrent dispatch, response parsing,
    candidate validation and the retry loop of [get_candidate_points].

    Conventions of the embedding.
    - A Python [float] is a rational number of [Q]: every operation is the
      exact one, rounding of the binary format is not modelled, and the
      non-finite values ([nan], [inf]) are not values of the model.  The one
      place where pandas creates a [nan] on its own, a missing key when a
      table is built from records, is a cell [None].
    - A Python [dict] is an association list in insertion order
      (iteration order matters to [all(...)], which stops at the first
      failing field); equality of dicts ignores the order.
    - A Python [str] is a string of characters below 256: a text with
      other characters is not a value of the model.
    - A raised exception is a result [Raise e]; code that touches numpy's
      global generator, the transport or the call log runs in the monad
      [M] over [world].
    - numpy, the builtins [float] and [str] and the transport
      ([OpenAI_interface.ask]) are collaborators of the class
      [Collaborators]; the texts of a prompt and langchain's rendering of a
      template are those of the class [PromptText].
    - The elapsed time that [get_candidate_points] returns is not
      modelled. *)

From Stdlib Require Import ZArith QArith Qabs Qminmax Qround Lqa Lia.
From Stdlib Require Import String Ascii List Bool DecimalString.
From Stdlib Require Import Sorting.Sorted Sorting.Permutation.
Import ListNotations.
Local Open Scope Q_scope.

(** ** Exceptions and results *)

Inductive exn : Type :=
| ValueError
| KeyError
| IndexError
| TypeError
| AttributeError
| AssertionError
| RuntimeError (msg : string)
| TransportError (msg : string).

Inductive res (A : Type) : Type :=
| Ok (a : A)
| Raise (e : exn).
Arguments Ok {A} a.
Arguments Raise {A} e.

Definition res_bind {A B : Type} (c : res A) (k : A -> res B) : res B :=
  match c with
  | Ok a => k a
  | Raise e => Raise e
  end.

Declare Scope res_scope.
Delimit Scope res_scope with res.
Notation "x <- c ;; k" := (res_bind c (fun x => k))
  (at level 61, c at next level, right associativity) : res_scope.

(** ** Numbers *)

Definition Qlt_bool (x y : Q) : bool := negb (Qle_bool y x).

(** [int(v)]: truncation towards zero. *)
Definition py_int (v : Q) : Z := Z.quot (Qnum v) (Z.pos (Qden v)).

(** Nearest integer, ties to the even one. *)
Definition round_half_even (v : Q) : Z :=
  let f := Qfloor v in
  match Qcompare (v - inject_Z f) (1 # 2) with
  | Lt => f
  | Gt => (f + 1)%Z
  | Eq => if Z.even f then f else (f + 1)%Z
  end.

(** [round(v, ndigits)]. *)
Definition py_round (v : Q) (ndigits : Z) : Q :=
  let scale := Qpower (inject_Z 10) ndigits in
  inject_Z (round_half_even (v * scale)) / scale.

(** [math.isclose(a, b, rel_tol=.., abs_tol=..)]:
    [abs(a-b) <= max(rel_tol * max(abs(a), abs(b)), abs_tol)]. *)
Definition isclose (a b rel_tol abs_tol : Q) : bool :=
  Qle_bool (Qabs (a - b)) (Qmax (rel_tol * Qmax (Qabs a) (Qabs b)) abs_tol).

(** The default [rel_tol] of [math.isclose]. *)
Definition default_rel_tol : Q := 1 # 1000000000.

(** ** Dictionaries *)

Definition dict (V : Type) : Type := list (string * V).

Fixpoint dict_get {V : Type} (k : string) (d : dict V) : option V :=
  match d with
  | [] => None
  | (k', v) :: t => if String.eqb k k' then Some v else dict_get k t
  end.

(** [d[k] = v]: an existing key keeps its position. *)
Fixpoint dict_set {V : Type} (k : string) (v : V) (d : dict V) : dict V :=
  match d with
  | [] => [(k, v)]
  | (k', v') :: t =>
      if String.eqb k k' then (k, v) :: t else (k', v') :: dict_set k v t
  end.

Definition dict_keys {V : Type} (d : dict V) : list string := map fst d.

(** [{key: f(value) for key, value in d.items()}]. *)
Definition dict_map_values {V W : Type} (f : V -> W) (d : dict V) : dict W :=
  map (fun kv => (fst kv, f (snd kv))) d.

(** [d1 == d2] on dicts of floats. *)
Definition dict_eqb (d1 d2 : dict Q) : bool :=
  Nat.eqb (length d1) (length d2)
  && forallb (fun kv =>
                match dict_get (fst kv) d2 with
                | Some v' => Qeq_bool (snd kv) v'
                | None => false
                end) d1.

(** [d in l] for a list of dicts. *)
Definition dict_in (d : dict Q) (l : list (dict Q)) : bool :=
  existsb (dict_eqb d) l.

(** ** Tables *)

(** A pandas DataFrame: the column labels and the rows, each with its
    index label. *)
Record DataFrame (C : Type) : Type := mkDF {
  columns : list string;
  rows : list (nat * list C)
}.
Arguments mkDF {C} columns rows.
Arguments columns {C} d.
Arguments rows {C} d.

Definition shape0 {C : Type} (df : DataFrame C) : nat := length (rows df).

(** [df.empty]: one of the two axes has length 0. *)
Definition df_empty {C : Type} (df : DataFrame C) : bool :=
  match rows df, columns df with
  | [], _ => true
  | _, [] => true
  | _, _ => false
  end.

(** [df.to_dict(orient="records")]. *)
Definition to_dict_records {C : Type} (df : DataFrame C) : list (dict C) :=
  map (fun r => combine (columns df) (snd r)) (rows df).

Fixpoint add_new (seen : list string) (ks : list string) : list string :=
  match ks with
  | [] => seen
  | k :: t =>
      if existsb (String.eqb k) seen then add_new seen t
      else add_new (seen ++ [k]) t
  end.

(** Columns of a table built from records: the keys in the order in which
    they are first seen. *)
Definition union_keys (records : list (dict Q)) : list string :=
  fold_left (fun seen d => add_new seen (dict_keys d)) records [].

Fixpoint number_from {A : Type} (i : nat) (l : list A) : list (nat * A) :=
  match l with
  | [] => []
  | x :: t => (i, x) :: number_from (S i) t
  end.

(** [pd.DataFrame(records)]: a key that a record lacks is a missing cell. *)
Definition DataFrame_of_records (records : list (dict Q))
  : DataFrame (option Q) :=
  let cols := union_keys records in
  mkDF cols
       (number_from 0
          (map (fun d => map (fun c => dict_get c d) cols) records)).

Definition cell_eqb (a b : option Q) : bool :=
  match a, b with
  | Some x, Some y => Qeq_bool x y
  | None, None => true
  | _, _ => false
  end.

Fixpoint row_eqb (r1 r2 : list (option Q)) : bool :=
  match r1, r2 with
  | [], [] => true
  | a :: t1, b :: t2 => cell_eqb a b && row_eqb t1 t2
  | _, _ => false
  end.

Fixpoint keep_first (seen : list (list (option Q)))
  (l : list (nat * list (option Q))) : list (nat * list (option Q)) :=
  match l with
  | [] => []
  | r :: t =>
      if existsb (row_eqb (snd r)) seen then keep_first seen t
      else r :: keep_first (snd r :: seen) t
  end.

(** [df.drop_duplicates()]: the first occurrence of every row is kept, with
    its index label; missing cells compare equal. *)
Definition drop_duplicates (df : DataFrame (option Q)) : DataFrame (option Q) :=
  mkDF (columns df) (keep_first [] (rows df)).

(** [df.reset_index(drop=True)]. *)
Definition reset_index {C : Type} (df : DataFrame C) : DataFrame C :=
  mkDF (columns df) (number_from 0 (map snd (rows df))).

(** The fields that a row of a table of candidates assigns: its cells
    that are not missing, under their column labels. *)
Fixpoint present_items (cols : list string) (cells : list (option Q))
  : dict Q :=
  match cols, cells with
  | c :: cs, Some v :: t => (c, v) :: present_items cs t
  | _ :: cs, None :: t => present_items cs t
  | _, _ => []
  end.

Definition records_of (df : DataFrame (option Q)) : list (dict Q) :=
  map (fun r => present_items (columns df) (snd r)) (rows df).

(** ** Task context and the object *)

(** [(kind, transform, range)]. *)
Record constraint : Type := mkConstraint {
  value_type : string;
  transform : option string;
  search_range : list Q
}.

Record task_context_t : Type := mkTaskContext {
  hyperparameter_constraints : dict constraint;
  custom_task_description : option string
}.

(** The warping transformer: [warp] and [unwarp] on whole tables. *)
Record Warper : Type := mkWarper {
  warp : DataFrame Q -> DataFrame Q;
  unwarp : DataFrame (option Q) -> DataFrame (option Q)
}.

(** The attributes of an [LLM_ACQ] object.  The last four are those that
    the methods set ([None] before they are). *)
Record LLM_ACQ : Type := mkLLM_ACQ {
  task_context : task_context_t;
  n_candidates : nat;
  num_prompt_variants : nat;
  lower_is_better : bool;
  apply_jitter : bool;
  warping_transformer : option Warper;
  apply_warping : bool;
  prompt_setting : option string;
  shuffle_features : bool;
  observed_best : option Q;
  observed_worst : option Q;
  alpha : option Q;
  desired_fval : option Q
}.

(** [LLM_ACQ.__init__], for a number of prompt variants other than 0.  The
    constructor also sets [n_gens = int(n_candidates / num_prompt_variants)],
    which no method reads and which is not an attribute of the model: with
    0 variants the division raises and no object is built. *)
Definition init (tc : task_context_t) (n_cand n_variants : nat)
  (lower : bool) (jitter : bool) (wt : option Warper)
  (setting : option string) (shuffle : bool) : LLM_ACQ :=
  mkLLM_ACQ tc n_cand n_variants lower jitter wt
            (match wt with Some _ => true | None => false end)
            setting shuffle None None None None.

Definition is_log (t : option string) : bool :=
  match t with
  | Some s => String.eqb s "log"
  | None => false
  end.

(** ** Collaborators *)

Class Collaborators : Type := {
  (** numpy's global generator: its state, [np.random.seed],
      [np.random.permutation], [np.random.uniform] *)
  Rng : Type;
  np_random_seed : nat -> Rng;
  np_random_permutation : forall A : Type, list A -> Rng -> list A * Rng;
  np_random_uniform : Q -> Q -> Rng -> Q * Rng;
  np_log10 : Q -> Q;
  (** the builtins [float(s)] and [str(x)] on a float *)
  py_float : string -> option Q;
  py_str : Q -> string;
  (** the transport: [OpenAI_interface.ask], with the state of the
      backend *)
  Net : Type;
  ask : string -> Net -> res (string * Q) * Net
}.

Section Validation.

Context {env : Collaborators}.
Variable self : LLM_ACQ.

(** *** [_filter_candidate_points] *)

Definition is_within_range (value : Q) (allowed_range : constraint)
  : res bool :=
  let value_type := value_type allowed_range in
  let transform := transform allowed_range in
  let search_range := search_range allowed_range in
  if String.eqb value_type "int" then
    match search_range with
    | [min_val; max_val] =>
        if is_log transform && apply_warping self then
          Ok (Qle_bool (np_log10 min_val) value
              && Qle_bool value (np_log10 max_val))
        else
          Ok (Qle_bool min_val value && Qle_bool value max_val
              && Qeq_bool (inject_Z (py_int value)) value)
    | _ => Raise ValueError
    end
  else if String.eqb value_type "float" then
    match search_range with
    | [min_val; max_val] =>
        if is_log transform && apply_warping self then
          Ok (Qle_bool (np_log10 min_val) value
              && Qle_bool value (np_log10 max_val))
        else
          Ok (Qle_bool min_val value && Qle_bool value max_val)
    | _ => Raise ValueError
    end
  else if String.eqb value_type "ordinal" then
    Ok (existsb (fun x => isclose value x default_rel_tol (1 # 100))
                search_range)
  else Raise ValueError.

(** [all(key in ranges_dict and is_within_range(value, ranges_dict[key])
         for key, value in d.items())] *)
Fixpoint is_dict_within_ranges (d : dict Q) (ranges_dict : dict constraint)
  : res bool :=
  match d with
  | [] => Ok true
  | (key, value) :: t =>
      match dict_get key ranges_dict with
      | None => Ok false
      | Some r =>
          (b <- is_within_range value r ;;
           if b then is_dict_within_ranges t ranges_dict else Ok false)%res
      end
  end.

Fixpoint filter_dicts_by_ranges (dict_list : list (dict Q))
  (ranges_dict : dict constraint) : res (list (dict Q)) :=
  match dict_list with
  | [] => Ok []
  | d :: t =>
      (b <- is_dict_within_ranges d ranges_dict ;;
       r <- filter_dicts_by_ranges t ranges_dict ;;
       Ok (if b then d :: r else r))%res
  end.

Definition round_dict (precision : Z) (d : dict Q) : dict Q :=
  dict_map_values (fun value => py_round value precision) d.

(** The candidates that are no observed point after rounding (the first
    comprehension of [_filter_candidate_points]). *)
Definition not_observed (observed_points candidate_points : list (dict Q))
  (precision : Z) : list (dict Q) :=
  let rounded_observed := map (round_dict precision) observed_points in
  filter (fun x => negb (dict_in (round_dict precision x) rounded_observed))
         candidate_points.

Definition _filter_candidate_points
  (observed_points candidate_points : list (dict Q)) (precision : Z)
  : res (DataFrame (option Q)) :=
  let filtered_candidates :=
    not_observed observed_points candidate_points precision in
  let hyperparameter_constraints :=
    hyperparameter_constraints (task_context self) in
  (filtered_candidates <-
     filter_dicts_by_ranges filtered_candidates hyperparameter_constraints ;;
   let filtered_df := DataFrame_of_records filtered_candidates in
   if negb (df_empty filtered_df) then
     Ok (reset_index (drop_duplicates filtered_df))
   else Ok filtered_df)%res.

End Validation.

(** ** The target: [_adjust_alpha_and_desired_fval] *)

Section Target.

Variable self : LLM_ACQ.

Definition alpha_range : list Q :=
  [1 # 10; 1 # 100; 1 # 1000; 1 # 10000; 1 # 100000].

(** [df.values], all cells. *)
Definition df_values (df : DataFrame Q) : list Q := concat (map snd (rows df)).

(** [np.min] and [np.max]; both raise on an empty array. *)
Definition np_min (l : list Q) : res Q :=
  match l with
  | [] => Raise ValueError
  | x :: t => Ok (fold_left Qmin t x)
  end.

Definition np_max (l : list Q) : res Q :=
  match l with
  | [] => Raise ValueError
  | x :: t => Ok (fold_left Qmax t x)
  end.

(** The [for] loop over [alpha_range]: the first value below [alpha]. *)
Definition next_alpha (alpha : Q) : option Q :=
  find (fun alpha_candidate => Qlt_bool alpha_candidate alpha) alpha_range.

(** The [while] loop of the minimization branch; [budget] is
    [max_iterations - iteration]. *)
Fixpoint shrink_min (budget : nat) (best range_val alpha desired_fval : Q)
  : Q * Q :=
  match budget with
  | O => (alpha, desired_fval)
  | S n =>
      if Qle_bool desired_fval (1 # 100000) then
        match next_alpha alpha with
        | Some alpha_candidate =>
            shrink_min n best range_val alpha_candidate
                       (best - alpha_candidate * range_val)
        | None => (alpha, Qmax (1 # 100000) (best * (9 # 10)))
        end
      else (alpha, desired_fval)
  end.

(** The [while] loop of the maximization branch. *)
Fixpoint shrink_max (budget : nat) (best range_val alpha desired_fval : Q)
  : Q * Q :=
  match budget with
  | O => (alpha, desired_fval)
  | S n =>
      if Qle_bool (9999 # 10000) desired_fval then
        match next_alpha alpha with
        | Some alpha_candidate =>
            shrink_max n best range_val alpha_candidate
                       (best + alpha_candidate * range_val)
        | None => (alpha, Qmin (9999 # 10000) (best * (105 # 100)))
        end
      else (alpha, desired_fval)
  end.

Definition set_observed (best worst : Q) : LLM_ACQ :=
  mkLLM_ACQ (task_context self) (n_candidates self) (num_prompt_variants self)
            (lower_is_better self) (apply_jitter self)
            (warping_transformer self) (apply_warping self)
            (prompt_setting self) (shuffle_features self)
            (Some best) (Some worst) (alpha self) (desired_fval self).

(** Returns the object with [observed_best] and [observed_worst] set, and
    the pair [(alpha, desired_fval)]. *)
Definition _adjust_alpha_and_desired_fval (observed_fvals : DataFrame Q)
  (alpha : Q) : res (LLM_ACQ * (Q * Q)) :=
  let alpha := Qabs alpha in
  let max_iterations := 10%nat in
  if lower_is_better self then
    (best <- np_min (df_values observed_fvals) ;;
     worst <- np_max (df_values observed_fvals) ;;
     let range_val := worst - best in
     let desired_fval := best - alpha * range_val in
     Ok (set_observed best worst,
         shrink_min max_iterations best range_val alpha desired_fval))%res
  else
    (best <- np_max (df_values observed_fvals) ;;
     worst <- np_min (df_values observed_fvals) ;;
     let range_val := best - worst in
     let desired_fval := best + alpha * range_val in
     Ok (set_observed best worst,
         shrink_max max_iterations best range_val alpha desired_fval))%res.

End Target.

(** ** Strings *)

(** [str.isspace] on a character below 256: the ASCII white space, the
    next-line control U+0085 and the no-break space U+00A0. *)
Definition is_space (c : ascii) : bool :=
  let n := nat_of_ascii c in
  ((9 <=? n)%nat && (n <=? 13)%nat) || ((28 <=? n)%nat && (n <=? 32)%nat)
  || (n =? 133)%nat || (n =? 160)%nat.

Fixpoint lstrip_by (p : ascii -> bool) (s : string) : string :=
  match s with
  | String c s' => if p c then lstrip_by p s' else s
  | EmptyString => EmptyString
  end.

Fixpoint rstrip_by (p : ascii -> bool) (s : string) : string :=
  match s with
  | String c s' =>
      match rstrip_by p s' with
      | EmptyString => if p c then EmptyString else String c EmptyString
      | r => String c r
      end
  | EmptyString => EmptyString
  end.

(** [s.strip()]. *)
Definition strip (s : string) : string :=
  rstrip_by is_space (lstrip_by is_space s).

Definition cons_head (a : ascii) (l : list string) : list string :=
  match l with
  | h :: t => String a h :: t
  | [] => [String a EmptyString]
  end.

Fixpoint split_at (sep : string) (skip : nat) (s : string) : list string :=
  match s with
  | EmptyString => [EmptyString]
  | String a s' =>
      match skip with
      | S k => split_at sep k s'
      | O =>
          if String.prefix sep s
          then EmptyString :: split_at sep (String.length sep - 1) s'
          else cons_head a (split_at sep 0 s')
      end
  end.

(** [s.split(sep)] for a separator that is not empty: the pieces between
    the occurrences of [sep], found from the left and not overlapping. *)
Definition py_split (sep : string) (s : string) : list string :=
  split_at sep 0 s.

(** The number of occurrences of a character. *)
Fixpoint occurrences (c : ascii) (s : string) : nat :=
  match s with
  | EmptyString => 0
  | String a s' => (if Ascii.eqb a c then 1 else 0) + occurrences c s'
  end.

(** ** Parsing a response: [_convert_to_json] *)

Section Parsing.

Context {env : Collaborators}.

(** The loop over the pairs. *)
Fixpoint convert_pairs (pairs : list string) (response_json : dict Q)
  : res (dict Q) :=
  match pairs with
  | [] => Ok response_json
  | pair_str :: t =>
      match map strip (py_split ":" pair_str) with
      | [key; value] =>
          match py_float value with
          | Some x => convert_pairs t (dict_set key x response_json)
          | None => Raise ValueError
          end
      | _ => Raise ValueError
      end
  end.

Definition _convert_to_json (response_str : string) : res (dict Q) :=
  let pairs := py_split "," response_str in
  convert_pairs pairs [].

(** The body of the [try] in [get_candidate_points]:
    [response_content.split("##")[1].strip()], then [_convert_to_json]. *)
Definition parse_response (response_content : string) : res (dict Q) :=
  match py_split "##" response_content with
  | _ :: inner :: _ => _convert_to_json (strip inner)
  | _ => Raise IndexError
  end.

(** The [for] loop over the responses in [get_candidate_points]: an empty
    slot is skipped, the cost of a response is added before the [try], and
    any exception of the parse is caught. *)
Fixpoint collect_candidates (llm_responses : list (option (string * Q)))
  (tot_cost : Q) (candidate_points : list (dict Q)) : Q * list (dict Q) :=
  match llm_responses with
  | [] => (tot_cost, candidate_points)
  | None :: t => collect_candidates t tot_cost candidate_points
  | Some (response_content, cost) :: t =>
      let tot_cost := tot_cost + cost in
      match parse_response response_content with
      | Ok c => collect_candidates t tot_cost (candidate_points ++ [c])
      | Raise _ => collect_candidates t tot_cost candidate_points
      end
  end.

End Parsing.

(** ** The world: generator, backend and call log *)

(** The calls that the engine makes to its prompt builder and to its
    dispatcher, the latter with the messages sent.  The log is ghost state:
    it only records what was called, in order. *)
Inductive event : Type :=
| EvGenerate (n_prompts : nat)
| EvDispatch (messages : list string).

Record world {env : Collaborators} : Type := mkWorld {
  rng : Rng;
  net : Net;
  log : list event
}.
Arguments mkWorld {env} rng net log.

Section Monad.

Context {env : Collaborators}.

(** A computation on the world that returns or raises. *)
Definition M (A : Type) : Type := world -> res A * world.

Definition ret {A : Type} (a : A) : M A := fun w => (Ok a, w).

Definition raise {A : Type} (e : exn) : M A := fun w => (Raise e, w).

Definition bind {A B : Type} (c : M A) (k : A -> M B) : M B :=
  fun w =>
    match c w with
    | (Ok a, w') => k a w'
    | (Raise e, w') => (Raise e, w')
    end.

Definition lift {A : Type} (r : res A) : M A := fun w => (r, w).

(** [np.random.seed(seed)]. *)
Definition seed_rng (seed : nat) : M unit :=
  fun w => (Ok tt, mkWorld (np_random_seed seed) (net w) (log w)).

(** A draw from the global generator. *)
Definition draw {A : Type} (f : Rng -> A * Rng) : M A :=
  fun w => let (a, g) := f (rng w) in (Ok a, mkWorld g (net w) (log w)).

Definition record_event (e : event) : M unit :=
  fun w => (Ok tt, mkWorld (rng w) (net w) (log w ++ [e])).

End Monad.

Declare Scope M_scope.
Delimit Scope M_scope with M.
Notation "x <- c ;; k" := (bind c (fun x => k))
  (at level 61, c at next level, right associativity) : M_scope.
Notation "c ;;; k" := (bind c (fun _ => k))
  (at level 61, right associativity) : M_scope.

(** ** Rendering numbers *)

Definition Z_to_string (z : Z) : string := NilZero.string_of_int (Z.to_int z).

Definition digit_char (d : Z) : ascii := ascii_of_nat (48 + Z.to_nat d).

(** The last [n] decimal digits of [z], padded with zeros. *)
Fixpoint digits_of (n : nat) (z : Z) : string :=
  match n with
  | O => EmptyString
  | S n' =>
      (digits_of n' (z / 10)
       ++ String (digit_char (z mod 10)) EmptyString)%string
  end.

(** [f"{v:.{n_dp}f}"]. *)
Definition format_f (v : Q) (n_dp : nat) : string :=
  let scale := (10 ^ Z.of_nat n_dp)%Z in
  let r := round_half_even (Qabs v * inject_Z scale) in
  let sign := if Qlt_bool v 0 then "-"%string else EmptyString in
  let frac :=
    match n_dp with
    | O => EmptyString
    | _ => ("." ++ digits_of n_dp (r mod scale))%string
    end in
  (sign ++ Z_to_string (r / scale) ++ frac)%string.

(** [_count_decimal_places]. *)
Definition _count_decimal_places (n : Q) : nat :=
  let s := format_f n 10 in
  match py_split "." s with
  | _ :: frac :: _ => String.length (rstrip_by (Ascii.eqb "0") frac)
  | _ => 0%nat
  end.

(** ** Few-shot examples: [_prepare_configurations_acquisition] *)

(** The argument [observed_fvals]: absent, a table, or (on the query path)
    a float. *)
Inductive fvals_arg : Type :=
| FNone
| FFrame (df : DataFrame Q)
| FFloat (x : Q).

Definition df_index {C : Type} (df : DataFrame C) : list nat :=
  map fst (rows df).

(** [df.loc[labels]]: the rows with these index labels, in the order of
    the labels; [KeyError] for a label that no row has. *)
Fixpoint df_loc_rows {C : Type} (labels : list nat) (l : list (nat * list C))
  : res (list (nat * list C)) :=
  match labels with
  | [] => Ok []
  | i :: t =>
      match filter (fun r => Nat.eqb (fst r) i) l with
      | [] => Raise KeyError
      | found => (rest <- df_loc_rows t l ;; Ok (found ++ rest))%res
      end
  end.

Definition df_loc {C : Type} (labels : list nat) (df : DataFrame C)
  : res (DataFrame C) :=
  (rs <- df_loc_rows labels (rows df) ;; Ok (mkDF (columns df) rs))%res.

(** The value of a row in the first column. *)
Definition first_cell (r : nat * list Q) : Q := nth 0 (snd r) 0.

Fixpoint insert_row (leb : Q -> Q -> bool) (r : nat * list Q)
  (l : list (nat * list Q)) : list (nat * list Q) :=
  match l with
  | [] => [r]
  | h :: t =>
      if leb (first_cell r) (first_cell h) then r :: l
      else h :: insert_row leb r t
  end.

(** [df.sort_values(by=df.columns[0], ascending=..)].  pandas does not fix
    the order of rows with equal values; here they keep their order. *)
Definition sort_values (df : DataFrame Q) (ascending : bool)
  : res (DataFrame Q) :=
  match columns df with
  | [] => Raise IndexError
  | _ :: _ =>
      let leb := if ascending then Qle_bool else (fun a b => Qle_bool b a) in
      Ok (mkDF (columns df) (fold_right (insert_row leb) [] (rows df)))
  end.

Fixpoint index_of (k : string) (l : list string) : option nat :=
  match l with
  | [] => None
  | h :: t => if String.eqb k h then Some 0%nat
              else option_map S (index_of k t)
  end.

Fixpoint pick_cells {C : Type} (old_cols new_cols : list string)
  (cells : list C) : res (list C) :=
  match new_cols with
  | [] => Ok []
  | c :: t =>
      match index_of c old_cols with
      | None => Raise KeyError
      | Some j =>
          match nth_error cells j with
          | None => Raise IndexError
          | Some v =>
              (rest <- pick_cells old_cols t cells ;; Ok (v :: rest))%res
          end
      end
  end.

Fixpoint pick_rows {C : Type} (old_cols new_cols : list string)
  (l : list (nat * list C)) : res (list (nat * list C)) :=
  match l with
  | [] => Ok []
  | r :: t =>
      (cells <- pick_cells old_cols new_cols (snd r) ;;
       rest <- pick_rows old_cols new_cols t ;;
       Ok ((fst r, cells) :: rest))%res
  end.

(** [df[cols]]: the columns [cols], in that order. *)
Definition df_select {C : Type} (cols : list string) (df : DataFrame C)
  : res (DataFrame C) :=
  (rs <- pick_rows (columns df) cols (rows df) ;; Ok (mkDF cols rs))%res.

(** [df.index.get_loc(label)], for an index without repeated labels. *)
Fixpoint get_loc (label : nat) (idx : list nat) : res nat :=
  match idx with
  | [] => Raise KeyError
  | h :: t => if Nat.eqb label h then Ok 0%nat
              else (j <- get_loc label t ;; Ok (S j))%res
  end.

Definition or_raise {A : Type} (e : exn) (o : option A) : res A :=
  match o with
  | Some a => Ok a
  | None => Raise e
  end.

Section Formatting.

Context {env : Collaborators}.
Variable self : LLM_ACQ.

(** The reordering of the rows (the branch on [seed]). *)
Definition order_rows (observed_configs : DataFrame Q)
  (observed_fvals : fvals_arg) (seed : option nat)
  : M (DataFrame Q * fvals_arg) :=
  match seed with
  | Some seed =>
      (seed_rng seed ;;;
       shuffled_indices <-
         draw (np_random_permutation nat (df_index observed_configs)) ;;
       observed_configs <- lift (df_loc shuffled_indices observed_configs) ;;
       match observed_fvals with
       | FNone => ret (observed_configs, FNone)
       | FFrame fv =>
           fv <- lift (df_loc shuffled_indices fv) ;;
           ret (observed_configs, FFrame fv)
       | FFloat _ => raise AttributeError
       end)%M
  | None =>
      match observed_fvals with
      | FFrame fv =>
          (fv <- lift (sort_values fv (negb (lower_is_better self))) ;;
           observed_configs <- lift (df_loc (df_index fv) observed_configs) ;;
           ret (observed_configs, FFrame fv))%M
      | _ => ret (observed_configs, observed_fvals)
      end
  end.

(** The text of one value of a row (the choice of the precision and the
    two branches on [apply_warping]). *)
Definition render_value (name : string) (value : Q) : res string :=
  (c <- or_raise KeyError
          (dict_get name (hyperparameter_constraints (task_context self))) ;;
   let hyp_type := value_type c in
   let hyp_transform := transform c in
   let is_int := String.eqb hyp_type "int" in
   let is_float := String.eqb hyp_type "float" in
   let is_ordinal := String.eqb hyp_type "ordinal" in
   lower_bound <-
     or_raise IndexError
       (if is_int || is_float then nth_error (search_range c) 0
        else nth_error (search_range c) 1) ;;
   let n_dp := _count_decimal_places lower_bound in
   let n_dp :=
     if is_float
     then Nat.max 1 (Nat.max n_dp (_count_decimal_places value))
     else n_dp in
   Ok (if apply_warping self then
         if is_int && negb (is_log hyp_transform)
         then Z_to_string (py_int value)
         else if is_float || is_log hyp_transform then format_f value n_dp
         else if is_ordinal then format_f value n_dp
         else py_str value
       else
         if is_int then Z_to_string (py_int value)
         else if is_float || is_ordinal then format_f value n_dp
         else py_str value))%res.

Definition nat_to_string (n : nat) : string := Z_to_string (Z.of_nat n).

(** The inner loop over the values of a row, from position [i]. *)
Fixpoint render_cells (use_feature_semantics : bool)
  (hyperparameter_names : list string) (len_row : nat) (i : nat)
  (cells : list Q) : res string :=
  match cells with
  | [] => Ok EmptyString
  | value :: t =>
      (name <- or_raise IndexError (nth_error hyperparameter_names i) ;;
       txt <- render_value name value ;;
       rest <- render_cells use_feature_semantics hyperparameter_names
                            len_row (S i) t ;;
       let label :=
         if use_feature_semantics then (name ++ ": ")%string
         else ("X" ++ nat_to_string (i + 1) ++ ": ")%string in
       let sep :=
         if Nat.eqb i (len_row - 1) then EmptyString else ", "%string in
       Ok (label ++ txt ++ sep ++ rest)%string)%res
  end.

(** The performance of the row with index label [index]. *)
Definition render_perf (fv : DataFrame Q) (index : nat) : res string :=
  (row_index <- get_loc index (df_index fv) ;;
   r <- or_raise IndexError (nth_error (rows fv) row_index) ;;
   x <- or_raise IndexError (nth_error (snd r) 0) ;;
   Ok (format_f x 6))%res.

(** The loop over the rows. *)
Fixpoint render_rows (use_feature_semantics : bool)
  (hyperparameter_names : list string) (observed_fvals : fvals_arg)
  (l : list (nat * list Q)) : res (list (dict string)) :=
  match l with
  | [] => Ok []
  | (index, row) :: t =>
      (cells <- render_cells use_feature_semantics hyperparameter_names
                             (length row) 0 row ;;
       let example := [("Q", "## " ++ cells ++ " ##")]%string in
       example <-
         match observed_fvals with
         | FNone => Ok example
         | FFrame fv =>
             (perf <- render_perf fv index ;;
              Ok (dict_set "A"%string perf example))
         | FFloat _ => Raise AttributeError
         end ;;
       rest <- render_rows use_feature_semantics hyperparameter_names
                           observed_fvals t ;;
       Ok (example :: rest))%res
  end.

Definition _prepare_configurations_acquisition
  (observed_configs : option (DataFrame Q)) (observed_fvals : fvals_arg)
  (seed : option nat) (use_feature_semantics : bool) (shuffle_features : bool)
  : M (list (dict string)) :=
  match observed_configs with
  | None =>
      match observed_fvals with
      | FFloat x => ret [[("A"%string, format_f x 6)]]
      | FFrame _ => raise TypeError
      | FNone => raise ValueError
      end
  | Some observed_configs =>
      (ordered <- order_rows observed_configs observed_fvals seed ;;
       let observed_configs := fst ordered in
       let observed_fvals := snd ordered in
       observed_configs <-
         (if shuffle_features then
            seed_rng 0 ;;;
            shuffled_columns <-
              draw (np_random_permutation string (columns observed_configs)) ;;
            lift (df_select shuffled_columns observed_configs)
          else ret observed_configs) ;;
       lift (render_rows use_feature_semantics (columns observed_configs)
                         observed_fvals (rows observed_configs)))%M
  end.

End Formatting.

(** ** Prompt variants: [_gen_prompt_templates_acquisitions] *)

(** A [FewShotPromptTemplate]: the examples, and the texts around them. *)
Record prompt_template : Type := mkTemplate {
  examples : list (dict string);
  prefix : string;
  suffix : string
}.

(** The texts of a prompt that are not modelled: the assembly of the prefix
    (task description, ranges, observed values, integer hint) and of the
    suffix (warning on random sampling), as functions of what they are
    built from, and langchain's rendering of a template for a query. *)
Class PromptText : Type := {
  prefix_text : task_context_t -> DataFrame Q -> Q -> string;
  suffix_text : DataFrame Q -> nat -> string;
  template_format : prompt_template -> string -> string
}.

Section Prompts.

Context {env : Collaborators} {txt : PromptText}.
Variable self : LLM_ACQ.

(** [_jitter]. *)
Definition _jitter (desired_fval : Q) : M Q :=
  if negb (apply_jitter self) then ret desired_fval
  else
    match observed_best self, observed_worst self, alpha self with
    | Some best, Some _, Some _ =>
        draw (np_random_uniform (Qmin desired_fval best)
                                (Qmax desired_fval best))
    | _, _, _ => raise AssertionError
    end.

(** The loop [for i in range(n_prompts)], from [i]; [k] variants are
    left to build. *)
Fixpoint gen_variants (observed_configs : DataFrame Q)
  (observed_fvals : DataFrame Q) (desired_fval : Q)
  (use_feature_semantics shuffle_features : bool) (n_initial_samples : nat)
  (i k : nat) : M (list prompt_template * list (list (dict string))) :=
  match k with
  | O => ret ([], [])
  | S k' =>
      (few_shot_examples <-
         _prepare_configurations_acquisition self (Some observed_configs)
           (FFrame observed_fvals) (Some i) use_feature_semantics false ;;
       jittered_desired_fval <- _jitter desired_fval ;;
       let few_shot_prompt :=
         mkTemplate few_shot_examples
           (prefix_text (task_context self) observed_configs
                        jittered_desired_fval)
           (suffix_text observed_configs n_initial_samples) in
       query_examples <-
         _prepare_configurations_acquisition self None
           (FFloat jittered_desired_fval) None true shuffle_features ;;
       rest <- gen_variants observed_configs observed_fvals desired_fval
                 use_feature_semantics shuffle_features n_initial_samples
                 (S i) k' ;;
       ret (few_shot_prompt :: fst rest, query_examples :: snd rest))%M
  end.

Definition _gen_prompt_templates_acquisitions (observed_configs : DataFrame Q)
  (observed_fvals : DataFrame Q) (desired_fval : Q) (n_prompts : nat)
  (use_feature_semantics shuffle_features : bool) (n_initial_samples : nat)
  : M (list prompt_template * list (list (dict string))) :=
  (record_event (EvGenerate n_prompts) ;;;
   gen_variants observed_configs observed_fvals desired_fval
     use_feature_semantics shuffle_features n_initial_samples 0 n_prompts)%M.

(** ** Dispatch: [_async_generate_concurrently] *)

(** [_async_generate]: one call of the transport; it returns the pair that
    the transport returns, or raises what the transport raises. *)
Definition _async_generate (user_message : string) (n : Net)
  : res (option (string * Q)) * Net :=
  match ask user_message n with
  | (Ok (resp, tot_cost), n') => (Ok (Some (resp, tot_cost)), n')
  | (Raise e, n') => (Raise e, n')
  end.

(** The messages of the coroutines:
    [prompt_template.format(A=query_template[0]["A"])] over the [zip]. *)
Fixpoint build_messages (prompt_templates : list prompt_template)
  (query_templates : list (list (dict string))) : res (list string) :=
  match prompt_templates, query_templates with
  | prompt_template :: pts, query_template :: qts =>
      (q0 <- or_raise IndexError (nth_error query_template 0) ;;
       a <- or_raise KeyError (dict_get "A"%string q0) ;;
       rest <- build_messages pts qts ;;
       Ok (template_format prompt_template a :: rest))%res
  | _, _ => Ok []
  end.

(** The tasks run one after the other, in the order of their creation (a
    task never yields: the call of the transport is synchronous), and all
    of them run. *)
Fixpoint run_tasks (messages : list string) (n : Net)
  : list (res (option (string * Q))) * Net :=
  match messages with
  | [] => ([], n)
  | m :: t =>
      let (r, n1) := _async_generate m n in
      let (rs, n2) := run_tasks t n1 in
      (r :: rs, n2)
  end.

(** [await asyncio.gather] on the tasks: the results in the order of the tasks,
    or the first exception. *)
Fixpoint gather {A : Type} (outcomes : list (res A)) : res (list A) :=
  match outcomes with
  | [] => Ok []
  | Ok a :: t => (rest <- gather t ;; Ok (a :: rest))%res
  | Raise e :: _ => Raise e
  end.

(** [l[idx] = v]. *)
Fixpoint assign_at {A : Type} (idx : nat) (v : A) (l : list A) : list A :=
  match l, idx with
  | [], _ => []
  | _ :: t, O => v :: t
  | h :: t, S i => h :: assign_at i v t
  end.

(** The loop that copies the responses into [results]. *)
Definition fill_results {A : Type} (results : list (option A))
  (llm_response : list (option A)) : list (option A) :=
  fold_left (fun results ir =>
               match snd ir with
               | Some response => assign_at (fst ir) (Some response) results
               | None => results
               end)
            (number_from 0 llm_response) results.

(** The tasks are created, and so scheduled, before the assertion on their
    count.  When the assertion fails they are not withdrawn: under
    [asyncio.run] they run on the next pass of the event loop, each to its
    end, before the error reaches the caller, and their outcomes are
    lost. *)
Definition _async_generate_concurrently
  (prompt_templates : list prompt_template)
  (query_templates : list (list (dict string)))
  : M (list (option (string * Q))) :=
  (coroutines <- lift (build_messages prompt_templates query_templates) ;;
   if negb (Nat.eqb (length coroutines) (num_prompt_variants self))
   then
     record_event (EvDispatch coroutines) ;;;
     (fun w =>
        let (_, n') := run_tasks coroutines (net w) in
        (Ok tt, mkWorld (rng w) n' (log w))) ;;;
     raise AssertionError
   else
     record_event (EvDispatch coroutines) ;;;
     let results := repeat None (length coroutines) in
     llm_response <-
       (fun w =>
          let (outcomes, n') := run_tasks coroutines (net w) in
          (gather outcomes, mkWorld (rng w) n' (log w))) ;;
     ret (fill_results results llm_response))%M.

(** ** The retry loop: [get_candidate_points] *)

Definition exhausted_message : string :=
  "LLM failed to generate sufficient candidate points after 10 retries".

(** One pass of the body of the loop, up to the validation: the raw
    candidates, the validated table and the cost so far. *)
Definition attempt (observed_configs : DataFrame Q)
  (prompt_templates : list prompt_template)
  (query_templates : list (list (dict string))) (tot_cost : Q)
  : M (list (dict Q) * DataFrame (option Q) * Q) :=
  (llm_responses <-
     _async_generate_concurrently prompt_templates query_templates ;;
   let (tot_cost, candidate_points) :=
     collect_candidates llm_responses tot_cost [] in
   filtered_candidate_points <-
     lift (_filter_candidate_points self (to_dict_records observed_configs)
                                    candidate_points 6) ;;
   ret (candidate_points, filtered_candidate_points, tot_cost))%M.

(** The [while] loop.  [None]: the fuel does not suffice. *)
Fixpoint retry_loop (fuel : nat) (observed_configs : DataFrame Q)
  (prompt_templates : list prompt_template)
  (query_templates : list (list (dict string)))
  (filtered_candidate_points : DataFrame (option Q)) (tot_cost : Q)
  (retry : nat) (w : world)
  : option (res (DataFrame (option Q) * Q) * world) :=
  if (shape0 filtered_candidate_points <? 5)%nat then
    match fuel with
    | O => None
    | S fuel' =>
        match attempt observed_configs prompt_templates query_templates
                      tot_cost w
        with
        | (Raise e, w1) => Some (Raise e, w1)
        | (Ok (candidate_points, filtered_candidate_points, tot_cost), w1) =>
            let retry := S retry in
            if (10 <? retry)%nat then
              if (5 <=? length candidate_points)%nat then
                Some (Ok (DataFrame_of_records candidate_points, tot_cost), w1)
              else Some (Raise (RuntimeError exhausted_message), w1)
            else
              retry_loop fuel' observed_configs prompt_templates
                query_templates filtered_candidate_points tot_cost retry w1
        end
    end
  else Some (Ok (filtered_candidate_points, tot_cost), w).

Definition set_alpha (s : LLM_ACQ) (a : Q) : LLM_ACQ :=
  mkLLM_ACQ (task_context s) (n_candidates s) (num_prompt_variants s)
            (lower_is_better s) (apply_jitter s) (warping_transformer s)
            (apply_warping s) (prompt_setting s) (shuffle_features s)
            (observed_best s) (observed_worst s) (Some a) (desired_fval s).

Definition set_desired_fval (s : LLM_ACQ) (d : Q) : LLM_ACQ :=
  mkLLM_ACQ (task_context s) (n_candidates s) (num_prompt_variants s)
            (lower_is_better s) (apply_jitter s) (warping_transformer s)
            (apply_warping s) (prompt_setting s) (shuffle_features s)
            (observed_best s) (observed_worst s) (alpha s) (Some d).

End Prompts.

Section Engine.

Context {env : Collaborators} {txt : PromptText}.

(** The prompt printed before the loop:
    [prompt_templates[0].format(A=query_templates[0][0]["A"])]. *)
Definition example_prompt (prompt_templates : list prompt_template)
  (query_templates : list (list (dict string))) : res string :=
  (pt <- or_raise IndexError (nth_error prompt_templates 0) ;;
   qt <- or_raise IndexError (nth_error query_templates 0) ;;
   q0 <- or_raise IndexError (nth_error qt 0) ;;
   a <- or_raise KeyError (dict_get "A"%string q0) ;;
   Ok (template_format pt a))%res.

(** [get_candidate_points].  The result is the table and the total cost;
    the elapsed time is not modelled.  [None]: the fuel of the loop does
    not suffice. *)
Definition get_candidate_points (fuel : nat) (self : LLM_ACQ)
  (observed_configs observed_fvals : DataFrame Q)
  (use_feature_semantics : bool) (alpha : Q)
  (current_trial n_initial_samples : nat) (w : world)
  : option (res (DataFrame (option Q) * Q) * world) :=
  let alpha := if Qle_bool alpha 0 then 1 # 1000 else alpha in
  let self := set_alpha self alpha in
  match _adjust_alpha_and_desired_fval self observed_fvals alpha with
  | Raise e => Some (Raise e, w)
  | Ok (self, (alpha_adjusted, desired_fval)) =>
      let self := set_desired_fval self desired_fval in
      let observed_configs :=
        match warping_transformer self with
        | Some wt => warp wt observed_configs
        | None => observed_configs
        end in
      match _gen_prompt_templates_acquisitions self observed_configs
              observed_fvals desired_fval (num_prompt_variants self)
              use_feature_semantics (shuffle_features self)
              n_initial_samples w
      with
      | (Raise e, w1) => Some (Raise e, w1)
      | (Ok (prompt_templates, query_templates), w1) =>
          match example_prompt prompt_templates query_templates with
          | Raise e => Some (Raise e, w1)
          | Ok _ =>
              let tot_cost := 0 in
              let retry := 0%nat in
              let filtered_candidate_points := mkDF [] [] in
              match retry_loop self fuel observed_configs prompt_templates
                      query_templates filtered_candidate_points tot_cost
                      retry w1
              with
              | None => None
              | Some (Raise e, w2) => Some (Raise e, w2)
              | Some (Ok (filtered_candidate_points, tot_cost), w2) =>
                  let filtered_candidate_points :=
                    match warping_transformer self with
                    | Some wt => unwarp wt filtered_candidate_points
                    | None => filtered_candidate_points
                    end in
                  Some (Ok (filtered_candidate_points, tot_cost), w2)
              end
          end
      end
  end.

End Engine.

(** * The vocabulary of the properties *)

(** ** Validation *)

Section ValidationTerms.

Context {env : Collaborators}.
Variable self : LLM_ACQ.

(** What the validator asks of one field, in the words of the
    specification: a range for [int] and [float] (in log10 space for a
    log-transformed hyperparameter under warping, and a whole number for an
    [int] otherwise), closeness to an allowed value for [ordinal]. *)
Definition in_bounds (v : Q) (c : constraint) : Prop :=
  exists lo hi, search_range c = [lo; hi] /\
    if is_log (transform c) && apply_warping self
    then np_log10 lo <= v /\ v <= np_log10 hi
    else lo <= v /\ v <= hi.

Definition whole (v : Q) : Prop := exists n : Z, v == inject_Z n.

Definition close_to (v x : Q) : Prop :=
  Qabs (v - x) <= Qmax (default_rel_tol * Qmax (Qabs v) (Qabs x)) (1 # 100).

Definition field_ok (v : Q) (c : constraint) : Prop :=
  (value_type c = "int"%string /\ in_bounds v c /\
   (is_log (transform c) && apply_warping self = false -> whole v))
  \/ (value_type c = "float"%string /\ in_bounds v c)
  \/ (value_type c = "ordinal"%string /\
      exists x, In x (search_range c) /\ close_to v x).

(** The candidate passes the range check. *)
Definition passes (R : dict constraint) (d : dict Q) : bool :=
  match is_dict_within_ranges self d R with
  | Ok true => true
  | _ => false
  end.

End ValidationTerms.

(** A constraint of the data model: a known kind, and a pair of bounds for
    [int] and [float]. *)
Definition constraint_wf (c : constraint) : Prop :=
  ((value_type c = "int"%string \/ value_type c = "float"%string) /\
   exists lo hi, search_range c = [lo; hi])
  \/ value_type c = "ordinal"%string.

Definition context_wf (R : dict constraint) : Prop :=
  forall k r, dict_get k R = Some r -> constraint_wf r.

(** The cells of the row that a table built from [records] gives to [d]. *)
Definition row_of (records : list (dict Q)) (d : dict Q) : list (option Q) :=
  map (fun c => dict_get c d) (union_keys records).

(** The rows of a list are pairwise different. *)
Definition distinct_rows (l : list (list (option Q))) : Prop :=
  ForallOrdPairs (fun a b => row_eqb a b = false) l.

(** ** The target *)

(** The ladder is exhausted at [a]: no value of [alpha_range] is below. *)
Definition ladder_exhausted (a : Q) : Prop := next_alpha a = None.

(** [b] is the best of the values [l] under the direction. *)
Definition best_of (lower : bool) (l : list Q) (b : Q) : Prop :=
  In b l /\ Forall (fun x => if lower then b <= x else x <= b) l.

(** [d] is not on the worse side of [b]. *)
Definition improves (lower : bool) (b d : Q) : Prop :=
  if lower then d <= b else b <= d.

(** The target for [a]: the best observation moved by [a] times the range
    of the observations, towards the improving side. *)
Definition target_for (lower : bool) (best worst a : Q) : Q :=
  if lower then best - a * (worst - best) else best + a * (best - worst).

(** The band that the loops guard: above 1e-5 under minimization, below
    0.9999 under maximization. *)
Definition in_band (lower : bool) (d : Q) : Prop :=
  if lower then 1 # 100000 < d else d < 9999 # 10000.

(** The documented clamp value. *)
Definition clamp (lower : bool) (b : Q) : Q :=
  if lower then Qmax (1 # 100000) (b * (9 # 10))
  else Qmin (9999 # 10000) (b * (105 # 100)).

(** ** Parsing *)

Section ParsingTerms.

Context {env : Collaborators}.

(** A pair that the parser does not accept: not exactly one colon, or a
    value that [float] rejects. *)
Definition malformed (pair_str : string) : Prop :=
  occurrences ":" pair_str <> 1%nat
  \/ exists key value,
       py_split ":" pair_str = [key; value] /\ py_float (strip value) = None.

End ParsingTerms.

(** The cost of the responses of a batch. *)
Fixpoint total_cost (l : list (option (string * Q))) : Q :=
  match l with
  | [] => 0
  | None :: t => total_cost t
  | Some (_, cost) :: t => cost + total_cost t
  end.

(** ** Dispatch and the retry loop *)

Section EngineTerms.

Context {env : Collaborators} {txt : PromptText}.
Variable self : LLM_ACQ.
Variable observed_configs : DataFrame Q.
Variable prompt_templates : list prompt_template.
Variable query_templates : list (list (dict string)).

(** The messages that a dispatch sends. *)
Definition messages_of (prompt_templates : list prompt_template)
  (query_templates : list (list (dict string))) : list string :=
  match build_messages prompt_templates query_templates with
  | Ok messages => messages
  | Raise _ => []
  end.

(** [k] attempts in a row, each of which returns fewer than 5 validated
    candidates, lead from a world and a cost to a world and a cost. *)
Inductive stalls : nat -> world -> Q -> world -> Q -> Prop :=
| stalls_O (w : world) (tot : Q) : stalls 0 w tot w tot
| stalls_S (k : nat) (w w1 w' : world) (tot tot1 tot' : Q)
    (raw : list (dict Q)) (filtered : DataFrame (option Q)) :
    attempt self observed_configs prompt_templates query_templates tot w
    = (Ok (raw, filtered, tot1), w1) ->
    (shape0 filtered < 5)%nat ->
    stalls k w1 tot1 w' tot' ->
    stalls (S k) w tot w' tot'.

(** A computation that makes no logged call. *)
Definition keeps_log {A : Type} (c : M A) : Prop :=
  forall w, log (snd (c w)) = log w.

End EngineTerms.

(** ** Few-shot examples and rendering *)

(** The order of two rows under the direction: the better one comes
    last. *)
Definition worse_first (lower : bool) (r1 r2 : nat * list Q) : Prop :=
  if lower then first_cell r2 <= first_cell r1
  else first_cell r1 <= first_cell r2.

(** A text with a decimal point followed by exactly [n] characters. *)
Definition has_decimals (n : nat) (s : string) : Prop :=
  exists int_part frac,
    s = (int_part ++ "." ++ frac)%string /\ String.length frac = n.

(** ** An instance of the collaborators, for the examples *)

Module Demo.

Definition digit_val (c : ascii) : option Z :=
  let n := nat_of_ascii c in
  if (48 <=? n)%nat && (n <=? 57)%nat then Some (Z.of_nat (n - 48)) else None.

Fixpoint read_digits (s : string) (acc : Z) (n : nat) : Z * nat * string :=
  match s with
  | String c s' =>
      match digit_val c with
      | Some d => read_digits s' (acc * 10 + d)%Z (S n)
      | None => (acc, n, s)
      end
  | EmptyString => (acc, n, EmptyString)
  end.

(** [float] on the plain decimal literals: a sign, digits, a point. *)
Definition decimal_literal (s : string) : option Q :=
  let (neg, s1) :=
    match s with
    | String "-" t => (true, t)
    | String "+" t => (false, t)
    | _ => (false, s)
    end in
  let '(ip, ni, s2) := read_digits s1 0 0 in
  let '(fp, nf, s3) :=
    match s2 with
    | String "." t => read_digits t 0 0
    | _ => (0%Z, 0%nat, s2)
    end in
  match s3 with
  | EmptyString =>
      if (0 <? ni + nf)%nat then
        let scale := (10 ^ Z.of_nat nf)%Z in
        let m := (ip * scale + fp)%Z in
        Some (Qred (Qmake (if neg then - m else m) (Z.to_pos scale)))
      else None
  | _ => None
  end.

(** [log10] on the powers of ten that the examples use, a step function
    elsewhere. *)
Definition floor_log10 (x : Q) : Q :=
  if Qle_bool 1000 x then 3
  else if Qle_bool 100 x then 2
  else if Qle_bool 10 x then 1
  else 0.

Fixpoint rotate {A : Type} (n : nat) (l : list A) : list A :=
  match n, l with
  | S k, h :: t => rotate k (t ++ [h])
  | _, _ => l
  end.

(** The backend answers with the next entry of a script. *)
Definition scripted (message : string) (n : list (res (string * Q)))
  : res (string * Q) * list (res (string * Q)) :=
  match n with
  | r :: t => (r, t)
  | [] => (Raise (TransportError "no response"), [])
  end.

#[export] Instance env : Collaborators := {
  Rng := nat;
  np_random_seed := fun seed => seed;
  np_random_permutation := fun A l g => (rotate g l, S g);
  np_random_uniform := fun lo hi g => ((lo + hi) / 2, S g);
  np_log10 := floor_log10;
  py_float := decimal_literal;
  py_str := fun x => format_f x 1;
  Net := list (res (string * Q));
  ask := scripted
}.

#[export] Instance txt : PromptText := {
  prefix_text := fun _ _ target => ("target " ++ format_f target 6)%string;
  suffix_text := fun _ _ => EmptyString;
  template_format := fun pt a => (prefix pt ++ " for " ++ a)%string
}.

Definition world0 (script : list (res (string * Q))) : world :=
  mkWorld (0%nat : Rng) (script : Net) [].

End Demo.

(** ** Concrete inputs for the examples *)

Module Scenario.

Import Demo.

(** The task of the end-to-end scenario: an integer and a float. *)
Definition forest : task_context_t :=
  mkTaskContext
    [("n_estimators"%string, mkConstraint "int" None [50; 300]);
     ("ccp_alpha"%string, mkConstraint "float" None [0; 1 # 100])]
    None.

(** Minimization, and one or three prompt variants. *)
Definition acq1 : LLM_ACQ := init forest 5 1 true false None None false.
Definition acq3 : LLM_ACQ := init forest 5 3 true false None None false.

Definition configs : DataFrame Q :=
  mkDF ["n_estimators"; "ccp_alpha"]%string
       [(0%nat, [100; 1 # 1000]); (1%nat, [200; 2 # 1000]);
        (2%nat, [150; 5 # 1000])].

Definition fvals : DataFrame Q :=
  mkDF ["score"%string]
       [(0%nat, [3 # 10]); (1%nat, [1 # 10]); (2%nat, [2 # 10])].

(** All observed performances equal. *)
Definition flat_fvals : DataFrame Q :=
  mkDF ["score"%string] [(0%nat, [1 # 2]); (1%nat, [1 # 2])].

(** One float in the unit interval. *)
Definition unit_task : task_context_t :=
  mkTaskContext [("x"%string, mkConstraint "float" None [0; 1])] None.
Definition acq_unit : LLM_ACQ := init unit_task 5 1 true false None None false.

(** Two candidates that differ in the seventh decimal. *)
Definition near_twins : list (dict Q) :=
  [[("x"%string, 1234561 # 10000000)]; [("x"%string, 1234562 # 10000000)]].

(** An ordinal with large allowed values, and one with small ones. *)
Definition big_ordinal : task_context_t :=
  mkTaskContext
    [("units"%string, mkConstraint "ordinal" None [100000000; 200000000])]
    None.
Definition acq_big : LLM_ACQ := init big_ordinal 5 1 true false None None false.

Definition small_ordinal : task_context_t :=
  mkTaskContext
    [("rate"%string, mkConstraint "ordinal" None [1 # 4; 1; 2])] None.
Definition acq_small : LLM_ACQ :=
  init small_ordinal 5 1 true false None None false.

(** A backend that never proposes a configuration. *)
Definition silent : list (res (string * Q)) :=
  repeat (Ok ("I cannot help with that."%string, 1 # 100)) 40.

(** A backend whose second call fails. *)
Definition flaky : list (res (string * Q)) :=
  [Ok ("## n_estimators: 120, ccp_alpha: 0.003 ##"%string, 1 # 100);
   Raise (TransportError "timeout");
   Ok ("## n_estimators: 140, ccp_alpha: 0.004 ##"%string, 1 # 100)].

(** One prompt variant and its query, as the builder makes them. *)
Definition one_prompt : list prompt_template :=
  [mkTemplate [] "target 0.080000" EmptyString].
Definition one_query : list (list (dict string)) :=
  [[[("A", "0.080000")]]]%string.
Definition three_prompts : list prompt_template :=
  one_prompt ++ one_prompt ++ one_prompt.
Definition three_queries : list (list (dict string)) :=
  one_query ++ one_query ++ one_query.

(** A response with text and a further delimiter after the closing one. *)
Definition trailing : string := "## x: 0.5 ## , y: 2.0 ##".

(** A response whose second pair has no colon. *)
Definition no_colon : string := "## x: 0.5, y 2.0 ##".

End Scenario.

(** * Further definitions *)

(** ** The target *)

(** How many values of the ladder are below [a]. *)
Definition ladder_rank (a : Q) : nat :=
  length (filter (fun alpha_candidate => Qlt_bool alpha_candidate a)
                 alpha_range).

(** ** Dispatch *)

Section DispatchTerms.

Context {env : Collaborators}.

(** The transport answers the messages one after the other, each with
    success, and goes from one state of the backend to another. *)
Inductive answered : list string -> Net -> list (string * Q) -> Net -> Prop :=
| answered_nil (n : Net) : answered [] n [] n
| answered_cons (m : string) (t : list string) (n n1 n2 : Net)
    (r : string * Q) (rs : list (string * Q)) :
    ask m n = (Ok r, n1) -> answered t n1 rs n2 ->
    answered (m :: t) n (r :: rs) n2.

End DispatchTerms.

(** ** The generator and the backend *)

Section FrameTerms.

Context {env : Collaborators}.

(** A computation that does not call the backend, and one that does not
    use the generator. *)
Definition keeps_net {A : Type} (c : M A) : Prop :=
  forall w, net (snd (c w)) = net w.

Definition keeps_rng {A : Type} (c : M A) : Prop :=
  forall w, rng (snd (c w)) = rng w.

(** A computation whose outcome does not depend on the state in which it
    finds the generator. *)
Definition ignores_rng {A : Type} (c : M A) : Prop :=
  forall w g, c (mkWorld g (net w) (log w)) = c w.

End FrameTerms.

(** ** Further concrete inputs *)

Module MoreScenario.

Import Demo Scenario.

(** A task with a hyperparameter of a kind that the validator does not
    know. *)
Definition odd_task : task_context_t :=
  mkTaskContext
    [("mode"%string, mkConstraint "categorical" None [0; 1])] None.
Definition acq_odd : LLM_ACQ := init odd_task 5 1 true false None None false.

(** Jitter on: as constructed, and with the observations recorded. *)
Definition acq_jitter : LLM_ACQ := init forest 5 1 true true None None false.
Definition acq_ready : LLM_ACQ :=
  set_alpha (set_observed acq_jitter (1 # 10) (3 # 10)) (1 # 10).

(** Five prompt variants, and a backend that proposes five valid
    configurations. *)
Definition acq5 : LLM_ACQ := init forest 5 5 true false None None false.

Definition helpful : list (res (string * Q)) :=
  [Ok ("## n_estimators: 110, ccp_alpha: 0.003 ##"%string, 1 # 100);
   Ok ("## n_estimators: 120, ccp_alpha: 0.003 ##"%string, 1 # 100);
   Ok ("## n_estimators: 130, ccp_alpha: 0.004 ##"%string, 1 # 100);
   Ok ("## n_estimators: 140, ccp_alpha: 0.004 ##"%string, 1 # 100);
   Ok ("## n_estimators: 160, ccp_alpha: 0.006 ##"%string, 1 # 100)].

(** A script in which no answer has a negative cost. *)
Definition charges_fairly (n : list (res (string * Q))) : Prop :=
  Forall (fun r => match r with
                   | Ok (_, c) => 0 <= c
                   | Raise _ => True
                   end) n.

(** No observed performance. *)
Definition no_fvals : DataFrame Q := mkDF ["score"%string] [].

(** The first observed configuration, with its keys in the other order. *)
Definition swapped : dict Q :=
  [("ccp_alpha"%string, 1 # 1000); ("n_estimators"%string, 100)].

End MoreScenario.

(** * Properties *)

(** ** Validation: [_filter_candidate_points] *)

Section ValidationFacts.

Context {env : Collaborators}.
Variable self : LLM_ACQ.

Lemma py_int_whole (v : Q) :
  Qeq_bool (inject_Z (py_int v)) v = true <-> whole v.
Proof.
  split.
  - intros H. exists (py_int v). symmetry. now apply Qeq_bool_eq.
  - intros [n Hn]. apply Qeq_eq_bool.
    rewrite Hn at 2. unfold py_int.
    destruct v as [a b]. unfold Qeq, inject_Z in *. simpl in *.
    rewrite Z.mul_1_r in Hn. subst a.
    rewrite Z.quot_mul by discriminate. reflexivity.
Qed.

Lemma is_within_range_true (v : Q) (c : constraint) :
  is_within_range self v c = Ok true <-> field_ok self v c.
Proof.
  unfold is_within_range, field_ok, in_bounds, close_to.
  destruct (String.eqb_spec (value_type c) "int") as [Hi | Hi].
  { split.
    - intros H. left. split; [exact Hi |].
      destruct (search_range c) as [| lo [| hi [| ? ?]]]; try discriminate.
      destruct (is_log (transform c) && apply_warping self) eqn:Hw.
      + injection H as H. apply andb_true_iff in H as [H1 H2].
        apply Qle_bool_iff in H1, H2.
        split; [exists lo, hi; auto | discriminate].
      + injection H as H. apply andb_true_iff in H as [H H3].
        apply andb_true_iff in H as [H1 H2].
        apply Qle_bool_iff in H1, H2. apply py_int_whole in H3.
        split; [exists lo, hi; auto | auto].
    - intros [[_ [[lo [hi [Hr Hb]]] Hz]] | [[Hf _] | [Hf _]]];
        try (rewrite Hi in Hf; discriminate).
      rewrite Hr.
      destruct (is_log (transform c) && apply_warping self) eqn:Hw.
      + destruct Hb as [H1 H2]. apply Qle_bool_iff in H1, H2.
        now rewrite H1, H2.
      + destruct Hb as [H1 H2]. apply Qle_bool_iff in H1, H2.
        rewrite H1, H2. simpl.
        now rewrite (proj2 (py_int_whole v) (Hz eq_refl)). }
  destruct (String.eqb_spec (value_type c) "float") as [Hf | Hf].
  { split.
    - intros H. right. left. split; [exact Hf |].
      destruct (search_range c) as [| lo [| hi [| ? ?]]]; try discriminate.
      exists lo, hi. split; [reflexivity |].
      destruct (is_log (transform c) && apply_warping self);
        injection H as H; apply andb_true_iff in H as [H1 H2];
        apply Qle_bool_iff in H1, H2; auto.
    - intros [[Hi' _] | [[_ [lo [hi [Hr Hb]]]] | [Ho _]]];
        try congruence.
      rewrite Hr.
      destruct (is_log (transform c) && apply_warping self);
        destruct Hb as [H1 H2]; apply Qle_bool_iff in H1, H2;
        now rewrite H1, H2. }
  destruct (String.eqb_spec (value_type c) "ordinal") as [Ho | Ho].
  { split.
    - intros H. right. right. split; [exact Ho |].
      injection H as H. apply existsb_exists in H as [x [Hx Hc]].
      exists x. split; [exact Hx |].
      unfold isclose in Hc. now apply Qle_bool_iff in Hc.
    - intros [[Hi' _] | [[Hf' _] | [_ [x [Hx Hc]]]]]; try congruence.
      f_equal. apply existsb_exists. exists x. split; [exact Hx |].
      unfold isclose. now apply Qle_bool_iff. }
  split; [discriminate |].
  intros [[H _] | [[H _] | [H _]]]; congruence.
Qed.

(** *** Lists, dictionaries and tables *)

Lemma dict_get_In {V : Type} (k : string) (v : V) (d : dict V) :
  dict_get k d = Some v -> In (k, v) d.
Proof.
  induction d as [| [k' v'] t IH]; simpl; [discriminate |].
  destruct (String.eqb_spec k k') as [-> | _].
  - intros [= ->]. now left.
  - intros H. right. now apply IH.
Qed.

Lemma dict_get_keys {V : Type} (k : string) (d : dict V) :
  dict_get k d <> None <-> In k (dict_keys d).
Proof.
  induction d as [| [k' v'] t IH]; simpl; [tauto |].
  destruct (String.eqb_spec k k') as [-> | Hn].
  - split; [now left | discriminate].
  - rewrite IH. split; [now right | intros [H | H]; congruence].
Qed.

Lemma dict_get_NoDup {V : Type} (k : string) (v : V) (d : dict V) :
  NoDup (dict_keys d) -> In (k, v) d -> dict_get k d = Some v.
Proof.
  induction d as [| [k' v'] t IH]; simpl; [tauto |].
  intros Hnd [H | H]; inversion Hnd as [| ? ? Hk Ht]; subst.
  - injection H as -> ->. now rewrite String.eqb_refl.
  - destruct (String.eqb_spec k k') as [-> | _]; [| now apply IH].
    exfalso. apply Hk. change k' with (fst (k', v)). now apply in_map.
Qed.

Lemma add_new_In (seen ks : list string) (k : string) :
  In k (add_new seen ks) <-> In k seen \/ In k ks.
Proof.
  revert seen. induction ks as [| a t IH]; intros seen; simpl; [tauto |].
  destruct (existsb (String.eqb a) seen) eqn:E; rewrite IH.
  - apply existsb_exists in E as [x [Hx Hax]].
    apply String.eqb_eq in Hax. subst x.
    split; [tauto | intros [H | [H | H]]; subst; auto].
  - rewrite in_app_iff. simpl. tauto.
Qed.

Lemma add_new_NoDup (seen ks : list string) :
  NoDup seen -> NoDup (add_new seen ks).
Proof.
  revert seen. induction ks as [| a t IH]; intros seen Hs; simpl; [exact Hs |].
  destruct (existsb (String.eqb a) seen) eqn:E; apply IH; [exact Hs |].
  apply NoDup_app; [exact Hs | repeat constructor; tauto |].
  intros x Hx [<- | []].
  assert (existsb (String.eqb a) seen = true); [| congruence].
  apply existsb_exists. exists a. split; [exact Hx | apply String.eqb_refl].
Qed.

Lemma union_keys_In (records : list (dict Q)) (k : string) :
  In k (union_keys records) <->
  exists d, In d records /\ In k (dict_keys d).
Proof.
  unfold union_keys.
  assert (G : forall seen,
             In k (fold_left (fun s d => add_new s (dict_keys d)) records seen)
             <-> In k seen \/ exists d, In d records /\ In k (dict_keys d)).
  { induction records as [| d t IH]; intros seen; simpl.
    - split; [tauto | intros [H | [d [[] _]]]; exact H].
    - rewrite IH, add_new_In. split.
      + intros [[H | H] | [d' [H1 H2]]]; eauto.
      + intros [H | [d' [[<- | H1] H2]]]; eauto. }
  rewrite G. simpl. split; [intros [[] | H]; exact H | tauto].
Qed.

Lemma union_keys_NoDup (records : list (dict Q)) : NoDup (union_keys records).
Proof.
  unfold union_keys.
  assert (G : forall seen, NoDup seen ->
             NoDup (fold_left (fun s d => add_new s (dict_keys d)) records
                              seen)).
  { induction records as [| d t IH]; intros seen Hs; simpl; [exact Hs |].
    apply IH. now apply add_new_NoDup. }
  apply G. constructor.
Qed.

Lemma number_from_snd {A : Type} (i : nat) (l : list A) :
  map snd (number_from i l) = l.
Proof.
  revert i. induction l as [| x t IH]; intros i; simpl; [reflexivity |].
  now rewrite IH.
Qed.

Lemma number_from_length {A : Type} (i : nat) (l : list A) :
  length (number_from i l) = length l.
Proof. rewrite <- (number_from_snd i l) at 2. now rewrite length_map. Qed.

Lemma present_items_In (f : string -> option Q) (cols : list string)
  (k : string) (v : Q) :
  In (k, v) (present_items cols (map f cols)) <-> In k cols /\ f k = Some v.
Proof.
  induction cols as [| c cs IH]; simpl; [tauto |].
  destruct (f c) as [w |] eqn:E; simpl; rewrite IH.
  - split.
    + intros [[= <- <-] | [H1 H2]]; auto.
    + intros [[<- | H1] H2]; [left; congruence | auto].
  - split; [tauto |]. intros [[<- | H1] H2]; [congruence | auto].
Qed.

Lemma cell_eqb_refl (a : option Q) : cell_eqb a a = true.
Proof. destruct a; simpl; [apply Qeq_bool_refl | reflexivity]. Qed.

Lemma cell_eqb_sym (a b : option Q) : cell_eqb a b = cell_eqb b a.
Proof. destruct a, b; simpl; [apply Qeq_bool_comm | | |]; reflexivity. Qed.

Lemma row_eqb_refl (r : list (option Q)) : row_eqb r r = true.
Proof.
  induction r as [| a t IH]; simpl; [reflexivity |].
  now rewrite cell_eqb_refl, IH.
Qed.

Lemma row_eqb_sym (r1 r2 : list (option Q)) : row_eqb r1 r2 = row_eqb r2 r1.
Proof.
  revert r2. induction r1 as [| a t IH]; intros [| b t2]; simpl;
    try reflexivity.
  now rewrite cell_eqb_sym, IH.
Qed.

Lemma keep_first_incl (seen : list (list (option Q)))
  (l : list (nat * list (option Q))) (r : nat * list (option Q)) :
  In r (keep_first seen l) -> In r l.
Proof.
  revert seen. induction l as [| a t IH]; intros seen; simpl; [tauto |].
  destruct (existsb (row_eqb (snd a)) seen).
  - intros H. right. now apply IH with seen.
  - intros [H | H]; [now left | right; now apply IH with (snd a :: seen)].
Qed.

Lemma keep_first_unseen (seen : list (list (option Q)))
  (l : list (nat * list (option Q))) (r : nat * list (option Q)) :
  In r (keep_first seen l) ->
  forall s, In s seen -> row_eqb (snd r) s = false.
Proof.
  revert seen. induction l as [| a t IH]; intros seen; simpl; [tauto |].
  destruct (existsb (row_eqb (snd a)) seen) eqn:E.
  - apply IH.
  - intros [<- | H] s Hs.
    + destruct (row_eqb (snd a) s) eqn:F; [| reflexivity].
      assert (existsb (row_eqb (snd a)) seen = true); [| congruence].
      apply existsb_exists. now exists s.
    + apply (IH _ H). now right.
Qed.

Lemma keep_first_distinct (seen : list (list (option Q)))
  (l : list (nat * list (option Q))) :
  distinct_rows (map snd (keep_first seen l)).
Proof.
  revert seen. induction l as [| a t IH]; intros seen; simpl; [constructor |].
  destruct (existsb (row_eqb (snd a)) seen); [apply IH |].
  simpl. constructor; [| apply IH].
  apply Forall_forall. intros r Hr.
  apply in_map_iff in Hr as [r' [<- Hr]].
  rewrite row_eqb_sym. apply (keep_first_unseen _ _ _ Hr). now left.
Qed.

Lemma keep_first_represents (seen : list (list (option Q)))
  (l : list (nat * list (option Q))) (r : nat * list (option Q)) :
  In r l ->
  (exists s, In s seen /\ row_eqb (snd r) s = true)
  \/ (exists r', In r' (keep_first seen l) /\ row_eqb (snd r) (snd r') = true).
Proof.
  revert seen. induction l as [| a t IH]; intros seen; simpl; [tauto |].
  intros [-> | H].
  - destruct (existsb (row_eqb (snd r)) seen) eqn:E.
    + left. apply existsb_exists in E as [s [H1 H2]]. eauto.
    + right. exists r. split; [now left | apply row_eqb_refl].
  - destruct (existsb (row_eqb (snd a)) seen) eqn:E; [now apply IH |].
    destruct (IH (snd a :: seen) H) as [[s [[<- | H1] H2]] | [r' [H1 H2]]].
    + right. exists a. split; [now left | exact H2].
    + left. eauto.
    + right. exists r'. split; [now right | exact H2].
Qed.

(** *** The three steps of the validator *)

Lemma is_dict_within_ranges_true (d : dict Q) (R : dict constraint) :
  is_dict_within_ranges self d R = Ok true <->
  forall k v, In (k, v) d ->
    exists r, dict_get k R = Some r /\ is_within_range self v r = Ok true.
Proof.
  induction d as [| [k v] t IH]; simpl.
  - split; [intros _ ? ? [] | reflexivity].
  - destruct (dict_get k R) as [r |] eqn:E.
    + destruct (is_within_range self v r) as [[|] | e] eqn:F; simpl.
      * rewrite IH. split.
        -- intros H k' v' [[= <- <-] | H']; [eauto | now apply H].
        -- intros H k' v' H'. apply H. now right.
      * split; [discriminate |]. intros H.
        destruct (H k v (or_introl eq_refl)) as [r' [H1 H2]]. congruence.
      * split; [discriminate |]. intros H.
        destruct (H k v (or_introl eq_refl)) as [r' [H1 H2]]. congruence.
    + split; [discriminate |]. intros H.
      destruct (H k v (or_introl eq_refl)) as [r' [H1 H2]]. congruence.
Qed.

Lemma filter_dicts_by_ranges_ok (l l' : list (dict Q)) (R : dict constraint) :
  filter_dicts_by_ranges self l R = Ok l' -> l' = filter (passes self R) l.
Proof.
  revert l'. induction l as [| d t IH]; simpl; intros l'.
  - now intros [= <-].
  - unfold passes at 1.
    destruct (is_dict_within_ranges self d R) as [b | e]; simpl;
      [| discriminate].
    destruct (filter_dicts_by_ranges self t R) as [r | e]; simpl;
      [| discriminate].
    intros [= <-]. rewrite (IH r eq_refl). now destruct b.
Qed.

Lemma is_within_range_total (v : Q) (c : constraint) :
  constraint_wf c -> exists b, is_within_range self v c = Ok b.
Proof.
  unfold is_within_range.
  intros [[[H | H] [lo [hi Hr]]] | H]; rewrite H; simpl; try rewrite Hr;
    try destruct (is_log (transform c) && apply_warping self); eauto.
Qed.

Lemma is_dict_within_ranges_total (d : dict Q) (R : dict constraint) :
  context_wf R -> exists b, is_dict_within_ranges self d R = Ok b.
Proof.
  intros HR. induction d as [| [k v] t IH]; simpl; [eauto |].
  destruct (dict_get k R) as [r |] eqn:E; [| eauto].
  destruct (is_within_range_total v r (HR _ _ E)) as [b ->]. simpl.
  destruct b; eauto.
Qed.

Lemma filter_dicts_by_ranges_total (l : list (dict Q)) (R : dict constraint) :
  context_wf R -> exists l', filter_dicts_by_ranges self l R = Ok l'.
Proof.
  intros HR. induction l as [| d t [r IH]]; simpl; [eauto |].
  destruct (is_dict_within_ranges_total d R HR) as [b ->]. rewrite IH.
  simpl. eauto.
Qed.

(** The shape of the result: the survivors of the two filters, one row
    each, without the repeated rows unless the table has no column. *)
Lemma filter_candidate_points_rows
  (observed candidates : list (dict Q)) (precision : Z)
  (df : DataFrame (option Q)) :
  _filter_candidate_points self observed candidates precision = Ok df ->
  let R := hyperparameter_constraints (task_context self) in
  let surv :=
    filter (passes self R) (not_observed observed candidates precision) in
  columns df = union_keys surv /\
  map snd (rows df) =
    if negb (df_empty (DataFrame_of_records surv))
    then map snd (keep_first [] (number_from 0 (map (row_of surv) surv)))
    else map (row_of surv) surv.
Proof.
  intros H R surv. unfold _filter_candidate_points in H.
  destruct (filter_dicts_by_ranges self
              (not_observed observed candidates precision)
              (hyperparameter_constraints (task_context self)))
    as [l' | e] eqn:E; simpl in H; [| discriminate].
  apply filter_dicts_by_ranges_ok in E. fold R in E. fold surv in E. subst l'.
  destruct (negb (df_empty (DataFrame_of_records surv))); injection H as <-;
    simpl; rewrite number_from_snd; auto.
Qed.

Lemma filter_candidate_points_from
  (observed candidates : list (dict Q)) (precision : Z)
  (df : DataFrame (option Q)) (cells : list (option Q)) :
  _filter_candidate_points self observed candidates precision = Ok df ->
  In cells (map snd (rows df)) ->
  exists c0, In c0 candidates
    /\ dict_in (round_dict precision c0)
               (map (round_dict precision) observed) = false
    /\ passes self (hyperparameter_constraints (task_context self)) c0 = true
    /\ forall k v,
         In (k, v) (present_items (columns df) cells) <->
         dict_get k c0 = Some v.
Proof.
  intros H Hc.
  destruct (filter_candidate_points_rows _ _ _ _ H) as [Hcols Hrows].
  set (surv := filter
                 (passes self
                    (hyperparameter_constraints (task_context self)))
                 (not_observed observed candidates precision)) in *.
  assert (Hin : In cells (map (row_of surv) surv)).
  { rewrite Hrows in Hc.
    destruct (negb (df_empty (DataFrame_of_records surv))); [| exact Hc].
    apply in_map_iff in Hc as [r [<- Hr]].
    apply keep_first_incl in Hr.
    rewrite <- (number_from_snd 0 (map (row_of surv) surv)).
    now apply in_map. }
  apply in_map_iff in Hin as [c0 [<- Hc0]].
  pose proof Hc0 as Hs. apply filter_In in Hs as [Hs Hp].
  apply filter_In in Hs as [Hs Ho]. apply negb_true_iff in Ho.
  exists c0. repeat split; auto.
  - rewrite Hcols. unfold row_of. rewrite present_items_In. tauto.
  - intros Hg. rewrite Hcols. unfold row_of. rewrite present_items_In.
    split; [| exact Hg]. apply union_keys_In. exists c0. split; [exact Hc0 |].
    apply dict_get_keys. congruence.
Qed.

Lemma records_of_In (df : DataFrame (option Q)) (d : dict Q) :
  In d (records_of df) <->
  exists cells, In cells (map snd (rows df))
                /\ d = present_items (columns df) cells.
Proof.
  unfold records_of. rewrite in_map_iff. split.
  - intros [r [<- Hr]]. exists (snd r). split; [now apply in_map | reflexivity].
  - intros [cells [Hc ->]]. apply in_map_iff in Hc as [r [<- Hr]]. eauto.
Qed.

Lemma present_items_key (cols : list string) (cells : list (option Q))
  (k : string) (v : Q) :
  In (k, v) (present_items cols cells) -> In k cols.
Proof.
  revert cells. induction cols as [| c cs IH]; intros [| [w |] t]; simpl;
    try tauto.
  - intros [[= <- <-] | H]; [now left | right; now apply IH with t].
  - intros H. right. now apply IH with t.
Qed.

Lemma present_items_NoDup (cols : list string) (cells : list (option Q)) :
  NoDup cols -> NoDup (present_items cols cells).
Proof.
  revert cells. induction cols as [| c cs IH]; intros cells Hnd;
    [destruct cells; constructor |].
  inversion Hnd as [| ? ? Hc Hcs]; subst.
  destruct cells as [| [w |] t]; simpl; [constructor | | now apply IH].
  constructor; [| now apply IH].
  intros H. apply Hc. now apply present_items_key in H.
Qed.

Lemma dict_eqb_perm (d1 d1' d2 : dict Q) :
  Permutation d1 d1' -> dict_eqb d1 d2 = dict_eqb d1' d2.
Proof.
  intros HP. unfold dict_eqb. rewrite (Permutation_length HP). f_equal.
  apply eq_true_iff_eq. rewrite !forallb_forall.
  split; intros H x Hx; apply H.
  - now apply (Permutation_in _ (Permutation_sym HP)).
  - now apply (Permutation_in _ HP).
Qed.

Lemma round_dict_keys (p : Z) (d : dict Q) :
  dict_keys (round_dict p d) = dict_keys d.
Proof.
  unfold dict_keys, round_dict, dict_map_values. rewrite map_map.
  now apply map_ext.
Qed.

Lemma number_from_In {A : Type} (i : nat) (l : list A) (x : A) :
  In x l -> exists j, In (j, x) (number_from i l).
Proof.
  revert i. induction l as [| a t IH]; intros i; simpl; [tauto |].
  intros [-> | H]; [exists i; now left |].
  destruct (IH (S i) H) as [j Hj]. exists j. now right.
Qed.

(** C5, as amended.  Every row of the validated table is a candidate taken
    whole: it assigns exactly the fields of that candidate, each of them is
    a key of the constraint set, and each value satisfies its constraint.
    For [int] and [float] that is the range (in log10 space under a log
    transform with warping, and a whole number for an [int] otherwise); for
    [ordinal] it is [math.isclose] with [abs_tol=1e-2] and the default
    [rel_tol=1e-9], that is a distance of at most
    [max(1e-9 * max(|v|, |x|), 1e-2)] to an allowed value [x]. *)
Theorem survivors_satisfy_constraints
  (observed candidates : list (dict Q)) (precision : Z)
  (df : DataFrame (option Q)) (d : dict Q) :
  _filter_candidate_points self observed candidates precision = Ok df ->
  In d (records_of df) ->
  exists c0, In c0 candidates
    /\ (forall k v, In (k, v) d <-> dict_get k c0 = Some v)
    /\ forall k v, In (k, v) c0 ->
         exists c,
           dict_get k (hyperparameter_constraints (task_context self)) = Some c
           /\ field_ok self v c.
Proof.
  intros H Hd. apply records_of_In in Hd as [cells [Hc ->]].
  destruct (filter_candidate_points_from _ _ _ _ _ H Hc)
    as [c0 [Hin [_ [Hp Hmap]]]].
  exists c0. repeat split; try apply Hmap; auto.
  intros k v Hkv. unfold passes in Hp.
  destruct (is_dict_within_ranges self c0
              (hyperparameter_constraints (task_context self)))
    as [[|] | e] eqn:E; try discriminate.
  destruct (proj1 (is_dict_within_ranges_true _ _) E k v Hkv) as [c [H1 H2]].
  exists c. split; [exact H1 | now apply is_within_range_true].
Qed.

(** C4, as amended.  No row of the validated table equals an observed
    point once both are rounded to the precision, and, when the table has a
    column, no two of its rows are equal (exactly, not after rounding). *)
Theorem survivors_not_observed_nor_repeated
  (observed candidates : list (dict Q)) (precision : Z)
  (df : DataFrame (option Q)) :
  Forall (fun c => NoDup (dict_keys c)) candidates ->
  _filter_candidate_points self observed candidates precision = Ok df ->
  (forall d o, In d (records_of df) -> In o observed ->
     dict_eqb (round_dict precision d) (round_dict precision o) = false)
  /\ (columns df <> [] -> distinct_rows (map snd (rows df))).
Proof.
  intros Hwf H. split.
  - intros d o Hd Ho. apply records_of_In in Hd as [cells [Hc ->]].
    destruct (filter_candidate_points_from _ _ _ _ _ H Hc)
      as [c0 [Hin [Hobs [_ Hmap]]]].
    destruct (filter_candidate_points_rows _ _ _ _ H) as [Hcols _].
    assert (Hnd : NoDup (dict_keys c0)).
    { rewrite Forall_forall in Hwf. now apply Hwf. }
    assert (HP : Permutation (present_items (columns df) cells) c0).
    { apply NoDup_Permutation.
      - apply present_items_NoDup. rewrite Hcols. apply union_keys_NoDup.
      - now apply NoDup_map_inv with (f := fst).
      - intros [k v]. rewrite Hmap. split.
        + apply dict_get_In.
        + now apply dict_get_NoDup. }
    unfold round_dict at 1, dict_map_values.
    rewrite (dict_eqb_perm _ _ _ (Permutation_map _ HP)).
    unfold dict_in in Hobs.
    destruct (dict_eqb _ _) eqn:E; [| reflexivity].
    assert (existsb (dict_eqb (round_dict precision c0))
                    (map (round_dict precision) observed) = true);
      [| congruence].
    apply existsb_exists. exists (round_dict precision o).
    split; [now apply in_map | exact E].
  - intros Hne.
    destruct (filter_candidate_points_rows _ _ _ _ H) as [Hcols Hrows].
    rewrite Hrows.
    set (surv := filter
                   (passes self
                      (hyperparameter_constraints (task_context self)))
                   (not_observed observed candidates precision)) in *.
    destruct (negb (df_empty (DataFrame_of_records surv))) eqn:E.
    + apply keep_first_distinct.
    + apply negb_false_iff in E. unfold df_empty in E. simpl in E.
      destruct surv as [| c t] eqn:Es; [constructor |].
      simpl in E. rewrite <- Hcols in E.
      destruct (columns df); [congruence | discriminate].
Qed.

(** A candidate that leaves out a hyperparameter is no observed point when
    the observed points assign every hyperparameter, as the rows of the
    observation table do. *)
Lemma partial_candidate_is_not_observed
  (observed : list (dict Q)) (precision : Z) (c : dict Q) :
  (forall o k, In o observed ->
     dict_get k (hyperparameter_constraints (task_context self)) <> None ->
     dict_get k o <> None) ->
  NoDup (dict_keys c) ->
  (exists k,
     dict_get k (hyperparameter_constraints (task_context self)) <> None
     /\ dict_get k c = None) ->
  dict_in (round_dict precision c) (map (round_dict precision) observed)
  = false.
Proof.
  intros Hobs Hnd [k0 [Hk0 Hmiss]].
  unfold dict_in. destruct (existsb _ _) eqn:E; [| reflexivity].
  exfalso. apply existsb_exists in E as [o' [Ho' E]].
  apply in_map_iff in Ho' as [o [<- Ho]].
  unfold dict_eqb in E. apply andb_true_iff in E as [El Ef].
  apply Nat.eqb_eq in El. rewrite forallb_forall in Ef.
  assert (Hincl : incl (dict_keys c) (dict_keys o)).
  { intros k Hk. rewrite <- (round_dict_keys precision o).
    apply dict_get_keys. rewrite <- (round_dict_keys precision c) in Hk.
    apply in_map_iff in Hk as [[k' v'] [<- Hkv]].
    specialize (Ef _ Hkv). simpl in *.
    destruct (dict_get k' (round_dict precision o)); [discriminate |].
    discriminate. }
  assert (Hback : incl (dict_keys o) (dict_keys c)).
  { apply NoDup_length_incl; [exact Hnd | | exact Hincl].
    unfold dict_keys, round_dict, dict_map_values in *.
    rewrite !length_map in *. lia. }
  assert (Hin : In k0 (dict_keys c)).
  { apply Hback. apply dict_get_keys. now apply Hobs. }
  apply dict_get_keys in Hin. congruence.
Qed.

(** C10, as amended.  A candidate whose fields are all within their
    constraints is kept whether or not it assigns every hyperparameter,
    provided that it is no observed point after rounding and that the
    constraints are those of the data model (otherwise the validation of
    the batch raises): the call returns a table that has the candidate's
    keys among its columns and a row with the candidate's values in these
    columns, the other cells missing. *)
Theorem partial_candidate_is_kept
  (observed candidates : list (dict Q)) (precision : Z) (c : dict Q) :
  context_wf (hyperparameter_constraints (task_context self)) ->
  In c candidates ->
  NoDup (dict_keys c) ->
  (forall k v, In (k, v) c ->
     exists r,
       dict_get k (hyperparameter_constraints (task_context self)) = Some r
       /\ field_ok self v r) ->
  dict_in (round_dict precision c) (map (round_dict precision) observed)
  = false ->
  exists df,
    _filter_candidate_points self observed candidates precision = Ok df
    /\ incl (dict_keys c) (columns df)
    /\ exists cells,
         In cells (map snd (rows df))
         /\ row_eqb cells (map (fun col => dict_get col c) (columns df)) = true.
Proof.
  set (R := hyperparameter_constraints (task_context self)).
  intros HR Hc Hnd Hok Hnew.
  assert (Hdf : exists df,
             _filter_candidate_points self observed candidates precision
             = Ok df).
  { unfold _filter_candidate_points. fold R.
    destruct (filter_dicts_by_ranges_total
                (not_observed observed candidates precision) R HR) as [l' ->].
    simpl. destruct (negb _); eauto. }
  destruct Hdf as [df Hdf]. exists df. split; [exact Hdf |].
  destruct (filter_candidate_points_rows _ _ _ _ Hdf) as [Hcols Hrows].
  fold R in Hcols, Hrows.
  set (surv := filter (passes self R)
                      (not_observed observed candidates precision)) in *.
  assert (Hs : In c surv).
  { apply filter_In. split.
    - apply filter_In. split; [exact Hc |]. now rewrite Hnew.
    - unfold passes.
      rewrite (proj2 (is_dict_within_ranges_true c R)); [reflexivity |].
      intros k v Hkv. destruct (Hok k v Hkv) as [r [H1 H2]].
      exists r. split; [exact H1 | now apply is_within_range_true]. }
  split.
  { intros k Hk. rewrite Hcols. apply union_keys_In. now exists c. }
  rewrite Hcols, Hrows. fold (row_of surv c).
  destruct (negb (df_empty (DataFrame_of_records surv))).
  - destruct (number_from_In 0 (map (row_of surv) surv) (row_of surv c))
      as [j Hj]; [now apply in_map |].
    destruct (keep_first_represents [] _ _ Hj)
      as [[s [[] _]] | [r' [H1 H2]]].
    exists (snd r'). split; [now apply in_map |].
    rewrite row_eqb_sym. exact H2.
  - exists (row_of surv c). split; [now apply in_map | apply row_eqb_refl].
Qed.

End ValidationFacts.

(** ** The target: [_adjust_alpha_and_desired_fval] *)

Section TargetFacts.

Variable self : LLM_ACQ.

Lemma Qlt_bool_iff (x y : Q) : Qlt_bool x y = true <-> x < y.
Proof.
  unfold Qlt_bool. rewrite negb_true_iff. split.
  - intros H. apply Qnot_le_lt. intros Hle.
    apply Qle_bool_iff in Hle. congruence.
  - intros H. destruct (Qle_bool y x) eqn:E; [| reflexivity].
    apply Qle_bool_iff in E. exfalso. now apply (Qlt_not_le x y).
Qed.

Lemma Qmin_pick (x y : Q) : Qmin x y = x \/ Qmin x y = y.
Proof.
  unfold Qmin, GenericMinMax.gmin. destruct (x ?= y); auto.
Qed.

Lemma Qmax_pick (x y : Q) : Qmax x y = x \/ Qmax x y = y.
Proof.
  unfold Qmax, GenericMinMax.gmax. destruct (x ?= y); auto.
Qed.

Lemma fold_Qmin_spec (t : list Q) (x : Q) :
  In (fold_left Qmin t x) (x :: t)
  /\ Forall (fun y => fold_left Qmin t x <= y) (x :: t).
Proof.
  revert x. induction t as [| a t IH]; intros x; simpl.
  - split; [now left | repeat constructor; apply Qle_refl].
  - destruct (IH (Qmin x a)) as [Hin Hall]. split.
    + destruct Hin as [H | H]; [| now right; right].
      rewrite <- H. destruct (Qmin_pick x a) as [-> | ->]; auto.
    + inversion Hall as [| ? ? H1 H2]; subst.
      repeat constructor; [| | exact H2].
      * eapply Qle_trans; [exact H1 | apply Q.le_min_l].
      * eapply Qle_trans; [exact H1 | apply Q.le_min_r].
Qed.

Lemma fold_Qmax_spec (t : list Q) (x : Q) :
  In (fold_left Qmax t x) (x :: t)
  /\ Forall (fun y => y <= fold_left Qmax t x) (x :: t).
Proof.
  revert x. induction t as [| a t IH]; intros x; simpl.
  - split; [now left | repeat constructor; apply Qle_refl].
  - destruct (IH (Qmax x a)) as [Hin Hall]. split.
    + destruct Hin as [H | H]; [| now right; right].
      rewrite <- H. destruct (Qmax_pick x a) as [-> | ->]; auto.
    + inversion Hall as [| ? ? H1 H2]; subst.
      repeat constructor; [| | exact H2].
      * eapply Qle_trans; [apply Q.le_max_l | exact H1].
      * eapply Qle_trans; [apply Q.le_max_r | exact H1].
Qed.

Lemma next_alpha_some (a c : Q) :
  next_alpha a = Some c -> 0 < c /\ c < a.
Proof.
  unfold next_alpha. intros H. apply find_some in H as [Hin Hlt].
  apply Qlt_bool_iff in Hlt. split; [| exact Hlt].
  unfold alpha_range in Hin. simpl in Hin.
  repeat (destruct Hin as [<- | Hin]; [reflexivity |]). destruct Hin.
Qed.

Lemma filter_below_length (l : list Q) (c a : Q) :
  c < a ->
  (length (filter (fun x => Qlt_bool x c) l)
   <= length (filter (fun x => Qlt_bool x a) l))%nat
  /\ (In c l ->
      (length (filter (fun x => Qlt_bool x c) l)
       < length (filter (fun x => Qlt_bool x a) l))%nat).
Proof.
  intros Hca. induction l as [| x t [IH1 IH2]]; simpl; [split; [lia | tauto] |].
  destruct (Qlt_bool x c) eqn:Exc.
  - assert (Exa : Qlt_bool x a = true).
    { apply Qlt_bool_iff. apply Qlt_bool_iff in Exc.
      now apply Qlt_trans with c. }
    rewrite Exa. simpl. split; [lia |].
    intros [-> | Hin]; [| specialize (IH2 Hin); lia].
    apply Qlt_bool_iff in Exc. exfalso. now apply (Qlt_irrefl c).
  - destruct (Qlt_bool x a) eqn:Exa; simpl.
    + split; [lia |]. intros _. lia.
    + split; [exact IH1 |].
      intros [-> | Hin]; [| now apply IH2].
      apply Qlt_bool_iff in Hca. congruence.
Qed.

Lemma next_alpha_rank (a c : Q) :
  next_alpha a = Some c -> (ladder_rank c < ladder_rank a)%nat.
Proof.
  unfold next_alpha, ladder_rank. intros H.
  apply find_some in H as [Hin Hlt]. apply Qlt_bool_iff in Hlt.
  now apply filter_below_length.
Qed.

Lemma ladder_rank_le (a : Q) : (ladder_rank a <= 5)%nat.
Proof.
  unfold ladder_rank.
  apply Nat.le_trans with (length alpha_range); [apply filter_length_le |].
  simpl. lia.
Qed.

Lemma next_alpha_in (a c : Q) : next_alpha a = Some c -> In c alpha_range.
Proof. unfold next_alpha. intros H. now apply find_some in H. Qed.

(** The value that [next_alpha] finds is the largest of the ladder below
    [a]. *)
Lemma next_alpha_first (a c x : Q) :
  next_alpha a = Some c -> In x alpha_range -> c < x -> a <= x.
Proof.
  unfold next_alpha, alpha_range. cbn [find]. intros H Hx Hcx.
  assert (Hno : forall y, Qlt_bool y a = false -> a <= y).
  { intros y Hy. apply Qnot_lt_le. intros Hlt.
    apply Qlt_bool_iff in Hlt. congruence. }
  destruct (Qlt_bool (1 # 10) a) eqn:E1;
    [injection H as <- |
     apply Hno in E1; destruct (Qlt_bool (1 # 100) a) eqn:E2;
     [injection H as <- |
      apply Hno in E2; destruct (Qlt_bool (1 # 1000) a) eqn:E3;
      [injection H as <- |
       apply Hno in E3; destruct (Qlt_bool (1 # 10000) a) eqn:E4;
       [injection H as <- |
        apply Hno in E4; destruct (Qlt_bool (1 # 100000) a) eqn:E5;
        [injection H as <- | discriminate]]]]];
    cbn [In] in Hx;
    repeat (destruct Hx as [<- | Hx]; [lra |]); destruct Hx.
Qed.

Lemma Qabs_of_positive (a : Q) : 0 < a -> Qabs a = a.
Proof.
  destruct a as [n d]. unfold Qlt, Qabs. simpl. intros H.
  f_equal. lia.
Qed.

(** The loop of the minimization branch, from any of its states: [a] is
    the input alpha [a0] or a value of the ladder below it, [d] is its
    target, and the targets of the values above [a] were outside the
    band. *)
Lemma shrink_min_spec (n : nat) (best range_val a0 : Q) :
  forall a d,
    (ladder_rank a < n)%nat ->
    0 < a -> a <= a0 -> (a = a0 \/ In a alpha_range) ->
    d == best - a * range_val ->
    (forall c, (c = a0 \/ In c alpha_range) -> a < c -> c <= a0 ->
       best - c * range_val <= 1 # 100000) ->
    let r := shrink_min n best range_val a d in
    0 < fst r /\ fst r <= a0 /\ (fst r = a0 \/ In (fst r) alpha_range)
    /\ (forall c, (c = a0 \/ In c alpha_range) -> fst r < c -> c <= a0 ->
          best - c * range_val <= 1 # 100000)
    /\ ((ladder_exhausted (fst r)
         /\ best - fst r * range_val <= 1 # 100000
         /\ snd r = Qmax (1 # 100000) (best * (9 # 10)))
        \/ (snd r == best - fst r * range_val /\ 1 # 100000 < snd r)).
Proof.
  induction n as [| n IH]; intros a d Hr Ha Hle Hch Hd Hinv; [lia |].
  cbn [shrink_min].
  destruct (Qle_bool d (1 # 100000)) eqn:E.
  - apply Qle_bool_iff in E.
    destruct (next_alpha a) as [c |] eqn:En.
    + destruct (next_alpha_some _ _ En) as [Hc Hca].
      apply IH.
      * pose proof (next_alpha_rank _ _ En). lia.
      * exact Hc.
      * apply Qlt_le_weak. now apply Qlt_le_trans with a.
      * right. now apply next_alpha_in with a.
      * reflexivity.
      * intros x Hx Hcx Hxa.
        assert (Hax : a <= x).
        { destruct Hx as [-> | Hx]; [exact Hle |].
          now apply (next_alpha_first a c x). }
        destruct (Qlt_le_dec a x) as [L | L]; [now apply Hinv |].
        assert (Hxa' : x == a) by now apply Qle_antisym.
        rewrite Hxa', <- Hd. exact E.
    + cbn [fst snd]. split; [exact Ha |]. split; [exact Hle |].
      split; [exact Hch |]. split; [exact Hinv |]. left.
      split; [exact En |]. split; [now rewrite <- Hd | reflexivity].
  - cbn [fst snd]. split; [exact Ha |]. split; [exact Hle |].
    split; [exact Hch |]. split; [exact Hinv |]. right.
    split; [exact Hd |].
    apply Qnot_le_lt. intros H. apply Qle_bool_iff in H. congruence.
Qed.

(** The loop of the maximization branch. *)
Lemma shrink_max_spec (n : nat) (best range_val a0 : Q) :
  forall a d,
    (ladder_rank a < n)%nat ->
    0 < a -> a <= a0 -> (a = a0 \/ In a alpha_range) ->
    d == best + a * range_val ->
    (forall c, (c = a0 \/ In c alpha_range) -> a < c -> c <= a0 ->
       9999 # 10000 <= best + c * range_val) ->
    let r := shrink_max n best range_val a d in
    0 < fst r /\ fst r <= a0 /\ (fst r = a0 \/ In (fst r) alpha_range)
    /\ (forall c, (c = a0 \/ In c alpha_range) -> fst r < c -> c <= a0 ->
          9999 # 10000 <= best + c * range_val)
    /\ ((ladder_exhausted (fst r)
         /\ 9999 # 10000 <= best + fst r * range_val
         /\ snd r = Qmin (9999 # 10000) (best * (105 # 100)))
        \/ (snd r == best + fst r * range_val /\ snd r < 9999 # 10000)).
Proof.
  induction n as [| n IH]; intros a d Hr Ha Hle Hch Hd Hinv; [lia |].
  cbn [shrink_max].
  destruct (Qle_bool (9999 # 10000) d) eqn:E.
  - apply Qle_bool_iff in E.
    destruct (next_alpha a) as [c |] eqn:En.
    + destruct (next_alpha_some _ _ En) as [Hc Hca].
      apply IH.
      * pose proof (next_alpha_rank _ _ En). lia.
      * exact Hc.
      * apply Qlt_le_weak. now apply Qlt_le_trans with a.
      * right. now apply next_alpha_in with a.
      * reflexivity.
      * intros x Hx Hcx Hxa.
        assert (Hax : a <= x).
        { destruct Hx as [-> | Hx]; [exact Hle |].
          now apply (next_alpha_first a c x). }
        destruct (Qlt_le_dec a x) as [L | L]; [now apply Hinv |].
        assert (Hxa' : x == a) by now apply Qle_antisym.
        rewrite Hxa', <- Hd. exact E.
    + cbn [fst snd]. split; [exact Ha |]. split; [exact Hle |].
      split; [exact Hch |]. split; [exact Hinv |]. left.
      split; [exact En |]. split; [now rewrite <- Hd | reflexivity].
  - cbn [fst snd]. split; [exact Ha |]. split; [exact Hle |].
    split; [exact Hch |]. split; [exact Hinv |]. right.
    split; [exact Hd |].
    apply Qnot_le_lt. intros H. apply Qle_bool_iff in H. congruence.
Qed.

(** C3, as amended.  For observed values that are not empty and a positive
    [alpha], the adjusted alpha is positive, at most [alpha], and is
    [alpha] itself or a value of the ladder; it is the first of these, going
    down, whose target is inside the guarded band: the targets of the
    values above it are outside.  The desired value is the target for the
    adjusted alpha, [best - a * (worst - best)] under minimization and
    [best + a * (best - worst)] under maximization, which lies inside the
    band and is never on the worse side of the best observation; or, when
    the ladder is exhausted with the target still outside the band, the
    clamp value. *)
Theorem target_improves_or_clamps (observed_fvals : DataFrame Q) (alpha : Q) :
  df_values observed_fvals <> [] ->
  0 < alpha ->
  exists self' a d best worst,
    _adjust_alpha_and_desired_fval self observed_fvals alpha
    = Ok (self', (a, d))
    /\ best_of (lower_is_better self) (df_values observed_fvals) best
    /\ best_of (negb (lower_is_better self)) (df_values observed_fvals) worst
    /\ 0 < a /\ a <= alpha /\ (a = alpha \/ In a alpha_range)
    /\ (forall c, (c = alpha \/ In c alpha_range) -> a < c -> c <= alpha ->
          ~ in_band (lower_is_better self)
              (target_for (lower_is_better self) best worst c))
    /\ ((ladder_exhausted a
         /\ ~ in_band (lower_is_better self)
               (target_for (lower_is_better self) best worst a)
         /\ d = clamp (lower_is_better self) best)
        \/ (d == target_for (lower_is_better self) best worst a
            /\ in_band (lower_is_better self) d
            /\ improves (lower_is_better self) best d)).
Proof.
  intros Hne Ha. unfold _adjust_alpha_and_desired_fval.
  rewrite (Qabs_of_positive alpha Ha).
  assert (Hr : (ladder_rank alpha < 10)%nat).
  { pose proof (ladder_rank_le alpha). lia. }
  destruct (df_values observed_fvals) as [| x t] eqn:Ev; [congruence |].
  simpl np_min. simpl np_max.
  destruct (fold_Qmin_spec t x) as [Hmin1 Hmin2].
  destruct (fold_Qmax_spec t x) as [Hmax1 Hmax2].
  set (mn := fold_left Qmin t x) in *. set (mx := fold_left Qmax t x) in *.
  assert (Hle : mn <= mx).
  { rewrite Forall_forall in Hmin2. now apply Hmin2. }
  assert (Hnone : forall c : Q, alpha < c -> c <= alpha -> False).
  { intros c H1 H2. apply (Qlt_irrefl alpha).
    now apply Qlt_le_trans with c. }
  destruct (lower_is_better self) eqn:El; cbn [res_bind negb].
  - pose proof (shrink_min_spec 10 mn (mx - mn) alpha alpha
                  (mn - alpha * (mx - mn)) Hr Ha (Qle_refl _)
                  (or_introl eq_refl) (Qeq_refl _)
                  (fun c _ H1 H2 => False_ind _ (Hnone c H1 H2)))
      as H.
    cbv zeta in H. revert H.
    generalize (shrink_min 10 mn (mx - mn) alpha (mn - alpha * (mx - mn))).
    intros [a d] (H1 & H2 & H3 & H4 & H5). cbn [fst snd] in *.
    exists (set_observed self mn mx), a, d, mn, mx.
    split; [reflexivity |].
    split; [split; [exact Hmin1 | exact Hmin2] |].
    split; [split; [exact Hmax1 | exact Hmax2] |].
    split; [exact H1 |]. split; [exact H2 |]. split; [exact H3 |].
    unfold improves, clamp, in_band, target_for.
    split.
    { intros c Hc Hac Hca. apply Qle_not_lt. now apply H4. }
    destruct H5 as [(H5 & H6 & H7) | (H5 & H6)]; [left | right].
    + split; [exact H5 |]. split; [now apply Qle_not_lt | exact H7].
    + split; [exact H5 |]. split; [exact H6 |].
      assert (Hprod : 0 <= a * (mx - mn)).
      { apply Qmult_le_0_compat; [now apply Qlt_le_weak | lra]. }
      lra.
  - pose proof (shrink_max_spec 10 mx (mx - mn) alpha alpha
                  (mx + alpha * (mx - mn)) Hr Ha (Qle_refl _)
                  (or_introl eq_refl) (Qeq_refl _)
                  (fun c _ H1 H2 => False_ind _ (Hnone c H1 H2)))
      as H.
    cbv zeta in H. revert H.
    generalize (shrink_max 10 mx (mx - mn) alpha (mx + alpha * (mx - mn))).
    intros [a d] (H1 & H2 & H3 & H4 & H5). cbn [fst snd] in *.
    exists (set_observed self mx mn), a, d, mx, mn.
    split; [reflexivity |].
    split; [split; [exact Hmax1 | exact Hmax2] |].
    split; [split; [exact Hmin1 | exact Hmin2] |].
    split; [exact H1 |]. split; [exact H2 |]. split; [exact H3 |].
    unfold improves, clamp, in_band, target_for.
    split.
    { intros c Hc Hac Hca. apply Qle_not_lt. now apply H4. }
    destruct H5 as [(H5 & H6 & H7) | (H5 & H6)]; [left | right].
    + split; [exact H5 |]. split; [now apply Qle_not_lt | exact H7].
    + split; [exact H5 |]. split; [exact H6 |].
      assert (Hprod : 0 <= a * (mx - mn)).
      { apply Qmult_le_0_compat; [now apply Qlt_le_weak | lra]. }
      lra.
Qed.

End TargetFacts.

(** ** Parsing: [_convert_to_json] and the loop over the responses *)

Section ParsingFacts.

Context {env : Collaborators}.

Lemma split_at_not_nil (sep : string) (k : nat) (s : string) :
  split_at sep k s <> [].
Proof.
  revert k. induction s as [| a s IH]; intros k; cbn [split_at];
    [discriminate |].
  destruct k; [| apply IH].
  destruct (String.prefix sep (String a s)); [discriminate |].
  specialize (IH 0%nat).
  destruct (split_at sep 0 s); [congruence | simpl; discriminate].
Qed.

Lemma prefix_empty (s : string) : String.prefix EmptyString s = true.
Proof. now destruct s. Qed.

(** Splitting on one character gives one piece more than the character has
    occurrences. *)
Lemma split_char_length (c : ascii) (s : string) :
  length (py_split (String c EmptyString) s) = S (occurrences c s).
Proof.
  unfold py_split. induction s as [| a s IH]; [reflexivity |].
  cbn [split_at occurrences String.length Nat.sub].
  destruct (Ascii.eqb_spec a c) as [-> | Hn].
  - assert (E : String.prefix (String c EmptyString) (String c s) = true).
    { simpl. destruct (ascii_dec c c); [apply prefix_empty | congruence]. }
    rewrite E. simpl. now rewrite IH.
  - assert (E : String.prefix (String c EmptyString) (String a s) = false).
    { simpl. destruct (ascii_dec c a); [congruence | reflexivity]. }
    rewrite E. simpl.
    pose proof (split_at_not_nil (String c EmptyString) 0 s) as Hne.
    destruct (split_at (String c EmptyString) 0 s); [congruence | exact IH].
Qed.

Lemma convert_pairs_raises (pairs : list string) (pair_str : string) :
  In pair_str pairs -> malformed pair_str ->
  forall acc, exists e, convert_pairs pairs acc = Raise e.
Proof.
  intros Hin Hbad. induction pairs as [| p t IH]; [destruct Hin |].
  intros acc. simpl.
  destruct Hin as [-> | Hin].
  - destruct Hbad as [Hc | [key [value [Hs Hf]]]].
    + pose proof (split_char_length ":" pair_str) as Hl.
      rewrite <- length_map with (f := strip) in Hl.
      destruct (map strip (py_split ":" pair_str)) as [| a [| b [| ? ?]]];
        eauto.
      simpl in Hl. congruence.
    + rewrite Hs. simpl. rewrite Hf. eauto.
  - destruct (map strip (py_split ":" p)) as [| a [| b [| ? ?]]]; eauto.
    destruct (py_float b); eauto.
Qed.

Lemma collect_candidates_cost (l : list (option (string * Q)))
  (tot : Q) (acc : list (dict Q)) :
  fst (collect_candidates l tot acc) == tot + total_cost l.
Proof.
  revert tot acc. induction l as [| [[content cost] |] t IH]; intros tot acc;
    simpl.
  - lra.
  - destruct (parse_response content); rewrite IH; lra.
  - apply IH.
Qed.

Lemma collect_candidates_snd (l : list (option (string * Q)))
  (tot tot' : Q) (acc : list (dict Q)) :
  snd (collect_candidates l tot acc) = snd (collect_candidates l tot' acc).
Proof.
  revert tot tot' acc.
  induction l as [| [[content cost] |] t IH]; intros tot tot' acc; simpl.
  - reflexivity.
  - destruct (parse_response content); apply IH.
  - apply IH.
Qed.

(** A response whose parse raises is dropped, and only it. *)
Lemma collect_candidates_drop (content : string) (cost : Q) (e : exn)
  (before after : list (option (string * Q))) (tot : Q) (acc : list (dict Q)) :
  parse_response content = Raise e ->
  snd (collect_candidates (before ++ Some (content, cost) :: after) tot acc)
  = snd (collect_candidates (before ++ after) tot acc).
Proof.
  intros Hp. revert tot acc.
  induction before as [| [[c0 k0] |] t IH]; intros tot acc; simpl.
  - rewrite Hp. apply collect_candidates_snd.
  - destruct (parse_response c0); apply IH.
  - apply IH.
Qed.

(** C9, as amended.  A response fails to parse whenever a pair of its inner
    segment has no colon, more than one colon, or a value that is not a
    number; the failure drops that response and no other: the candidates of
    the batch are those of the other responses, and the cost of the dropped
    response is still counted.  Text after the closing delimiter, further
    delimiters included, is not looked at. *)
Theorem malformed_pair_drops_one_response
  (content inner pair_str : string) (cost tot : Q)
  (before after : list (option (string * Q))) (acc : list (dict Q)) :
  nth_error (py_split "##" content) 1 = Some inner ->
  In pair_str (py_split "," (strip inner)) ->
  malformed pair_str ->
  (exists e, parse_response content = Raise e)
  /\ snd (collect_candidates (before ++ Some (content, cost) :: after) tot acc)
     = snd (collect_candidates (before ++ after) tot acc)
  /\ fst (collect_candidates (before ++ Some (content, cost) :: after) tot acc)
     == fst (collect_candidates (before ++ after) tot acc) + cost.
Proof.
  intros Hinner Hin Hbad.
  assert (Hp : exists e, parse_response content = Raise e).
  { unfold parse_response.
    destruct (py_split "##" content) as [| a [| b l]]; try discriminate.
    injection Hinner as ->. unfold _convert_to_json.
    now apply convert_pairs_raises with pair_str. }
  destruct Hp as [e Hp]. split; [eauto |]. split.
  - now apply collect_candidates_drop with e.
  - rewrite !collect_candidates_cost.
    assert (G : forall l1 l2, total_cost (l1 ++ l2)
                              == total_cost l1 + total_cost l2).
    { intros l1 l2. induction l1 as [| [[c0 k0] |] t IH]; simpl; lra. }
    rewrite !G. simpl. lra.
Qed.

End ParsingFacts.

(** ** Dispatch and the retry loop *)

Section EngineFacts.

Context {env : Collaborators} {txt : PromptText}.
Variable self : LLM_ACQ.

Lemma assign_at_app {A : Type} (done : list A) (v h : A) (t : list A) :
  assign_at (length done) v (done ++ h :: t) = done ++ v :: t.
Proof. induction done as [| d l IH]; simpl; [| rewrite IH]; reflexivity. Qed.

Lemma fill_results_from {A : Type} (l done : list (option A)) :
  fold_left (fun results ir =>
               match snd ir with
               | Some response => assign_at (fst ir) (Some response) results
               | None => results
               end)
            (number_from (length done) l) (done ++ repeat None (length l))
  = done ++ l.
Proof.
  revert done. induction l as [| x t IH]; intros done; simpl.
  - reflexivity.
  - assert (E : S (length done) = length (done ++ [x])).
    { rewrite length_app. simpl. lia. }
    destruct x as [a |]; simpl.
    + rewrite assign_at_app.
      replace (done ++ Some a :: repeat None (length t))
        with ((done ++ [Some a]) ++ repeat None (length t))
        by (rewrite <- app_assoc; reflexivity).
      rewrite E, IH, <- app_assoc. reflexivity.
    + replace (done ++ None :: repeat None (length t))
        with ((done ++ [None]) ++ repeat None (length t))
        by (rewrite <- app_assoc; reflexivity).
      rewrite E, IH, <- app_assoc. reflexivity.
Qed.

(** The copy loop returns the gathered responses, slot by slot. *)
Lemma fill_results_id {A : Type} (l : list (option A)) :
  fill_results (repeat None (length l)) l = l.
Proof. exact (fill_results_from l []). Qed.

Lemma run_tasks_outcomes (messages : list string) (n : Net) :
  length (fst (run_tasks messages n)) = length messages
  /\ Forall (fun r => r <> Ok None) (fst (run_tasks messages n)).
Proof.
  revert n. induction messages as [| m t IH]; intros n; simpl.
  - split; [reflexivity | constructor].
  - unfold _async_generate.
    destruct (ask m n) as [[[resp cost] | e] n1]; simpl;
      destruct (IH n1) as [H1 H2]; destruct (run_tasks t n1) as [rs n2];
      simpl in *;
      (split; [now rewrite H1 | constructor; [discriminate | exact H2]]).
Qed.

Lemma gather_ok {A : Type} (outcomes : list (res (option A)))
  (l : list (option A)) :
  gather outcomes = Ok l ->
  Forall (fun r => r <> Ok None) outcomes ->
  length l = length outcomes /\ Forall (fun x => x <> None) l.
Proof.
  revert l. induction outcomes as [| [a | e] t IH]; intros l; simpl.
  - intros [= <-] _. split; [reflexivity | constructor].
  - destruct (gather t) as [r |]; simpl; [| discriminate].
    intros [= <-] Hall. inversion Hall as [| ? ? Ha Ht]; subst.
    destruct (IH r eq_refl Ht) as [H1 H2]. split; [simpl; now rewrite H1 |].
    constructor; [congruence | exact H2].
  - discriminate.
Qed.

(** What a dispatch does: it raises because a message cannot be built,
    before any task is created, and logs nothing; or it logs its messages
    once.  A result that it returns has one slot for each prompt variant
    and no empty slot. *)
Lemma dispatch_spec (prompt_templates : list prompt_template)
  (query_templates : list (list (dict string))) (w : world) :
  let out := _async_generate_concurrently self prompt_templates
                                          query_templates w in
  (log (snd out) = log w /\ exists e, fst out = Raise e)
  \/ (log (snd out)
      = log w ++ [EvDispatch (messages_of prompt_templates query_templates)]
      /\ forall results, fst out = Ok results ->
           length results = num_prompt_variants self
           /\ Forall (fun x => x <> None) results).
Proof.
  unfold _async_generate_concurrently, messages_of, bind, lift, raise,
    record_event, ret.
  destruct (build_messages prompt_templates query_templates) as [msgs | e];
    simpl; [| left; eauto].
  destruct (Nat.eqb_spec (length msgs) (num_prompt_variants self)) as [El | El];
    simpl;
    [| right; destruct (run_tasks msgs (net w)); simpl;
       split; [reflexivity | discriminate]].
  right.
  pose proof (run_tasks_outcomes msgs (net w)) as [H1 H2].
  destruct (run_tasks msgs (net w)) as [outcomes n'] eqn:Er. simpl in *.
  destruct (gather outcomes) as [l |] eqn:Eg; simpl.
  - split; [reflexivity |]. intros results [= <-].
    destruct (gather_ok _ _ Eg H2) as [H3 H4].
    rewrite <- H1, <- H3, fill_results_id. split; [congruence | exact H4].
  - split; [reflexivity | discriminate].
Qed.

Section Loop.

Variable observed_configs : DataFrame Q.
Variable prompt_templates : list prompt_template.
Variable query_templates : list (list (dict string)).

Let messages := messages_of prompt_templates query_templates.

Lemma attempt_log (tot : Q) (w : world) :
  let out := attempt self observed_configs prompt_templates query_templates
                     tot w in
  (log (snd out) = log w \/ log (snd out) = log w ++ [EvDispatch messages])
  /\ (forall x, fst out = Ok x ->
        log (snd out) = log w ++ [EvDispatch messages]).
Proof.
  unfold attempt, bind, lift, ret.
  pose proof (dispatch_spec prompt_templates query_templates w) as H.
  destruct (_async_generate_concurrently self prompt_templates
              query_templates w) as [[resp | e] w1]; simpl in *.
  - destruct H as [[_ [e He]] | [H _]]; [discriminate |].
    destruct (collect_candidates resp tot []) as [tot1 raw].
    destruct (_filter_candidate_points self _ raw 6); simpl; auto.
  - destruct H as [[H _] | [H _]]; split; auto; discriminate.
Qed.

Lemma stalls_log (k : nat) (w w' : world) (tot tot' : Q) :
  stalls self observed_configs prompt_templates query_templates
         k w tot w' tot' ->
  log w' = log w ++ repeat (EvDispatch messages) k.
Proof.
  induction 1 as [| k w w1 w' tot tot1 tot' raw filtered Ha Hs _ IH].
  - simpl. now rewrite app_nil_r.
  - pose proof (attempt_log tot w) as [_ Hl]. rewrite Ha in Hl.
    simpl in Hl. rewrite IH, (Hl _ eq_refl), <- app_assoc. reflexivity.
Qed.

Lemma retry_loop_after_stalls (k : nat) (w w' : world) (tot tot' : Q) :
  stalls self observed_configs prompt_templates query_templates
         k w tot w' tot' ->
  forall fuel retry filtered,
    (shape0 filtered < 5)%nat -> (retry + k <= 10)%nat ->
    exists filtered',
      (shape0 filtered' < 5)%nat
      /\ retry_loop self (k + fuel) observed_configs prompt_templates
                    query_templates filtered tot retry w
         = retry_loop self fuel observed_configs prompt_templates
                      query_templates filtered' tot' (retry + k) w'.
Proof.
  induction 1 as [| k w w1 w' tot tot1 tot' raw f1 Ha Hs _ IH];
    intros fuel retry filtered Hf Hr.
  - exists filtered. rewrite Nat.add_0_r. auto.
  - destruct (IH fuel (S retry) f1 Hs ltac:(lia)) as [f' [Hf' E]].
    exists f'. split; [exact Hf' |].
    replace (retry + S k)%nat with (S retry + k)%nat by lia.
    rewrite <- E. cbn [retry_loop Nat.add].
    apply Nat.ltb_lt in Hf. rewrite Hf, Ha.
    destruct (Nat.ltb_spec 10 (S retry)); [lia | reflexivity].
Qed.

(** What the loop does when it ends: at most [11 - retry] dispatches, all
    of the same messages, and a table of at least 5 rows if it returns. *)
Lemma retry_loop_sound (fuel : nat) :
  forall retry filtered tot w r w',
    (retry <= 10)%nat ->
    retry_loop self fuel observed_configs prompt_templates query_templates
               filtered tot retry w = Some (r, w') ->
    exists k,
      (k <= 11 - retry)%nat
      /\ log w' = log w ++ repeat (EvDispatch messages) k
      /\ forall df c, r = Ok (df, c) -> (5 <= shape0 df)%nat.
Proof.
  induction fuel as [| fuel IH]; intros retry filtered tot w r w' Hr;
    cbn [retry_loop];
    destruct (Nat.ltb_spec (shape0 filtered) 5) as [Hlt | Hge];
    try discriminate.
  - intros [= <- <-]. exists 0%nat.
    repeat split; [lia | simpl; now rewrite app_nil_r |].
    now intros df c [= <- _].
  - pose proof (attempt_log tot w) as [Hl1 Hl2].
    destruct (attempt self observed_configs prompt_templates query_templates
                      tot w) as [[[[raw f1] tot1] | e] w1] eqn:Ea;
      simpl in Hl1, Hl2.
    + specialize (Hl2 _ eq_refl).
      destruct (Nat.ltb_spec 10 (S retry)) as [H10 | H10].
      * exists 1%nat.
        destruct (Nat.leb_spec 5 (length raw)) as [H5 | H5];
          injection H as <- <-; repeat split; try lia; try exact Hl2;
          try discriminate.
        intros df c [= <- _]. unfold shape0, DataFrame_of_records. simpl.
        now rewrite number_from_length, length_map.
      * intros H.
        destruct (IH (S retry) f1 tot1 w1 r w' ltac:(lia) H)
          as [k [Hk [Hl Hrows]]].
        exists (S k). repeat split; [lia | | exact Hrows].
        rewrite Hl, Hl2, <- app_assoc. reflexivity.
    + intros [= <- <-]. destruct Hl1 as [Hl1 | Hl1].
      * exists 0%nat.
        repeat split; [lia | simpl; now rewrite app_nil_r | discriminate].
      * exists 1%nat.
        repeat split; [lia | exact Hl1 | discriminate].
  - intros [= <- <-]. exists 0%nat.
    repeat split; [lia | simpl; now rewrite app_nil_r |].
    now intros df c [= <- _].
Qed.

(** With fuel for the attempts that are left, the loop ends. *)
Lemma retry_loop_total (fuel : nat) :
  forall retry filtered tot w,
    (retry <= 10)%nat -> (11 <= fuel + retry)%nat ->
    exists out,
      retry_loop self fuel observed_configs prompt_templates query_templates
                 filtered tot retry w = Some out.
Proof.
  induction fuel as [| fuel IH]; intros retry filtered tot w Hr Hf; [lia |].
  cbn [retry_loop].
  destruct (Nat.ltb_spec (shape0 filtered) 5) as [Hlt | Hge]; eauto.
  destruct (attempt self observed_configs prompt_templates query_templates
                    tot w) as [[[[raw f1] tot1] | e] w1]; eauto.
  destruct (Nat.ltb_spec 10 (S retry)).
  - destruct (5 <=? length raw)%nat; eauto.
  - apply IH; lia.
Qed.

(** C1, as amended.  From its start (no candidate, no cost, [retry = 0])
    the loop ends within 11 cycles, one attempt and 10 retries, and a table
    that it returns has at least 5 rows.  If one of the first 10 attempts
    is the first to give at least 5 validated candidates, the loop returns
    them at once (after exactly one cycle if it is the first attempt).  If
    the first 10 attempts give fewer than 5 validated candidates and the
    11th does too, the raw candidates of the 11th are returned unfiltered
    when they are at least 5, and the call raises the error of exhaustion
    otherwise. *)
Theorem retry_loop_within_eleven_cycles (fuel : nat) (w : world) :
  (11 <= fuel)%nat ->
  (exists r w' k,
      retry_loop self fuel observed_configs prompt_templates query_templates
                 (mkDF [] []) 0 0 w = Some (r, w')
      /\ (k <= 11)%nat
      /\ log w' = log w ++ repeat (EvDispatch messages) k
      /\ forall df c, r = Ok (df, c) -> (5 <= shape0 df)%nat)
  /\ (forall k w1 tot1 raw f tot2 w2,
        (k <= 9)%nat ->
        stalls self observed_configs prompt_templates query_templates
               k w 0 w1 tot1 ->
        attempt self observed_configs prompt_templates query_templates
                tot1 w1 = (Ok (raw, f, tot2), w2) ->
        (5 <= shape0 f)%nat ->
        retry_loop self fuel observed_configs prompt_templates query_templates
                   (mkDF [] []) 0 0 w = Some (Ok (f, tot2), w2)
        /\ log w2 = log w ++ repeat (EvDispatch messages) (S k))
  /\ (forall w1 tot1 raw f tot2 w2,
        stalls self observed_configs prompt_templates query_templates
               10 w 0 w1 tot1 ->
        attempt self observed_configs prompt_templates query_templates
                tot1 w1 = (Ok (raw, f, tot2), w2) ->
        (shape0 f < 5)%nat ->
        retry_loop self fuel observed_configs prompt_templates query_templates
                   (mkDF [] []) 0 0 w
        = Some (if (5 <=? length raw)%nat
                then Ok (DataFrame_of_records raw, tot2)
                else Raise (RuntimeError exhausted_message), w2)
        /\ log w2 = log w ++ repeat (EvDispatch messages) 11).
Proof.
  intros Hfuel.
  assert (Hempty : (shape0 (mkDF (C := option Q) [] []) < 5)%nat)
    by (unfold shape0; simpl; lia).
  assert (Hlog : forall k w1 tot1 x w2,
             stalls self observed_configs prompt_templates query_templates
               k w 0 w1 tot1 ->
             attempt self observed_configs prompt_templates query_templates
                     tot1 w1 = (Ok x, w2) ->
             log w2 = log w ++ repeat (EvDispatch messages) (S k)).
  { intros k w1 tot1 x w2 Hs Ha.
    pose proof (attempt_log tot1 w1) as [_ Hl]. rewrite Ha in Hl.
    simpl in Hl.
    rewrite (Hl _ eq_refl), (stalls_log _ _ _ _ _ Hs), <- app_assoc.
    f_equal. change (S k) with (1 + k)%nat.
    rewrite Nat.add_comm, repeat_app. reflexivity. }
  split; [| split].
  - destruct (retry_loop_total fuel 0%nat (mkDF [] []) 0 w
                ltac:(lia) ltac:(lia)) as [[r w'] E].
    destruct (retry_loop_sound fuel 0%nat (mkDF [] []) 0 w _ _ ltac:(lia) E)
      as [k [Hk H]].
    exists r, w', k. split; [exact E |]. split; [lia | exact H].
  - intros k w1 tot1 raw f tot2 w2 Hk Hs Ha Hf.
    split; [| now apply Hlog with w1 tot1 (raw, f, tot2)].
    destruct (retry_loop_after_stalls _ _ _ _ _ Hs (fuel - k) 0%nat (mkDF [] [])
                Hempty ltac:(lia)) as [f' [Hf' E]].
    replace (k + (fuel - k))%nat with fuel in E by lia. rewrite E.
    destruct (fuel - k)%nat as [| m] eqn:Em; [lia |].
    cbn [retry_loop Nat.add].
    apply Nat.ltb_lt in Hf'. rewrite Hf', Ha.
    destruct (Nat.ltb_spec 10 (S k)); [lia |].
    destruct m; cbn [retry_loop];
      destruct (Nat.ltb_spec (shape0 f) 5); (lia || reflexivity).
  - intros w1 tot1 raw f tot2 w2 Hs Ha Hf.
    split; [| now apply Hlog with w1 tot1 (raw, f, tot2)].
    destruct (retry_loop_after_stalls _ _ _ _ _ Hs (fuel - 10) 0%nat
                (mkDF [] []) Hempty ltac:(lia)) as [f' [Hf' E]].
    replace (10 + (fuel - 10))%nat with fuel in E by lia. rewrite E.
    destruct (fuel - 10)%nat as [| m] eqn:Em; [lia |].
    cbn [retry_loop Nat.add].
    apply Nat.ltb_lt in Hf'. rewrite Hf', Ha.
    destruct (5 <=? length raw)%nat; reflexivity.
Qed.

End Loop.

(** *** The call log *)

Lemma keeps_log_ret {A : Type} (a : A) : keeps_log (ret a).
Proof. intros w. reflexivity. Qed.

Lemma keeps_log_raise {A : Type} (e : exn) : keeps_log (raise (A := A) e).
Proof. intros w. reflexivity. Qed.

Lemma keeps_log_lift {A : Type} (r : res A) : keeps_log (lift r).
Proof. intros w. reflexivity. Qed.

Lemma keeps_log_seed (seed : nat) : keeps_log (seed_rng seed).
Proof. intros w. reflexivity. Qed.

Lemma keeps_log_draw {A : Type} (f : Rng -> A * Rng) : keeps_log (draw f).
Proof. intros w. unfold draw. now destruct (f (rng w)). Qed.

Lemma keeps_log_bind {A B : Type} (c : M A) (k : A -> M B) :
  keeps_log c -> (forall a, keeps_log (k a)) -> keeps_log (bind c k).
Proof.
  intros Hc Hk w. unfold bind. specialize (Hc w).
  destruct (c w) as [[a | e] w1]; simpl in *; [rewrite Hk |]; exact Hc.
Qed.

Ltac keeps_log_step :=
  first
    [ apply keeps_log_ret | apply keeps_log_raise | apply keeps_log_lift
    | apply keeps_log_seed | apply keeps_log_draw
    | apply keeps_log_bind; [| intros ?]
    | match goal with
      | |- keeps_log (match ?x with _ => _ end) => destruct x
      end ].

Lemma keeps_log_order_rows (observed_configs : DataFrame Q)
  (observed_fvals : fvals_arg) (seed : option nat) :
  keeps_log (order_rows self observed_configs observed_fvals seed).
Proof. unfold order_rows. repeat keeps_log_step. Qed.

Lemma keeps_log_prepare (observed_configs : option (DataFrame Q))
  (observed_fvals : fvals_arg) (seed : option nat) (ufs shuffle : bool) :
  keeps_log (_prepare_configurations_acquisition self observed_configs
               observed_fvals seed ufs shuffle).
Proof.
  unfold _prepare_configurations_acquisition.
  destruct observed_configs; [| repeat keeps_log_step].
  apply keeps_log_bind; [apply keeps_log_order_rows | intros ?].
  repeat keeps_log_step.
Qed.

Lemma keeps_log_jitter (desired : Q) : keeps_log (_jitter self desired).
Proof. unfold _jitter. repeat keeps_log_step. Qed.

Lemma keeps_log_gen_variants (observed_configs observed_fvals : DataFrame Q)
  (desired : Q) (ufs shuffle : bool) (nis : nat) (k : nat) :
  forall i,
    keeps_log (gen_variants self observed_configs observed_fvals desired
                            ufs shuffle nis i k).
Proof.
  induction k as [| k IH]; intros i; cbn [gen_variants];
    [apply keeps_log_ret |].
  apply keeps_log_bind; [apply keeps_log_prepare | intros ?].
  apply keeps_log_bind; [apply keeps_log_jitter | intros ?].
  apply keeps_log_bind; [apply keeps_log_prepare | intros ?].
  apply keeps_log_bind; [apply IH | intros ?]. apply keeps_log_ret.
Qed.

(** Building the prompt variants is one logged call. *)
Lemma gen_prompt_templates_log (observed_configs observed_fvals : DataFrame Q)
  (desired : Q) (n_prompts : nat) (ufs shuffle : bool) (nis : nat) (w : world) :
  log (snd (_gen_prompt_templates_acquisitions self observed_configs
              observed_fvals desired n_prompts ufs shuffle nis w))
  = log w ++ [EvGenerate n_prompts].
Proof.
  unfold _gen_prompt_templates_acquisitions, bind at 1, record_event.
  set (w1 := mkWorld (rng w) (net w) (log w ++ [EvGenerate n_prompts])).
  pose proof (keeps_log_gen_variants observed_configs observed_fvals desired
                ufs shuffle nis n_prompts 0%nat w1) as H.
  destruct (gen_variants self observed_configs observed_fvals desired ufs
              shuffle nis 0 n_prompts w1) as [[x | e] w2]; exact H.
Qed.

End EngineFacts.

Section BuiltOnce.

Context {env : Collaborators} {txt : PromptText}.

(** C6, as amended.  A call of [get_candidate_points] builds its prompt
    variants once, before the loop: the calls that it logs are one
    generation followed by the dispatches of the attempts, at most 11, and
    every dispatch sends the same messages, those of the variants built
    before the first attempt.  No retry builds a prompt or draws a target. *)
Theorem prompts_built_once (fuel : nat) (self : LLM_ACQ)
  (observed_configs observed_fvals : DataFrame Q) (ufs : bool) (a : Q)
  (current_trial n_initial_samples : nat) (w w' : world)
  (r : res (DataFrame (option Q) * Q)) :
  get_candidate_points fuel self observed_configs observed_fvals ufs a
                       current_trial n_initial_samples w = Some (r, w') ->
  log w' = log w
  \/ exists messages k,
       (k <= 11)%nat
       /\ log w' = log w ++ EvGenerate (num_prompt_variants self)
                          :: repeat (EvDispatch messages) k.
Proof.
  unfold get_candidate_points.
  destruct (_adjust_alpha_and_desired_fval _ observed_fvals _)
    as [[self1 [a1 d1]] | e] eqn:Ea; [| intros [= <- <-]; now left].
  assert (Hn : num_prompt_variants self1 = num_prompt_variants self).
  { unfold _adjust_alpha_and_desired_fval in Ea.
    destruct (lower_is_better _);
      destruct (np_min _); try discriminate; destruct (np_max _);
      try discriminate; simpl in Ea; injection Ea as <- _; reflexivity. }
  match goal with
  | |- context
         [_gen_prompt_templates_acquisitions ?s ?c ?f ?d ?n ?u ?sh ?i w] =>
      pose proof (gen_prompt_templates_log s c f d n u sh i w) as Hg;
      destruct (_gen_prompt_templates_acquisitions s c f d n u sh i w)
        as [[[pts qts] | e] w1]
  end; simpl in Hg; rewrite Hn in Hg.
  - destruct (example_prompt pts qts) as [x | e].
    + match goal with
      | |- context [retry_loop ?s fuel ?c pts qts ?f ?t ?rt w1] =>
          destruct (retry_loop s fuel c pts qts f t rt w1)
            as [[[[df c0] | e] w2] |] eqn:El; try discriminate;
          apply retry_loop_sound in El as [k [Hk [Hl _]]]; try lia
      end; intros [= <- <-]; right;
        exists (messages_of pts qts), k;
        (split; [lia | rewrite Hl, Hg, <- app_assoc; reflexivity]).
    + intros [= <- <-]. right. exists [], 0%nat.
      split; [lia | exact Hg].
  - intros [= <- <-]. right. exists [], 0%nat. split; [lia | exact Hg].
Qed.

(** With fuel for 11 attempts a call of [get_candidate_points] ends: it
    returns or it raises. *)
Lemma get_candidate_points_ends (fuel : nat) (self : LLM_ACQ)
  (observed_configs observed_fvals : DataFrame Q) (ufs : bool) (a : Q)
  (current_trial n_initial_samples : nat) (w : world) :
  (11 <= fuel)%nat ->
  exists out,
    get_candidate_points fuel self observed_configs observed_fvals ufs a
                         current_trial n_initial_samples w = Some out.
Proof.
  intros Hfuel. unfold get_candidate_points.
  destruct (_adjust_alpha_and_desired_fval _ observed_fvals _)
    as [[self1 [a1 d1]] | e]; [| eauto].
  destruct (_gen_prompt_templates_acquisitions _ _ _ _ _ _ _ _ w)
    as [[[pts qts] | e] w1]; [| eauto].
  destruct (example_prompt pts qts) as [x | e]; [| eauto].
  match goal with
  | |- context [retry_loop ?s fuel ?c pts qts ?f ?t ?rt w1] =>
      destruct (retry_loop_total s c pts qts fuel rt f t w1
                  ltac:(lia) ltac:(lia)) as [[[[df c0] | e] w2] ->]
  end; eauto.
Qed.

End BuiltOnce.

(** ** Few-shot examples: [_prepare_configurations_acquisition] *)

Section FormattingFacts.

Context {env : Collaborators}.
Variable self : LLM_ACQ.

Lemma insert_row_perm (leb : Q -> Q -> bool) (r : nat * list Q)
  (l : list (nat * list Q)) :
  Permutation (insert_row leb r l) (r :: l).
Proof.
  induction l as [| h t IH]; simpl; [reflexivity |].
  destruct (leb (first_cell r) (first_cell h)); [reflexivity |].
  rewrite IH. apply perm_swap.
Qed.

Lemma sort_rows_perm (leb : Q -> Q -> bool) (l : list (nat * list Q)) :
  Permutation (fold_right (insert_row leb) [] l) l.
Proof.
  induction l as [| h t IH]; simpl; [reflexivity |].
  rewrite insert_row_perm. now constructor.
Qed.

Section Sorting.

Variable leb : Q -> Q -> bool.
Hypothesis leb_total : forall a b, leb a b = false -> leb b a = true.
Hypothesis leb_trans :
  forall a b c, leb a b = true -> leb b c = true -> leb a c = true.

Let before (r1 r2 : nat * list Q) : Prop :=
  leb (first_cell r1) (first_cell r2) = true.

Lemma insert_row_sorted (r : nat * list Q) (l : list (nat * list Q)) :
  Sorted before l -> Sorted before (insert_row leb r l).
Proof.
  induction l as [| h t IH]; simpl; intros Hs.
  - repeat constructor.
  - destruct (leb (first_cell r) (first_cell h)) eqn:E.
    + constructor; [exact Hs | now constructor].
    + inversion Hs as [| ? ? Ht Hh]; subst.
      constructor; [now apply IH |].
      destruct t as [| h' t']; simpl.
      * constructor. now apply leb_total.
      * inversion Hh; subst.
        destruct (leb (first_cell r) (first_cell h'));
          constructor; [now apply leb_total | assumption].
Qed.

Lemma sort_rows_sorted (l : list (nat * list Q)) :
  StronglySorted before (fold_right (insert_row leb) [] l).
Proof.
  apply Sorted_StronglySorted.
  - intros a b c. apply leb_trans.
  - induction l as [| h t IH]; simpl; [constructor |].
    now apply insert_row_sorted.
Qed.

End Sorting.

Lemma StronglySorted_weaken {A : Type} (R R' : A -> A -> Prop) (l : list A) :
  (forall a b, R a b -> R' a b) -> StronglySorted R l -> StronglySorted R' l.
Proof.
  intros HR. induction 1 as [| a l Hs IH Hall]; constructor; [exact IH |].
  eapply Forall_impl; [| exact Hall]. intros b. apply HR.
Qed.

Lemma sort_values_spec (fv fv' : DataFrame Q) (lower : bool) :
  sort_values fv (negb lower) = Ok fv' ->
  columns fv' = columns fv
  /\ Permutation (rows fv') (rows fv)
  /\ StronglySorted (worse_first lower) (rows fv').
Proof.
  unfold sort_values. destruct (columns fv) eqn:Ec; [discriminate |].
  intros [= <-]. simpl. split; [reflexivity |].
  split; [apply sort_rows_perm |].
  destruct lower; simpl.
  - eapply StronglySorted_weaken;
      [| apply sort_rows_sorted with (leb := fun a b => Qle_bool b a)].
    + intros a b H. now apply Qle_bool_iff in H.
    + intros a b H. apply Qle_bool_iff.
      destruct (Qlt_le_dec a b) as [L | L]; [now apply Qlt_le_weak | ].
      destruct (Qle_bool b a) eqn:E; [discriminate |].
      apply Qle_bool_iff in L. congruence.
    + intros a b c H1 H2. apply Qle_bool_iff in H1, H2. apply Qle_bool_iff.
      now apply Qle_trans with b.
  - eapply StronglySorted_weaken;
      [| apply sort_rows_sorted with (leb := Qle_bool)].
    + intros a b H. now apply Qle_bool_iff in H.
    + intros a b H. apply Qle_bool_iff.
      destruct (Qlt_le_dec b a) as [L | L]; [now apply Qlt_le_weak | ].
      apply Qle_bool_iff in L. congruence.
    + intros a b c H1 H2. apply Qle_bool_iff in H1, H2. apply Qle_bool_iff.
      now apply Qle_trans with b.
Qed.

Lemma filter_label_unique {C : Type} (i : nat) (l : list (nat * list C)) :
  NoDup (map fst l) ->
  filter (fun r => Nat.eqb (fst r) i) l = []
  \/ exists cells, filter (fun r => Nat.eqb (fst r) i) l = [(i, cells)].
Proof.
  induction l as [| [j cells] t IH]; simpl; intros Hnd; [now left |].
  inversion Hnd as [| ? ? Hj Ht]; subst.
  destruct (Nat.eqb_spec j i) as [-> | Hn]; [| now apply IH].
  right. exists cells. f_equal.
  assert (G : forall t', ~ In i (map fst t') ->
                filter (fun r : nat * list C => Nat.eqb (fst r) i) t' = []).
  { induction t' as [| [j' c'] t' IH']; simpl; intros Hni; [reflexivity |].
    destruct (Nat.eqb_spec j' i) as [-> | _]; [tauto |].
    apply IH'. tauto. }
  now apply G.
Qed.

(** With an index without repeated labels, [loc] returns the rows in the
    order of the labels. *)
Lemma df_loc_index {C : Type} (labels : list nat) (df df' : DataFrame C) :
  NoDup (df_index df) ->
  df_loc labels df = Ok df' -> df_index df' = labels.
Proof.
  unfold df_loc, df_index. intros Hnd.
  destruct (df_loc_rows labels (rows df)) as [rs |] eqn:E; simpl;
    [| discriminate].
  intros [= <-]. simpl. revert rs E.
  induction labels as [| i t IH]; simpl; intros rs.
  - now intros [= <-].
  - destruct (filter_label_unique i (rows df) Hnd) as [-> | [cells ->]];
      [discriminate |].
    destruct (df_loc_rows t (rows df)) as [rest |]; simpl; [| discriminate].
    intros [= <-]. simpl. now rewrite (IH rest eq_refl).
Qed.


End FormattingFacts.

(** ** Rendering of values *)

Section RenderingFacts.

Context {env : Collaborators}.
Variable self : LLM_ACQ.

Lemma append_length (a b : string) :
  String.length (a ++ b) = (String.length a + String.length b)%nat.
Proof. induction a as [| c a IH]; simpl; [| rewrite IH]; reflexivity. Qed.

Lemma digits_of_length (n : nat) (z : Z) : String.length (digits_of n z) = n.
Proof.
  revert z. induction n as [| n IH]; intros z; simpl; [reflexivity |].
  rewrite append_length, IH. simpl. lia.
Qed.

Lemma append_assoc (a b c : string) :
  ((a ++ b) ++ c = a ++ (b ++ c))%string.
Proof. induction a as [| x a IH]; simpl; [| rewrite IH]; reflexivity. Qed.

Lemma format_f_decimals (v : Q) (n : nat) :
  n <> 0%nat -> has_decimals n (format_f v n).
Proof.
  intros Hn. unfold format_f, has_decimals.
  destruct n as [| n]; [congruence |].
  eexists. eexists. split; [rewrite <- append_assoc; reflexivity |].
  apply digits_of_length.
Qed.

(** C8, as amended.  The text of a value depends on the kind of its
    hyperparameter.  An [int] is a bare integer, except under warping with
    a log transform, where it has as many decimals as the lower bound.  A
    [float] has [max(1, decimals(lower bound), decimals(value))] decimals.
    An [ordinal] has as many decimals as the second allowed value, whatever
    the value is.  A performance has exactly 6 decimal digits. *)
Theorem rendering_policy (name : string) (value : Q) (c : constraint) :
  dict_get name (hyperparameter_constraints (task_context self)) = Some c ->
  (value_type c = "int"%string ->
   forall lower_bound, nth_error (search_range c) 0 = Some lower_bound ->
     render_value self name value
     = Ok (if apply_warping self && is_log (transform c)
           then format_f value (_count_decimal_places lower_bound)
           else Z_to_string (py_int value)))
  /\ (value_type c = "float"%string ->
      forall lower_bound, nth_error (search_range c) 0 = Some lower_bound ->
        render_value self name value
        = Ok (format_f value
                (Nat.max 1 (Nat.max (_count_decimal_places lower_bound)
                                    (_count_decimal_places value)))))
  /\ (value_type c = "ordinal"%string ->
      forall second, nth_error (search_range c) 1 = Some second ->
        render_value self name value
        = Ok (format_f value (_count_decimal_places second)))
  /\ (forall fv index s,
        render_perf fv index = Ok s ->
        has_decimals 6 s /\ exists x, s = format_f x 6).
Proof.
  intros Hc. unfold render_value. rewrite Hc. simpl.
  split; [| split; [| split]].
  - intros Ht lb Hlb. rewrite Ht. simpl. rewrite Hlb. simpl.
    destruct (apply_warping self), (is_log (transform c)); reflexivity.
  - intros Ht lb Hlb. rewrite Ht. simpl. rewrite Hlb. simpl.
    destruct (apply_warping self), (is_log (transform c)); reflexivity.
  - intros Ht x1 Hx1. rewrite Ht. simpl. rewrite Hx1. simpl.
    destruct (apply_warping self), (is_log (transform c)); reflexivity.
  - intros fv index s H. unfold render_perf in H.
    destruct (get_loc index (df_index fv)) as [j |]; simpl in H;
      [| discriminate].
    destruct (nth_error (rows fv) j) as [r |]; simpl in H; [| discriminate].
    destruct (snd r) as [| x cells]; simpl in H; [discriminate |].
    injection H as <-. split; [now apply format_f_decimals | eauto].
Qed.

End RenderingFacts.

(** * The properties on concrete inputs *)

Import Demo Scenario.

(** ** The retry loop *)

(** C1 fails as stated.  With a backend that never proposes a
    configuration the loop has not ended after 10 cycles (fuel for 10
    cycles does not suffice); it raises the error of exhaustion after the
    11th dispatch. *)
Lemma ten_cycles_do_not_end_the_loop :
  retry_loop acq1 10 configs one_prompt one_query (mkDF [] []) 0 0
             (world0 silent) = None
  /\ option_map fst
       (retry_loop acq1 11 configs one_prompt one_query (mkDF [] []) 0 0
                   (world0 silent))
     = Some (Raise (RuntimeError exhausted_message))
  /\ option_map (fun out => length (log (snd out)))
       (retry_loop acq1 11 configs one_prompt one_query (mkDF [] []) 0 0
                   (world0 silent))
     = Some 11%nat.
Proof. repeat split; vm_compute; reflexivity. Qed.

(** The loop on the silent backend, with fuel for 11 cycles. *)
Lemma retry_loop_within_eleven_cycles_witness :
  (11 <= 11)%nat
  /\ exists r w' k,
       retry_loop acq1 11 configs one_prompt one_query (mkDF [] []) 0 0
                  (world0 silent) = Some (r, w')
       /\ (k <= 11)%nat
       /\ log w' = log (world0 silent)
                   ++ repeat (EvDispatch (messages_of one_prompt one_query)) k
       /\ forall df c, r = Ok (df, c) -> (5 <= shape0 df)%nat.
Proof.
  split; [lia |].
  apply (retry_loop_within_eleven_cycles acq1 configs one_prompt one_query
           11 (world0 silent)); lia.
Defined.

(** ** The dispatcher *)

(** C2, on a failing input.  Three prompt variants are dispatched and the
    second call of the transport raises: the dispatcher raises that
    exception, it returns no array of three slots with the second one
    empty. *)
Theorem dispatch_aborts_on_a_failed_call :
  fst (_async_generate_concurrently acq3 three_prompts three_queries
         (world0 flaky))
  = Raise (TransportError "timeout").
Proof. vm_compute. reflexivity. Qed.

(** ** The target *)

(** C3 fails as stated.  When all observed performances are equal the
    desired value is the best observation itself, not strictly beyond it,
    and it is not the clamp value either. *)
Lemma flat_observations_give_no_improvement :
  match _adjust_alpha_and_desired_fval acq1 flat_fvals (1 # 10) with
  | Ok (_, (a, d)) =>
      a == 1 # 10 /\ d == 1 # 2 /\ ~ d < 1 # 2
      /\ ~ d == clamp true (1 # 2)
  | Raise _ => False
  end.
Proof.
  vm_compute. repeat split; intros H; discriminate H.
Qed.

(** The target for the three observations of the scenario. *)
Lemma target_improves_or_clamps_witness :
  df_values fvals <> [] /\ 0 < 1 # 10
  /\ exists self' a d best worst,
       _adjust_alpha_and_desired_fval acq1 fvals (1 # 10)
       = Ok (self', (a, d))
       /\ best_of (lower_is_better acq1) (df_values fvals) best
       /\ best_of (negb (lower_is_better acq1)) (df_values fvals) worst
       /\ 0 < a /\ a <= 1 # 10 /\ (a = 1 # 10 \/ In a alpha_range)
       /\ (forall c, (c = 1 # 10 \/ In c alpha_range) -> a < c ->
             c <= 1 # 10 ->
             ~ in_band (lower_is_better acq1)
                 (target_for (lower_is_better acq1) best worst c))
       /\ ((ladder_exhausted a
            /\ ~ in_band (lower_is_better acq1)
                  (target_for (lower_is_better acq1) best worst a)
            /\ d = clamp (lower_is_better acq1) best)
           \/ (d == target_for (lower_is_better acq1) best worst a
               /\ in_band (lower_is_better acq1) d
               /\ improves (lower_is_better acq1) best d)).
Proof.
  split; [vm_compute; discriminate |]. split; [reflexivity |].
  apply (target_improves_or_clamps acq1 fvals (1 # 10));
    [vm_compute; discriminate | reflexivity].
Defined.

(** ** The validator *)

(** C4 fails as stated.  Two candidates that differ in the seventh decimal
    both survive the pass with precision 6, and they are equal once
    rounded to that precision. *)
Lemma near_twins_both_survive :
  match _filter_candidate_points acq_unit [] near_twins 6 with
  | Ok df =>
      exists d1 d2,
        records_of df = [d1; d2]
        /\ dict_eqb (round_dict 6 d1) (round_dict 6 d2) = true
  | Raise _ => False
  end.
Proof.
  vm_compute. eexists. eexists. split; reflexivity.
Qed.

(** The two near twins against one observed point. *)
Lemma survivors_not_observed_nor_repeated_witness :
  Forall (fun c => NoDup (dict_keys c)) near_twins
  /\ exists df,
       _filter_candidate_points acq_unit [[("x"%string, 1 # 2)]] near_twins 6
       = Ok df
       /\ (forall d o, In d (records_of df) -> In o [[("x"%string, 1 # 2)]] ->
             dict_eqb (round_dict 6 d) (round_dict 6 o) = false)
       /\ (columns df <> [] -> distinct_rows (map snd (rows df))).
Proof.
  assert (H : Forall (fun c => NoDup (dict_keys c)) near_twins).
  { repeat constructor; simpl; tauto. }
  split; [exact H |].
  destruct (_filter_candidate_points acq_unit [[("x"%string, 1 # 2)]]
              near_twins 6) as [df | e] eqn:E;
    [| vm_compute in E; discriminate E].
  exists df. split; [reflexivity |].
  exact (survivors_not_observed_nor_repeated acq_unit _ _ _ _ H E).
Defined.

(** C5 fails as stated.  For an ordinal with the allowed value 100000000 the
    candidate value 100000000.05 survives: [math.isclose] accepts it by
    its relative tolerance, and it is further than 1e-2 from every allowed
    value. *)
Lemma far_ordinal_survives :
  match _filter_candidate_points acq_big []
          [[("units"%string, 2000000001 # 20)]] 8 with
  | Ok df =>
      records_of df = [[("units"%string, 2000000001 # 20)]]
      /\ Forall (fun x => ~ Qabs ((2000000001 # 20) - x) <= 1 # 100)
                [100000000; 200000000]
  | Raise _ => False
  end.
Proof.
  vm_compute. split; [reflexivity |].
  repeat constructor; intros H; apply H; reflexivity.
Qed.

(** A candidate of the scenario that survives. *)
Lemma survivors_satisfy_constraints_witness :
  exists df,
    _filter_candidate_points acq1 (to_dict_records configs)
      [[("n_estimators"%string, 120); ("ccp_alpha"%string, 3 # 1000)]] 6
    = Ok df
    /\ In [("n_estimators"%string, 120); ("ccp_alpha"%string, 3 # 1000)]
          (records_of df)
    /\ exists c0,
         In c0 [[("n_estimators"%string, 120); ("ccp_alpha"%string, 3 # 1000)]]
         /\ (forall k v,
               In (k, v) [("n_estimators"%string, 120);
                          ("ccp_alpha"%string, 3 # 1000)]
               <-> dict_get k c0 = Some v)
         /\ forall k v, In (k, v) c0 ->
              exists c,
                dict_get k (hyperparameter_constraints (task_context acq1))
                = Some c
                /\ field_ok acq1 v c.
Proof.
  destruct (_filter_candidate_points acq1 (to_dict_records configs)
              [[("n_estimators"%string, 120); ("ccp_alpha"%string, 3 # 1000)]]
              6) as [df | e] eqn:E; [| vm_compute in E; discriminate E].
  assert (Hin : In [("n_estimators"%string, 120);
                    ("ccp_alpha"%string, 3 # 1000)] (records_of df)).
  { vm_compute in E. injection E as <-. simpl. left. reflexivity. }
  exists df. split; [reflexivity |]. split; [exact Hin |].
  exact (survivors_satisfy_constraints acq1 _ _ _ df _ E Hin).
Defined.

(** ** The prompt variants across retries *)

(** C6 fails as stated.  With a backend that never proposes a
    configuration the call dispatches 11 times and builds its prompt
    variants once: the log is one generation followed by 11 dispatches of
    the same messages, with no generation between two dispatches. *)
Lemma retries_send_the_first_prompts_again :
  exists messages,
    option_map (fun out => log (snd out))
      (get_candidate_points 11 acq1 configs fvals true (1 # 10) 0 0
                            (world0 silent))
    = Some (EvGenerate 1 :: repeat (EvDispatch messages) 11).
Proof. eexists. vm_compute. reflexivity. Qed.

(** The log of the call on the silent backend. *)
Lemma prompts_built_once_witness :
  get_candidate_points 11 acq1 configs fvals true (1 # 10) 0 0 (world0 silent)
  = Some (Raise (RuntimeError exhausted_message),
          mkWorld (1%nat : Rng) (skipn 11 silent : Net)
                  (EvGenerate 1
                   :: repeat
                        (EvDispatch ["target 0.080000 for 0.080000"%string])
                        11))
  /\ exists messages k,
       (k <= 11)%nat
       /\ EvGenerate 1
          :: repeat (EvDispatch ["target 0.080000 for 0.080000"%string]) 11
          = [] ++ EvGenerate 1 :: repeat (EvDispatch messages) k.
Proof.
  assert (E : get_candidate_points 11 acq1 configs fvals true (1 # 10) 0 0
                (world0 silent)
              = Some (Raise (RuntimeError exhausted_message),
                      mkWorld (1%nat : Rng) (skipn 11 silent : Net)
                        (EvGenerate 1
                         :: repeat
                              (EvDispatch
                                 ["target 0.080000 for 0.080000"%string])
                              11)))
    by (vm_compute; reflexivity).
  split; [exact E |].
  destruct (prompts_built_once 11 acq1 configs fvals true (1 # 10) 0 0
              (world0 silent) _ _ E) as [H | H];
    [discriminate H | exact H].
Defined.

(** ** The order of the few-shot examples *)



(** ** Rendering *)

(** C8 fails as stated.  The value 0.25 of an ordinal whose second allowed
    value is 1 is rendered without decimals, as "0"; with the policy of a
    float, whichever allowed value is taken for the lower bound, it would
    be "0.25". *)
Lemma ordinal_is_not_rendered_as_a_float :
  render_value acq_small "rate" (1 # 4) = Ok "0"%string
  /\ Forall (fun lower_bound =>
               format_f (1 # 4)
                 (Nat.max 1 (Nat.max (_count_decimal_places lower_bound)
                                     (_count_decimal_places (1 # 4))))
               = "0.25"%string)
            [1 # 4; 1; 2].
Proof. split; [| repeat constructor]; vm_compute; reflexivity. Qed.

(** The float of the scenario. *)
Lemma rendering_policy_witness :
  dict_get "ccp_alpha"%string
           (hyperparameter_constraints (task_context acq1))
  = Some (mkConstraint "float" None [0; 1 # 100])
  /\ render_value acq1 "ccp_alpha" (3 # 1000)
     = Ok (format_f (3 # 1000)
             (Nat.max 1 (Nat.max (_count_decimal_places 0)
                                 (_count_decimal_places (3 # 1000))))).
Proof.
  split; [reflexivity |].
  apply (proj1 (proj2 (rendering_policy acq1 "ccp_alpha" (3 # 1000)
                         (mkConstraint "float" None [0; 1 # 100])
                         eq_refl)));
    reflexivity.
Defined.

(** ** Parsing *)

(** C9 fails as stated.  A response with a further delimiter, and text
    between the delimiters, after the closing one is parsed: its first
    segment is taken and the rest is ignored. *)
Lemma extra_delimiters_are_ignored :
  length (py_split "##" trailing) = 4%nat
  /\ parse_response trailing = Ok [("x"%string, 1 # 2)].
Proof. split; vm_compute; reflexivity. Qed.

(** A batch of three responses, the second with a pair without colon. *)
Lemma malformed_pair_drops_one_response_witness :
  nth_error (py_split "##" no_colon) 1 = Some " x: 0.5, y 2.0 "%string
  /\ In " y 2.0"%string (py_split "," (strip " x: 0.5, y 2.0 "))
  /\ malformed " y 2.0"
  /\ (exists e, parse_response no_colon = Raise e)
  /\ snd (collect_candidates
            ([Some ("## x: 0.1 ##"%string, 1 # 100)]
               ++ Some (no_colon, 1 # 100)
               :: [Some ("## x: 0.2 ##"%string, 1 # 100)]) 0 [])
     = snd (collect_candidates
              ([Some ("## x: 0.1 ##"%string, 1 # 100)]
                 ++ [Some ("## x: 0.2 ##"%string, 1 # 100)]) 0 [])
  /\ fst (collect_candidates
            ([Some ("## x: 0.1 ##"%string, 1 # 100)]
               ++ Some (no_colon, 1 # 100)
               :: [Some ("## x: 0.2 ##"%string, 1 # 100)]) 0 [])
     == fst (collect_candidates
               ([Some ("## x: 0.1 ##"%string, 1 # 100)]
                  ++ [Some ("## x: 0.2 ##"%string, 1 # 100)]) 0 [])
        + (1 # 100).
Proof.
  assert (H1 : nth_error (py_split "##" no_colon) 1
               = Some " x: 0.5, y 2.0 "%string) by reflexivity.
  assert (H2 : In " y 2.0"%string (py_split "," (strip " x: 0.5, y 2.0 ")))
    by (vm_compute; right; left; reflexivity).
  assert (H3 : malformed " y 2.0") by (left; vm_compute; discriminate).
  split; [exact H1 |]. split; [exact H2 |]. split; [exact H3 |].
  exact (malformed_pair_drops_one_response no_colon _ _ (1 # 100) 0
           [Some ("## x: 0.1 ##"%string, 1 # 100)]
           [Some ("## x: 0.2 ##"%string, 1 # 100)] [] H1 H2 H3).
Defined.

(** ** Partial candidates *)

(** C10 fails as stated.  A candidate whose only key is constrained and
    whose value is within its range is dropped when an observed point
    assigns the same value and nothing else: the result is the empty
    table. *)
Lemma observed_partial_candidate_is_dropped :
  dict_keys [("n_estimators"%string, 120)] = ["n_estimators"%string]
  /\ dict_keys (hyperparameter_constraints (task_context acq1))
     = ["n_estimators"; "ccp_alpha"]%string
  /\ passes acq1 (hyperparameter_constraints (task_context acq1))
            [("n_estimators"%string, 120)] = true
  /\ _filter_candidate_points acq1 [[("n_estimators"%string, 120)]]
       [[("n_estimators"%string, 120)]] 6
     = Ok (mkDF [] []).
Proof. vm_compute. repeat split. Qed.

(** A candidate that leaves out [ccp_alpha], against the observations of
    the scenario, which assign both hyperparameters. *)
Lemma partial_candidate_is_kept_witness :
  context_wf (hyperparameter_constraints (task_context acq1))
  /\ dict_in (round_dict 6 [("n_estimators"%string, 120)])
             (map (round_dict 6) (to_dict_records configs)) = false
  /\ exists df,
       _filter_candidate_points acq1 (to_dict_records configs)
         [[("n_estimators"%string, 120)]] 6 = Ok df
       /\ incl (dict_keys [("n_estimators"%string, 120)]) (columns df)
       /\ exists cells,
            In cells (map snd (rows df))
            /\ row_eqb cells
                 (map (fun col => dict_get col [("n_estimators"%string, 120)])
                      (columns df)) = true.
Proof.
  assert (Hwf : context_wf (hyperparameter_constraints (task_context acq1))).
  { intros k r. simpl.
    destruct (String.eqb k "n_estimators");
      [| destruct (String.eqb k "ccp_alpha"); [| discriminate]];
      intros [= <-]; left;
      (split; [simpl; auto | eexists; eexists; reflexivity]). }
  assert (Hnd : NoDup (dict_keys [("n_estimators"%string, 120)])).
  { repeat constructor. simpl. tauto. }
  assert (Hnew : dict_in (round_dict 6 [("n_estimators"%string, 120)])
                   (map (round_dict 6) (to_dict_records configs)) = false).
  { apply (partial_candidate_is_not_observed acq1); [| exact Hnd |].
    - intros o k Ho. simpl in Ho. simpl.
      destruct (String.eqb k "n_estimators") eqn:E1;
        [| destruct (String.eqb k "ccp_alpha") eqn:E2; [| congruence]];
        intros _;
        repeat (destruct Ho as [<- | Ho];
                [simpl; rewrite ?E1, ?E2; discriminate |]);
        destruct Ho.
    - exists "ccp_alpha"%string. split; [discriminate | reflexivity]. }
  split; [exact Hwf |]. split; [exact Hnew |].
  apply (partial_candidate_is_kept acq1 (to_dict_records configs)
           [[("n_estimators"%string, 120)]] 6 [("n_estimators"%string, 120)]
           Hwf).
  - simpl. left. reflexivity.
  - exact Hnd.
  - intros k v [[= <- <-] | []].
    eexists. split; [reflexivity |]. left.
    split; [reflexivity |]. split.
    + exists 50, 300. split; [reflexivity |]. simpl.
      split; unfold Qle; simpl; lia.
    + intros _. exists 120%Z. reflexivity.
  - exact Hnew.
Defined.

(** * Further properties *)

(** ** The target stays in its band *)

Section TargetBand.

Variable self : LLM_ACQ.

Lemma shrink_min_band (n : nat) (best range_val a0 : Q) :
  forall a d,
    (ladder_rank a < n)%nat ->
    (a = a0 \/ In a alpha_range) ->
    let r := shrink_min n best range_val a d in
    (fst r = a0 \/ In (fst r) alpha_range)
    /\ (1 # 100000 < snd r
        \/ snd r = Qmax (1 # 100000) (best * (9 # 10))).
Proof.
  induction n as [| n IH]; intros a d Hr Ha; [lia |]. simpl.
  destruct (Qle_bool d (1 # 100000)) eqn:E.
  - destruct (next_alpha a) as [c |] eqn:En; simpl; [| auto].
    apply IH.
    + pose proof (next_alpha_rank _ _ En). lia.
    + right. now apply next_alpha_in with a.
  - simpl. split; [exact Ha |]. left.
    apply Qnot_le_lt. intros H. apply Qle_bool_iff in H. congruence.
Qed.

Lemma shrink_max_band (n : nat) (best range_val a0 : Q) :
  forall a d,
    (ladder_rank a < n)%nat ->
    (a = a0 \/ In a alpha_range) ->
    let r := shrink_max n best range_val a d in
    (fst r = a0 \/ In (fst r) alpha_range)
    /\ (snd r < 9999 # 10000
        \/ snd r = Qmin (9999 # 10000) (best * (105 # 100))).
Proof.
  induction n as [| n IH]; intros a d Hr Ha; [lia |]. simpl.
  destruct (Qle_bool (9999 # 10000) d) eqn:E.
  - destruct (next_alpha a) as [c |] eqn:En; simpl; [| auto].
    apply IH.
    + pose proof (next_alpha_rank _ _ En). lia.
    + right. now apply next_alpha_in with a.
  - simpl. split; [exact Ha |]. left.
    apply Qnot_le_lt. intros H. apply Qle_bool_iff in H. congruence.
Qed.

(** X1.  Whatever the observations and [alpha] (its sign and magnitude
    included), a target that [_adjust_alpha_and_desired_fval] returns is in
    the band that the loop guards: at least 1e-5 under minimization, at
    most 0.9999 under maximization; the bound of 10 iterations never cuts
    the ladder short.  The alpha returned is the magnitude of the input or
    a value of the ladder. *)
Theorem target_stays_in_band (observed_fvals : DataFrame Q) (alpha0 : Q)
  (self' : LLM_ACQ) (a d : Q) :
  _adjust_alpha_and_desired_fval self observed_fvals alpha0
  = Ok (self', (a, d)) ->
  (a = Qabs alpha0 \/ In a alpha_range)
  /\ if lower_is_better self then 1 # 100000 <= d else d <= 9999 # 10000.
Proof.
  unfold _adjust_alpha_and_desired_fval.
  assert (Hr : (ladder_rank (Qabs alpha0) < 10)%nat).
  { pose proof (ladder_rank_le (Qabs alpha0)). lia. }
  destruct (lower_is_better self).
  - destruct (np_min _) as [best |]; [| discriminate].
    destruct (np_max _) as [worst |]; [| discriminate].
    cbn [res_bind].
    pose proof (shrink_min_band 10 best (worst - best) (Qabs alpha0)
                  (Qabs alpha0)
                  (best - Qabs alpha0 * (worst - best)) Hr (or_introl eq_refl))
      as H.
    cbv zeta in H. revert H.
    generalize (shrink_min 10 best (worst - best) (Qabs alpha0)
                  (best - Qabs alpha0 * (worst - best))).
    intros r [H1 H2] [= _ ->]. cbn [fst snd] in H1, H2.
    split; [exact H1 |].
    destruct H2 as [H2 | ->]; [now apply Qlt_le_weak | apply Q.le_max_l].
  - destruct (np_max _) as [best |]; [| discriminate].
    destruct (np_min _) as [worst |]; [| discriminate].
    cbn [res_bind].
    pose proof (shrink_max_band 10 best (best - worst) (Qabs alpha0)
                  (Qabs alpha0)
                  (best + Qabs alpha0 * (best - worst)) Hr (or_introl eq_refl))
      as H.
    cbv zeta in H. revert H.
    generalize (shrink_max 10 best (best - worst) (Qabs alpha0)
                  (best + Qabs alpha0 * (best - worst))).
    intros r [H1 H2] [= _ ->]. cbn [fst snd] in H1, H2.
    split; [exact H1 |].
    destruct H2 as [H2 | ->]; [now apply Qlt_le_weak | apply Q.le_min_l].
Qed.

End TargetBand.

(** ** The validated table *)

Section ValidatedTable.

Context {env : Collaborators}.
Variable self : LLM_ACQ.

Let R := hyperparameter_constraints (task_context self).

Lemma keep_first_length (seen : list (list (option Q)))
  (l : list (nat * list (option Q))) :
  (length (keep_first seen l) <= length l)%nat.
Proof.
  revert seen. induction l as [| r t IH]; intros seen; simpl; [lia |].
  destruct (existsb _ seen); simpl.
  - specialize (IH seen). lia.
  - specialize (IH (snd r :: seen)). lia.
Qed.

Lemma number_from_fst {A : Type} (i : nat) (l : list A) :
  map fst (number_from i l) = seq i (length l).
Proof.
  revert i. induction l as [| x t IH]; intros i; simpl; [reflexivity |].
  now rewrite IH.
Qed.

Lemma passes_constrained (d : dict Q) (k : string) :
  passes self R d = true -> In k (dict_keys d) -> dict_get k R <> None.
Proof.
  unfold passes. intros Hp Hk.
  destruct (is_dict_within_ranges self d R) as [[|] | e] eqn:E;
    try discriminate.
  apply in_map_iff in Hk as [[k' v] [<- Hin]].
  destruct (proj1 (is_dict_within_ranges_true self d R) E _ _ Hin)
    as [r [Hr _]].
  simpl. congruence.
Qed.

(** X2.  The table that [_filter_candidate_points] returns is well formed:
    it has no more rows than there are candidates, its columns are
    distinct and each names a constrained hyperparameter, every row has
    one cell for every column, and the index is 0, 1, 2, ... *)
Theorem validated_table_is_well_formed
  (observed candidates : list (dict Q)) (precision : Z)
  (df : DataFrame (option Q)) :
  _filter_candidate_points self observed candidates precision = Ok df ->
  (shape0 df <= length candidates)%nat
  /\ NoDup (columns df)
  /\ (forall c, In c (columns df) -> dict_get c R <> None)
  /\ Forall (fun r => length (snd r) = length (columns df)) (rows df)
  /\ df_index df = seq 0 (shape0 df).
Proof.
  unfold _filter_candidate_points. fold R.
  destruct (filter_dicts_by_ranges self _ R) as [surv | e] eqn:E;
    [| discriminate].
  apply filter_dicts_by_ranges_ok in E. cbn [res_bind].
  assert (Hlen : (length surv <= length candidates)%nat).
  { subst surv. eapply Nat.le_trans; [apply filter_length_le |].
    unfold not_observed. apply filter_length_le. }
  assert (Hcols : forall c, In c (union_keys surv) -> dict_get c R <> None).
  { intros c Hc. apply union_keys_In in Hc as [d [Hd Hk]].
    subst surv. apply filter_In in Hd as [_ Hp].
    now apply passes_constrained with d. }
  assert (Hcells :
    Forall (fun r : nat * list (option Q) =>
              length (snd r) = length (union_keys surv))
           (number_from 0
              (map (fun d => map (fun c => dict_get c d) (union_keys surv))
                   surv))).
  { apply Forall_forall. intros [i cells] Hin.
    apply (in_map snd) in Hin. rewrite number_from_snd in Hin.
    apply in_map_iff in Hin as [d [<- _]]. simpl. apply length_map. }
  destruct (negb (df_empty (DataFrame_of_records surv))); intros [= <-].
  - unfold reset_index, drop_duplicates, DataFrame_of_records, shape0, df_index.
    cbn [columns rows].
    set (kept := keep_first [] _).
    assert (Hk : (length kept <= length surv)%nat).
    { unfold kept. eapply Nat.le_trans; [apply keep_first_length |].
      rewrite number_from_length, length_map. lia. }
    rewrite number_from_length, length_map, number_from_fst, length_map.
    split; [lia |]. split; [apply union_keys_NoDup |].
    split; [exact Hcols |]. split; [| reflexivity].
    apply Forall_forall. intros [i cells] Hin.
    apply (in_map snd) in Hin. rewrite number_from_snd in Hin.
    apply in_map_iff in Hin as [r [<- Hr]].
    apply keep_first_incl in Hr.
    exact (proj1 (Forall_forall _ _) Hcells r Hr).
  - unfold DataFrame_of_records, shape0, df_index. cbn [columns rows].
    rewrite number_from_length, length_map, number_from_fst, length_map.
    split; [lia |]. split; [apply union_keys_NoDup |].
    split; [exact Hcols |]. split; [exact Hcells | reflexivity].
Qed.

(** X3.  When every candidate is an observed point after rounding or fails
    the range check, the result is the table with no row and no column
    (the one the loop of [get_candidate_points] starts from). *)
Theorem nothing_valid_gives_the_empty_table
  (observed candidates : list (dict Q)) (precision : Z) :
  context_wf R ->
  (forall c, In c candidates ->
     dict_in (round_dict precision c) (map (round_dict precision) observed)
     = true
     \/ passes self R c = false) ->
  _filter_candidate_points self observed candidates precision
  = Ok (mkDF [] []).
Proof.
  intros Hwf Hall. unfold _filter_candidate_points. fold R.
  destruct (filter_dicts_by_ranges_total self
              (not_observed observed candidates precision) R Hwf)
    as [surv E].
  rewrite E. cbn [res_bind].
  apply filter_dicts_by_ranges_ok in E.
  assert (Hs : surv = []).
  { destruct surv as [| d t]; [reflexivity |]. exfalso.
    assert (Hd : In d (d :: t)) by now left.
    rewrite E in Hd. apply filter_In in Hd as [Hd Hp].
    unfold not_observed in Hd. apply filter_In in Hd as [Hd Ho].
    apply negb_true_iff in Ho.
    destruct (Hall d Hd); congruence. }
  now rewrite Hs.
Qed.

Lemma is_within_range_raises (v : Q) (c : constraint) (e : exn) :
  is_within_range self v c = Raise e -> e = ValueError.
Proof.
  unfold is_within_range.
  destruct (String.eqb _ "int");
    [destruct (search_range c) as [| ? [| ? [| ? ?]]];
     try destruct (is_log _ && _); congruence |].
  destruct (String.eqb _ "float");
    [destruct (search_range c) as [| ? [| ? [| ? ?]]];
     try destruct (is_log _ && _); congruence |].
  destruct (String.eqb _ "ordinal"); congruence.
Qed.

Lemma is_dict_within_ranges_raises (d : dict Q) (e : exn) :
  is_dict_within_ranges self d R = Raise e -> e = ValueError.
Proof.
  induction d as [| [k v] t IH]; simpl; [discriminate |].
  destruct (dict_get k R) as [r |]; [| discriminate].
  destruct (is_within_range self v r) as [[|] | e'] eqn:E; cbn [res_bind];
    [exact IH | discriminate |].
  apply is_within_range_raises in E. congruence.
Qed.

Lemma filter_dicts_by_ranges_raises (l : list (dict Q)) (d : dict Q) (e : exn) :
  In d l -> is_dict_within_ranges self d R = Raise e ->
  filter_dicts_by_ranges self l R = Raise ValueError.
Proof.
  intros Hin Hd. induction l as [| d' t IH]; [contradiction |]. simpl.
  destruct (is_dict_within_ranges self d' R) as [b | e'] eqn:E;
    cbn [res_bind].
  - destruct Hin as [-> | Hin]; [congruence |].
    now rewrite (IH Hin).
  - apply is_dict_within_ranges_raises in E. now subst e'.
Qed.

(** X4.  A constraint of a kind other than int, float and ordinal does not
    reject the candidate that reaches it: the whole validation raises
    [ValueError].  A candidate reaches it when it is no observed point and
    its fields before the one of unknown kind pass their checks (here: it
    is the first field). *)
Theorem unknown_kind_aborts_the_validation
  (observed candidates : list (dict Q)) (precision : Z)
  (k : string) (v : Q) (rest : dict Q) (r : constraint) :
  In ((k, v) :: rest) candidates ->
  dict_in (round_dict precision ((k, v) :: rest))
          (map (round_dict precision) observed) = false ->
  dict_get k R = Some r ->
  value_type r <> "int"%string ->
  value_type r <> "float"%string ->
  value_type r <> "ordinal"%string ->
  _filter_candidate_points self observed candidates precision
  = Raise ValueError.
Proof.
  intros Hin Hobs Hr Hi Hf Ho.
  unfold _filter_candidate_points. fold R.
  rewrite (filter_dicts_by_ranges_raises _ ((k, v) :: rest) ValueError);
    [reflexivity | |].
  - unfold not_observed. apply filter_In. split; [exact Hin |].
    now rewrite Hobs.
  - simpl. rewrite Hr. unfold is_within_range.
    apply String.eqb_neq in Hi, Hf, Ho. now rewrite Hi, Hf, Ho.
Qed.

Lemma dict_eqb_refl (d : dict Q) : NoDup (dict_keys d) -> dict_eqb d d = true.
Proof.
  intros Hnd. unfold dict_eqb. rewrite Nat.eqb_refl. simpl.
  apply forallb_forall. intros [k v] Hin. simpl.
  rewrite (dict_get_NoDup k v d Hnd Hin). apply Qeq_bool_refl.
Qed.

(** X5.  The comparison with the observed points does not depend on the
    order of the keys: a candidate that assigns the values of an observed
    point, in whatever order, is dropped, and the result is the one
    obtained without it. *)
Theorem observed_point_is_dropped_in_any_key_order
  (observed before after : list (dict Q)) (precision : Z) (c o : dict Q) :
  In o observed ->
  NoDup (dict_keys o) ->
  Permutation c o ->
  _filter_candidate_points self observed (before ++ c :: after) precision
  = _filter_candidate_points self observed (before ++ after) precision.
Proof.
  intros Ho Hnd Hperm.
  assert (Hex : dict_in (round_dict precision c)
                        (map (round_dict precision) observed) = true).
  { unfold dict_in. apply existsb_exists.
    exists (round_dict precision o). split; [now apply in_map |].
    rewrite (dict_eqb_perm _ (round_dict precision o)).
    - apply dict_eqb_refl. now rewrite round_dict_keys.
    - unfold round_dict, dict_map_values. now apply Permutation_map. }
  unfold _filter_candidate_points, not_observed.
  rewrite !filter_app. cbn [filter]. now rewrite Hex.
Qed.

End ValidatedTable.

(** ** Parsed candidates *)

Section ParsedCandidates.

Context {env : Collaborators}.

Lemma dict_set_keys_In {V : Type} (k k' : string) (v : V) (d : dict V) :
  In k' (dict_keys (dict_set k v d)) <-> k' = k \/ In k' (dict_keys d).
Proof.
  induction d as [| [k0 v0] t IH]; simpl; [intuition |].
  destruct (String.eqb k k0) eqn:E; simpl.
  - apply String.eqb_eq in E. subst k0. intuition.
  - rewrite IH. intuition.
Qed.

Lemma dict_set_NoDup {V : Type} (k : string) (v : V) (d : dict V) :
  NoDup (dict_keys d) -> NoDup (dict_keys (dict_set k v d)).
Proof.
  induction d as [| [k0 v0] t IH]; simpl; intros Hnd.
  - constructor; [intros [] | constructor].
  - inversion Hnd as [| ? ? Hnotin Hnd']; subst.
    destruct (String.eqb k k0) eqn:E; simpl.
    + apply String.eqb_eq in E. subst k0. now constructor.
    + constructor; [| now apply IH].
      intros Hin. apply dict_set_keys_In in Hin as [-> | Hin];
        [now rewrite String.eqb_refl in E | contradiction].
Qed.

Lemma dict_get_set_same {V : Type} (k : string) (v : V) (d : dict V) :
  dict_get k (dict_set k v d) = Some v.
Proof.
  induction d as [| [k0 v0] t IH]; simpl.
  - now rewrite String.eqb_refl.
  - destruct (String.eqb k k0) eqn:E; simpl.
    + now rewrite String.eqb_refl.
    + now rewrite E.
Qed.

Lemma dict_get_set_other {V : Type} (k k' : string) (v : V) (d : dict V) :
  k <> k' -> dict_get k (dict_set k' v d) = dict_get k d.
Proof.
  intros Hne. induction d as [| [k0 v0] t IH]; simpl.
  - apply String.eqb_neq in Hne. now rewrite Hne.
  - destruct (String.eqb k' k0) eqn:E; simpl.
    + apply String.eqb_eq in E. subst k0.
      apply String.eqb_neq in Hne. now rewrite Hne.
    + now rewrite IH.
Qed.

Lemma convert_pairs_NoDup (pairs : list string) :
  forall acc d,
    NoDup (dict_keys acc) -> convert_pairs pairs acc = Ok d ->
    NoDup (dict_keys d).
Proof.
  induction pairs as [| p t IH]; intros acc d Hnd; simpl.
  - now intros [= <-].
  - destruct (map strip (py_split ":" p)) as [| key [| value [| ? ?]]];
      try discriminate.
    destruct (py_float value) as [x |]; [| discriminate].
    apply IH. now apply dict_set_NoDup.
Qed.

Lemma parse_response_NoDup (content : string) (d : dict Q) :
  parse_response content = Ok d -> NoDup (dict_keys d).
Proof.
  unfold parse_response, _convert_to_json.
  destruct (py_split "##" content) as [| ? [| inner ?]]; try discriminate.
  apply convert_pairs_NoDup. constructor.
Qed.

Lemma collect_candidates_In (l : list (option (string * Q))) :
  forall tot acc c,
    In c (snd (collect_candidates l tot acc)) <->
    In c acc
    \/ exists content cost,
         In (Some (content, cost)) l /\ parse_response content = Ok c.
Proof.
  induction l as [| [[content cost] |] t IH]; intros tot acc c; simpl.
  - split; [now left | intros [H | (? & ? & [] & _)]; exact H].
  - destruct (parse_response content) as [c0 | e] eqn:E; rewrite IH.
    + rewrite in_app_iff. simpl. split.
      * intros [[H | [<- | []]] | (s & q & Hin & Hp)].
        -- now left.
        -- right. exists content, cost. split; [now left | exact E].
        -- right. exists s, q. split; [now right | exact Hp].
      * intros [H | (s & q & [[= -> ->] | Hin] & Hp)].
        -- left. now left.
        -- left. right. left. congruence.
        -- right. now exists s, q.
    + split.
      * intros [H | (s & q & Hin & Hp)]; [now left |].
        right. exists s, q. split; [now right | exact Hp].
      * intros [H | (s & q & [[= -> ->] | Hin] & Hp)];
          [now left | congruence |].
        right. now exists s, q.
  - rewrite IH. split.
    + intros [H | (s & q & Hin & Hp)]; [now left |].
      right. exists s, q. split; [now right | exact Hp].
    + intros [H | (s & q & [Hd | Hin] & Hp)];
        [now left | discriminate |].
      right. now exists s, q.
Qed.

Lemma collect_candidates_length (l : list (option (string * Q))) :
  forall tot acc,
    (length (snd (collect_candidates l tot acc)) <= length acc + length l)%nat.
Proof.
  induction l as [| [[content cost] |] t IH]; intros tot acc; simpl.
  - lia.
  - destruct (parse_response content) as [d | e].
    + specialize (IH (tot + cost) (acc ++ [d])).
      rewrite length_app in IH. simpl in IH. lia.
    + specialize (IH (tot + cost) acc). lia.
  - specialize (IH tot acc). lia.
Qed.

(** X6.  A parsed response never has a key twice: an assignment to a key
    that is already there replaces its value.  So the raw candidates of an
    attempt, as the loop of [get_candidate_points] collects them, all have
    distinct keys. *)
Theorem raw_candidates_have_distinct_keys
  (llm_responses : list (option (string * Q))) (tot_cost : Q) :
  Forall (fun c => NoDup (dict_keys c))
         (snd (collect_candidates llm_responses tot_cost [])).
Proof.
  apply Forall_forall. intros c Hc.
  apply collect_candidates_In in Hc as [[] | (content & cost & _ & Hp)].
  now apply parse_response_NoDup with content.
Qed.

Lemma convert_pairs_keeps (rest : list string) (key : string) (x : Q) :
  (forall q, In q rest ->
     nth_error (map strip (py_split ":" q)) 0 <> Some key) ->
  forall acc d,
    dict_get key acc = Some x -> convert_pairs rest acc = Ok d ->
    dict_get key d = Some x.
Proof.
  induction rest as [| q t IH]; intros Hrest acc d Hacc; simpl.
  - now intros [= <-].
  - pose proof (Hrest q (or_introl eq_refl)) as Hq.
    destruct (map strip (py_split ":" q)) as [| key' [| value' [| ? ?]]];
      try discriminate.
    destruct (py_float value') as [y |]; [| discriminate].
    apply IH; [intros q' Hq'; apply Hrest; now right |].
    rewrite dict_get_set_other; [exact Hacc |].
    simpl in Hq. congruence.
Qed.

(** X7.  When a key is given more than once in a response, the last value
    wins: the parsed value of a key is the one of the last pair with that
    key. *)
Theorem last_pair_of_a_key_wins
  (before rest : list string) (pair_str key value : string)
  (acc d : dict Q) :
  convert_pairs (before ++ pair_str :: rest) acc = Ok d ->
  map strip (py_split ":" pair_str) = [key; value] ->
  (forall q, In q rest ->
     nth_error (map strip (py_split ":" q)) 0 <> Some key) ->
  exists x, py_float value = Some x /\ dict_get key d = Some x.
Proof.
  revert acc. induction before as [| p t IH]; intros acc; simpl.
  - intros H Hp Hrest. rewrite Hp in H.
    destruct (py_float value) as [x |]; [| discriminate].
    exists x. split; [reflexivity |].
    apply (convert_pairs_keeps rest key x Hrest _ d
             (dict_get_set_same key x acc) H).
  - destruct (map strip (py_split ":" p)) as [| key' [| value' [| ? ?]]];
      try discriminate.
    destruct (py_float value') as [y |]; [| discriminate].
    apply IH.
Qed.

(** X8.  The loop over the responses of an attempt: the raw candidates are
    exactly the responses that parse (so there are at most as many as
    responses), and the cost of every response that is not empty is added,
    parsed or not. *)
Theorem raw_candidates_are_the_parsed_responses
  (llm_responses : list (option (string * Q))) (tot_cost : Q) :
  let out := collect_candidates llm_responses tot_cost [] in
  fst out == tot_cost + total_cost llm_responses
  /\ (length (snd out) <= length llm_responses)%nat
  /\ forall c,
       In c (snd out) <->
       exists content cost,
         In (Some (content, cost)) llm_responses
         /\ parse_response content = Ok c.
Proof.
  cbv zeta. split; [apply collect_candidates_cost |].
  split; [apply (collect_candidates_length llm_responses tot_cost []) |].
  intros c. rewrite collect_candidates_In. simpl. tauto.
Qed.

Lemma split_without_separator (a : ascii) (sep s : string) :
  occurrences a s = 0%nat ->
  split_at (String a sep) 0 s = [s].
Proof.
  induction s as [| b s' IH]; [reflexivity |].
  cbn [occurrences split_at].
  destruct (Ascii.eqb b a) eqn:E; [discriminate |]. simpl Nat.add.
  intros H. cbn [String.prefix].
  destruct (ascii_dec a b) as [-> | _];
    [now rewrite Ascii.eqb_refl in E |].
  now rewrite (IH H).
Qed.

(** X9.  A response that does not contain the delimiter character at all
    gives no candidate (the index error of [split("##")[1]] is caught),
    and its cost is counted all the same. *)
Theorem response_without_delimiter_is_dropped
  (content : string) (cost tot_cost : Q)
  (rest : list (option (string * Q))) (acc : list (dict Q)) :
  occurrences "#" content = 0%nat ->
  parse_response content = Raise IndexError
  /\ collect_candidates (Some (content, cost) :: rest) tot_cost acc
     = collect_candidates rest (tot_cost + cost) acc.
Proof.
  intros H.
  assert (E : parse_response content = Raise IndexError).
  { unfold parse_response, py_split.
    now rewrite (split_without_separator "#" "#" content H). }
  split; [exact E |]. simpl. now rewrite E.
Qed.

End ParsedCandidates.

(** ** The dispatcher *)

Section Dispatcher.

Context {env : Collaborators} {txt : PromptText}.
Variable self : LLM_ACQ.

Lemma answered_run_tasks (messages : list string) (n n' : Net)
  (answers : list (string * Q)) :
  answered messages n answers n' ->
  run_tasks messages n = (map (fun r => Ok (Some r)) answers, n').
Proof.
  induction 1 as [n | m t n n1 n2 [resp c] rs Hask _ IH]; [reflexivity |].
  cbn [run_tasks]. unfold _async_generate. rewrite Hask, IH. reflexivity.
Qed.

Lemma gather_map_ok {A : Type} (l : list A) :
  gather (map (fun r => Ok (Some r)) l) = Ok (map Some l).
Proof.
  induction l as [| x t IH]; [reflexivity |]. simpl. now rewrite IH.
Qed.

Lemma run_tasks_gather (messages : list string) :
  forall n l,
    gather (fst (run_tasks messages n)) = Ok l ->
    exists answers,
      answered messages n answers (snd (run_tasks messages n))
      /\ l = map Some answers.
Proof.
  induction messages as [| m t IH]; intros n l; cbn [run_tasks].
  - simpl. intros [= <-]. exists []. split; [constructor | reflexivity].
  - unfold _async_generate.
    destruct (ask m n) as [[[resp c] | e] n1] eqn:Ea.
    + specialize (IH n1).
      destruct (run_tasks t n1) as [rs n2] eqn:Er.
      cbn [fst snd gather] in *.
      destruct (gather rs) as [rest |] eqn:Eg; cbn [res_bind];
        [| discriminate].
      destruct (IH rest eq_refl) as (answers & Ha & ->).
      intros [= <-]. exists ((resp, c) :: answers).
      split; [now apply answered_cons with n1 | reflexivity].
    + destruct (run_tasks t n1) as [rs n2]. cbn [fst snd gather].
      discriminate.
Qed.

Lemma answered_length (messages : list string) (n n' : Net)
  (answers : list (string * Q)) :
  answered messages n answers n' -> length answers = length messages.
Proof. induction 1; simpl; congruence. Qed.

(** X10.  The dispatcher returns an array exactly when the messages can be
    built, there are [num_prompt_variants] of them and the transport
    answers every one of them; the array then holds the answers in the
    order of the prompts, one dispatch is logged, and the generator is not
    used. *)
Theorem dispatch_returns_the_answers_in_order
  (prompt_templates : list prompt_template)
  (query_templates : list (list (dict string))) (w w' : world)
  (results : list (option (string * Q))) :
  _async_generate_concurrently self prompt_templates query_templates w
  = (Ok results, w')
  <->
  exists messages answers,
    build_messages prompt_templates query_templates = Ok messages
    /\ length messages = num_prompt_variants self
    /\ answered messages (net w) answers (net w')
    /\ results = map Some answers
    /\ rng w' = rng w
    /\ log w' = log w ++ [EvDispatch messages].
Proof.
  unfold _async_generate_concurrently, bind, lift, raise, record_event, ret.
  destruct (build_messages prompt_templates query_templates) as [msgs | e];
    [| split; [discriminate | intros (? & ? & ? & _); discriminate]].
  destruct (Nat.eqb_spec (length msgs) (num_prompt_variants self)) as [El | El];
    cbn [negb];
    [| cbn [rng net log]; destruct (run_tasks msgs (net w));
       split; [discriminate |
               intros (? & ? & [= <-] & ? & _); contradiction]].
  cbn [rng net log]. split.
  - pose proof (run_tasks_gather msgs (net w)) as Hrun.
    destruct (run_tasks msgs (net w)) as [outcomes n'] eqn:Er.
    cbn [fst snd] in Hrun.
    destruct (gather outcomes) as [l |] eqn:Eg; [| discriminate].
    destruct (Hrun l eq_refl) as (answers & Ha & ->).
    intros [= <- <-]. exists msgs, answers. cbn [rng net log].
    repeat (split; [first [reflexivity | assumption] |]).
    split; [| split; reflexivity].
    rewrite <- (answered_length _ _ _ _ Ha), <- (length_map Some answers).
    apply fill_results_id.
  - intros (m & a & [= <-] & _ & Ha & -> & Hr & Hl).
    rewrite (answered_run_tasks _ _ _ _ Ha), gather_map_ok.
    rewrite <- (answered_length _ _ _ _ Ha), <- (length_map Some a),
      fill_results_id.
    destruct w' as [g n' lg]. cbn [rng net log] in *. now subst.
Qed.

(** X11.  The count of the messages is asserted after the tasks have
    been created.  When it is not [num_prompt_variants] (the two lists are
    zipped, so the shorter one decides) the dispatcher raises
    [AssertionError], but the assertion does not protect the backend: by
    the time the error reaches the caller every message has been sent, in
    order, and what the calls returned or raised is lost. *)
Theorem count_mismatch_raises_after_the_calls
  (prompt_templates : list prompt_template)
  (query_templates : list (list (dict string))) (w : world)
  (messages : list string) :
  build_messages prompt_templates query_templates = Ok messages ->
  length messages <> num_prompt_variants self ->
  _async_generate_concurrently self prompt_templates query_templates w
  = (Raise AssertionError,
     mkWorld (rng w) (snd (run_tasks messages (net w)))
             (log w ++ [EvDispatch messages])).
Proof.
  intros Hb Hl.
  unfold _async_generate_concurrently, bind, lift, raise, record_event.
  rewrite Hb.
  destruct (Nat.eqb_spec (length messages) (num_prompt_variants self));
    [contradiction |].
  cbn [negb rng net log].
  now destruct (run_tasks messages (net w)).
Qed.

End Dispatcher.

(** ** The prompt builder *)

Section Builder.

Context {env : Collaborators} {txt : PromptText}.
Variable self : LLM_ACQ.

Lemma keeps_net_ret {A : Type} (a : A) : keeps_net (ret a).
Proof. intros w. reflexivity. Qed.

Lemma keeps_net_raise {A : Type} (e : exn) : keeps_net (raise (A := A) e).
Proof. intros w. reflexivity. Qed.

Lemma keeps_net_lift {A : Type} (r : res A) : keeps_net (lift r).
Proof. intros w. reflexivity. Qed.

Lemma keeps_net_seed (seed : nat) : keeps_net (seed_rng seed).
Proof. intros w. reflexivity. Qed.

Lemma keeps_net_draw {A : Type} (f : Rng -> A * Rng) : keeps_net (draw f).
Proof. intros w. unfold draw. now destruct (f (rng w)). Qed.

Lemma keeps_net_record (e : event) : keeps_net (record_event e).
Proof. intros w. reflexivity. Qed.

Lemma keeps_net_bind {A B : Type} (c : M A) (k : A -> M B) :
  keeps_net c -> (forall a, keeps_net (k a)) -> keeps_net (bind c k).
Proof.
  intros Hc Hk w. unfold bind. specialize (Hc w).
  destruct (c w) as [[a | e] w1]; simpl in *; [| exact Hc].
  now rewrite Hk.
Qed.

Ltac keeps_net_step :=
  first
    [ apply keeps_net_ret | apply keeps_net_raise | apply keeps_net_lift
    | apply keeps_net_seed | apply keeps_net_draw | apply keeps_net_record
    | apply keeps_net_bind; [| intros ?]
    | match goal with
      | |- keeps_net (match ?x with _ => _ end) => destruct x
      | |- keeps_net (if ?x then _ else _) => destruct x
      end ].

Lemma keeps_net_prepare (observed_configs : option (DataFrame Q))
  (observed_fvals : fvals_arg) (seed : option nat) (ufs shuffle : bool) :
  keeps_net (_prepare_configurations_acquisition self observed_configs
               observed_fvals seed ufs shuffle).
Proof.
  unfold _prepare_configurations_acquisition, order_rows.
  repeat keeps_net_step.
Qed.

Lemma keeps_net_jitter (desired : Q) : keeps_net (_jitter self desired).
Proof. unfold _jitter. repeat keeps_net_step. Qed.

Lemma keeps_net_gen_variants (observed_configs observed_fvals : DataFrame Q)
  (desired : Q) (ufs shuffle : bool) (nis : nat) (k : nat) :
  forall i,
    keeps_net (gen_variants self observed_configs observed_fvals desired
                            ufs shuffle nis i k).
Proof.
  induction k as [| k IH]; intros i; cbn [gen_variants].
  - apply keeps_net_ret.
  - apply keeps_net_bind; [apply keeps_net_prepare | intros ?].
    apply keeps_net_bind; [apply keeps_net_jitter | intros ?].
    apply keeps_net_bind; [apply keeps_net_prepare | intros ?].
    apply keeps_net_bind; [apply IH | intros ?].
    apply keeps_net_ret.
Qed.

(** X12.  Building the prompts never calls the backend, whether it returns
    or raises. *)
Theorem prompt_building_leaves_the_backend_alone
  (observed_configs observed_fvals : DataFrame Q) (desired : Q)
  (n_prompts : nat) (ufs shuffle : bool) (nis : nat) (w : world) :
  net (snd (_gen_prompt_templates_acquisitions self observed_configs
              observed_fvals desired n_prompts ufs shuffle nis w))
  = net w.
Proof.
  revert w. change (keeps_net (_gen_prompt_templates_acquisitions self
    observed_configs observed_fvals desired n_prompts ufs shuffle nis)).
  unfold _gen_prompt_templates_acquisitions.
  apply keeps_net_bind; [apply keeps_net_record | intros _].
  apply keeps_net_gen_variants.
Qed.

Lemma gen_variants_shape (observed_configs observed_fvals : DataFrame Q)
  (desired : Q) (ufs shuffle : bool) (nis : nat) (k : nat) :
  forall i w pts qts w',
    gen_variants self observed_configs observed_fvals desired ufs shuffle
                 nis i k w = (Ok (pts, qts), w') ->
    length pts = k /\ length qts = k
    /\ Forall (fun q => exists j, q = [[("A"%string, format_f j 6)]]) qts
    /\ (apply_jitter self = false ->
        Forall (fun q => q = [[("A"%string, format_f desired 6)]]) qts).
Proof.
  induction k as [| k IH]; intros i w pts qts w'; cbn [gen_variants].
  - unfold ret. intros [= <- <- _]. repeat split; constructor.
  - unfold bind at 1.
    destruct (_prepare_configurations_acquisition self (Some observed_configs)
                (FFrame observed_fvals) (Some i) ufs false w)
      as [[ex | e] w1]; [| discriminate].
    unfold bind at 1.
    destruct (_jitter self desired w1) as [[j | e] w2] eqn:Ej;
      [| discriminate].
    unfold bind at 1.
    cbn [_prepare_configurations_acquisition]. unfold ret at 1.
    unfold bind at 1.
    destruct (gen_variants self observed_configs observed_fvals desired ufs
                shuffle nis (S i) k w2) as [[[pts' qts'] | e] w3] eqn:Eg;
      [| discriminate].
    unfold ret. cbn [fst snd]. intros [= <- <- _].
    destruct (IH _ _ _ _ _ Eg) as (H1 & H2 & H3 & H4).
    cbn [length]. split; [congruence |]. split; [congruence |].
    split; [constructor; [now exists j | exact H3] |].
    intros Hoff. constructor; [| now apply H4].
    unfold _jitter in Ej. rewrite Hoff in Ej. cbn [negb] in Ej.
    unfold ret in Ej. now injection Ej as <- _.
Qed.

Lemma build_messages_ok (pts : list prompt_template) :
  forall qts,
    length qts = length pts ->
    Forall (fun q => exists j, q = [[("A"%string, format_f j 6)]]) qts ->
    exists messages,
      build_messages pts qts = Ok messages /\ length messages = length pts.
Proof.
  induction pts as [| pt t IH]; intros [| q qts] Hl Hq; try discriminate.
  - exists []. now split.
  - inversion Hq as [| ? ? [j ->] Hq']; subst.
    injection Hl as Hl. destruct (IH qts Hl Hq') as (ms & Hb & Hm).
    exists (template_format pt (format_f j 6) :: ms).
    cbn [build_messages nth_error or_raise res_bind dict_get].
    rewrite String.eqb_refl. cbn [or_raise res_bind]. rewrite Hb.
    cbn [res_bind length]. split; [reflexivity | congruence].
Qed.

(** X13.  What the prompt builder returns fits the dispatcher: there are
    exactly [n_prompts] templates and as many queries, every query is the
    single entry "A" with a target rendered with 6 decimals (the desired
    value itself when jitter is off), so the messages can be built and
    their count is [n_prompts].  Called with [num_prompt_variants], as
    [get_candidate_points] does, the assertion of the dispatcher holds. *)
Theorem builder_output_fits_the_dispatcher
  (observed_configs observed_fvals : DataFrame Q) (desired : Q)
  (n_prompts : nat) (ufs shuffle : bool) (nis : nat) (w w' : world)
  (pts : list prompt_template) (qts : list (list (dict string))) :
  _gen_prompt_templates_acquisitions self observed_configs observed_fvals
    desired n_prompts ufs shuffle nis w = (Ok (pts, qts), w') ->
  length pts = n_prompts /\ length qts = n_prompts
  /\ Forall (fun q => exists j, q = [[("A"%string, format_f j 6)]]) qts
  /\ (apply_jitter self = false ->
      Forall (fun q => q = [[("A"%string, format_f desired 6)]]) qts)
  /\ exists messages,
       build_messages pts qts = Ok messages /\ length messages = n_prompts.
Proof.
  unfold _gen_prompt_templates_acquisitions, bind, record_event.
  intros H. apply gen_variants_shape in H as (H1 & H2 & H3 & H4).
  split; [exact H1 |]. split; [exact H2 |]. split; [exact H3 |].
  split; [exact H4 |].
  destruct (build_messages_ok pts qts) as (ms & Hb & Hm);
    [exact (eq_trans H2 (eq_sym H1)) | exact H3 |].
  exists ms. split; [exact Hb | exact (eq_trans Hm H1)].
Qed.

Lemma order_rows_ignores_rng (observed_configs : DataFrame Q)
  (observed_fvals : fvals_arg) (seed : nat) :
  ignores_rng (order_rows self observed_configs observed_fvals (Some seed)).
Proof. intros w g. reflexivity. Qed.

Lemma gen_variants_ignores_rng (observed_configs observed_fvals : DataFrame Q)
  (desired : Q) (ufs shuffle : bool) (nis : nat) (i k : nat) :
  ignores_rng (gen_variants self observed_configs observed_fvals desired
                            ufs shuffle nis i (S k)).
Proof.
  intros w g. cbn [gen_variants].
  unfold bind at 1. unfold bind at 5.
  cbn [_prepare_configurations_acquisition].
  unfold bind at 1. unfold bind at 6.
  now rewrite order_rows_ignores_rng.
Qed.

(** X14.  Every prompt variant seeds the generator anew (with its own
    number), so the prompts and the targets, jittered or not, do not
    depend on the state in which the generator is found: two calls on the
    same observations build the same prompts. *)
Theorem prompts_do_not_depend_on_the_generator
  (observed_configs observed_fvals : DataFrame Q) (desired : Q)
  (n_prompts : nat) (ufs shuffle : bool) (nis : nat) (w : world) (g : Rng) :
  fst (_gen_prompt_templates_acquisitions self observed_configs
         observed_fvals desired n_prompts ufs shuffle nis
         (mkWorld g (net w) (log w)))
  = fst (_gen_prompt_templates_acquisitions self observed_configs
           observed_fvals desired n_prompts ufs shuffle nis w).
Proof.
  unfold _gen_prompt_templates_acquisitions, bind, record_event.
  cbn [rng net log].
  destruct n_prompts as [| k]; [reflexivity |].
  now rewrite <- (gen_variants_ignores_rng observed_configs observed_fvals
                    desired ufs shuffle nis 0 k
                    (mkWorld (rng w) (net w) (log w ++ [EvGenerate (S k)])) g).
Qed.

End Builder.

(** ** Jitter *)

Section Jitter.

Context {env : Collaborators}.
Variable self : LLM_ACQ.

(** X15.  With jitter on and the observations recorded, the jittered
    target lies between the target and the best observation, whichever
    is smaller, when numpy's [uniform] keeps to its range; with jitter off
    the target is returned as it is and the generator is not used.  The
    backend and the call log are never touched. *)
Theorem jittered_target_is_between_target_and_best
  (desired best : Q) (w : world) :
  (forall lo hi g,
     lo <= hi ->
     lo <= fst (np_random_uniform lo hi g)
     /\ fst (np_random_uniform lo hi g) <= hi) ->
  observed_best self = Some best ->
  observed_worst self <> None ->
  alpha self <> None ->
  exists j w',
    _jitter self desired w = (Ok j, w')
    /\ Qmin desired best <= j /\ j <= Qmax desired best
    /\ (apply_jitter self = false -> j = desired /\ w' = w)
    /\ net w' = net w /\ log w' = log w.
Proof.
  intros Hu Hb Hw Ha. unfold _jitter.
  destruct (apply_jitter self); cbn [negb].
  - rewrite Hb.
    destruct (observed_worst self); [| contradiction].
    destruct (alpha self); [| contradiction].
    unfold draw.
    assert (Hle : Qmin desired best <= Qmax desired best).
    { apply Qle_trans with desired; [apply Q.le_min_l | apply Q.le_max_l]. }
    specialize (Hu (Qmin desired best) (Qmax desired best) (rng w) Hle).
    destruct (np_random_uniform _ _ (rng w)) as [j g]. cbn [fst] in Hu.
    exists j, (mkWorld g (net w) (log w)).
    split; [reflexivity |]. split; [tauto |]. split; [tauto |].
    split; [discriminate | split; reflexivity].
  - exists desired, w. unfold ret.
    split; [reflexivity |]. split; [apply Q.le_min_l |].
    split; [apply Q.le_max_l |]. split; [tauto | split; reflexivity].
Qed.

(** X16.  With jitter on, an object on which the best or the worst
    observation or alpha has not been set fails the assertion of
    [_jitter], before the generator is used. *)
Theorem jitter_needs_the_recorded_observations (desired : Q) (w : world) :
  apply_jitter self = true ->
  observed_best self = None \/ observed_worst self = None
  \/ alpha self = None ->
  _jitter self desired w = (Raise AssertionError, w).
Proof.
  intros Hj H. unfold _jitter. rewrite Hj. cbn [negb].
  destruct (observed_best self), (observed_worst self), (alpha self);
    try reflexivity.
  destruct H as [H | [H | H]]; discriminate.
Qed.

(** X17.  [get_candidate_points] records alpha and
    [_adjust_alpha_and_desired_fval] records the best and the worst
    observation before any prompt is built: on the object that they leave,
    whatever target is stored next, the assertion of [_jitter] holds. *)
Theorem jitter_is_ready_after_the_adjustment
  (observed_fvals : DataFrame Q) (a a' a1 d d' desired : Q)
  (self1 : LLM_ACQ) (w : world) :
  _adjust_alpha_and_desired_fval (set_alpha self a) observed_fvals a'
  = Ok (self1, (a1, d)) ->
  exists j w',
    _jitter (set_desired_fval self1 d') desired w = (Ok j, w').
Proof.
  unfold _adjust_alpha_and_desired_fval.
  destruct (lower_is_better (set_alpha self a)).
  - destruct (np_min _) as [best |]; [| discriminate].
    destruct (np_max _) as [worst |]; [| discriminate].
    cbn [res_bind]. intros [= <- _].
    unfold _jitter. cbn.
    destruct (apply_jitter self); cbn [negb]; unfold ret, draw;
      [| eauto].
    destruct (np_random_uniform _ _ (rng w)) as [j g]. eauto.
  - destruct (np_max _) as [best |]; [| discriminate].
    destruct (np_min _) as [worst |]; [| discriminate].
    cbn [res_bind]. intros [= <- _].
    unfold _jitter. cbn.
    destruct (apply_jitter self); cbn [negb]; unfold ret, draw;
      [| eauto].
    destruct (np_random_uniform _ _ (rng w)) as [j g]. eauto.
Qed.

End Jitter.

(** ** The loop *)

Section LoopMore.

Context {env : Collaborators} {txt : PromptText}.
Variable self : LLM_ACQ.
Variable observed_configs : DataFrame Q.
Variable prompt_templates : list prompt_template.
Variable query_templates : list (list (dict string)).

Lemma filter_candidate_points_length
  (observed candidates : list (dict Q)) (precision : Z)
  (df : DataFrame (option Q)) :
  _filter_candidate_points self observed candidates precision = Ok df ->
  (shape0 df <= length candidates)%nat.
Proof.
  intros H.
  destruct (filter_candidate_points_rows self _ _ _ _ H) as [_ Hrows].
  cbv zeta in Hrows.
  set (surv := filter _ _) in Hrows.
  assert (Hs : (length surv <= length candidates)%nat).
  { unfold surv. eapply Nat.le_trans; [apply filter_length_le |].
    unfold not_observed. apply filter_length_le. }
  unfold shape0. rewrite <- (length_map snd (rows df)), Hrows.
  destruct (negb _); rewrite !length_map; [| exact Hs].
  eapply Nat.le_trans; [apply keep_first_length |].
  rewrite number_from_length, length_map. exact Hs.
Qed.

Lemma attempt_counts (tot : Q) (w w1 : world) (raw : list (dict Q))
  (f : DataFrame (option Q)) (tot' : Q) :
  attempt self observed_configs prompt_templates query_templates tot w
  = (Ok (raw, f, tot'), w1) ->
  (length raw <= num_prompt_variants self)%nat
  /\ (shape0 f <= length raw)%nat.
Proof.
  unfold attempt. unfold bind at 1.
  pose proof (dispatch_spec self prompt_templates query_templates w) as Hd.
  cbv zeta in Hd.
  destruct (_async_generate_concurrently self prompt_templates
              query_templates w) as [[responses | e] w0]; [| discriminate].
  cbn [fst snd] in Hd.
  destruct Hd as [[_ [e He]] | [_ Hd]]; [discriminate |].
  destruct (Hd responses eq_refl) as [Hlen _].
  pose proof (collect_candidates_length responses tot []) as Hc.
  destruct (collect_candidates responses tot []) as [tot1 cands].
  cbn [snd length Nat.add] in Hc.
  unfold bind, lift, ret.
  destruct (_filter_candidate_points self _ cands 6) as [df | e] eqn:Ef;
    [| discriminate].
  intros [= <- <- _ _].
  split; [lia |]. now apply filter_candidate_points_length in Ef.
Qed.

Lemma attempt_rng (tot : Q) (w : world) :
  rng (snd (attempt self observed_configs prompt_templates query_templates
              tot w)) = rng w.
Proof.
  unfold attempt, _async_generate_concurrently, bind, lift, raise, ret,
    record_event.
  destruct (build_messages prompt_templates query_templates) as [msgs | e];
    [| reflexivity].
  destruct (negb _); cbn [rng net log];
    destruct (run_tasks msgs (net w)) as [outcomes n']; [reflexivity |].
  destruct (gather outcomes) as [l |]; [| reflexivity].
  destruct (collect_candidates _ tot []) as [tot1 cands].
  destruct (_filter_candidate_points self _ cands 6); reflexivity.
Qed.

(** X18.  The retry loop never uses the generator: whatever the number of
    retries and however it ends, the generator is left as the prompt
    builder left it. *)
Theorem retries_draw_no_random_number (fuel : nat) :
  forall filtered tot retry w r w',
    retry_loop self fuel observed_configs prompt_templates query_templates
               filtered tot retry w = Some (r, w') ->
    rng w' = rng w.
Proof.
  induction fuel as [| fuel IH]; intros filtered tot retry w r w';
    cbn [retry_loop]; destruct (shape0 filtered <? 5)%nat;
    try discriminate; try (now intros [= _ <-]).
  pose proof (attempt_rng tot w) as Hr.
  destruct (attempt self observed_configs prompt_templates query_templates
              tot w) as [[[[raw f] tot1] | e] w1]; cbn [snd] in Hr;
    [| now intros [= _ <-]].
  destruct (10 <? S retry)%nat.
  - destruct (5 <=? length raw)%nat; now intros [= _ <-].
  - intros H. apply IH in H. congruence.
Qed.

Lemma retry_loop_needs_five (fuel : nat) :
  (num_prompt_variants self < 5)%nat ->
  forall filtered tot retry w r w',
    (shape0 filtered < 5)%nat ->
    retry_loop self fuel observed_configs prompt_templates query_templates
               filtered tot retry w = Some (r, w') ->
    exists e, r = Raise e.
Proof.
  intros Hn. induction fuel as [| fuel IH];
    intros filtered tot retry w r w' Hf; cbn [retry_loop];
    destruct (Nat.ltb_spec (shape0 filtered) 5); try lia;
    try discriminate.
  destruct (attempt self observed_configs prompt_templates query_templates
              tot w) as [[[[raw f] tot1] | e] w1] eqn:Ea;
    [| intros [= <- _]; eauto].
  apply attempt_counts in Ea as [H1 H2].
  destruct (10 <? S retry)%nat.
  - destruct (Nat.leb_spec 5 (length raw)); [lia |].
    intros [= <- _]. eauto.
  - apply IH. lia.
Qed.

End LoopMore.

(** ** The whole call *)

Section WholeCall.

Context {env : Collaborators} {txt : PromptText}.

Lemma adjust_keeps_the_settings (s s1 : LLM_ACQ) (fv : DataFrame Q)
  (a : Q) (x : Q * Q) :
  _adjust_alpha_and_desired_fval s fv a = Ok (s1, x) ->
  num_prompt_variants s1 = num_prompt_variants s.
Proof.
  unfold _adjust_alpha_and_desired_fval.
  destruct (lower_is_better s).
  - destruct (np_min _); [| discriminate].
    destruct (np_max _); [| discriminate].
    cbn [res_bind]. now intros [= <- _].
  - destruct (np_max _); [| discriminate].
    destruct (np_min _); [| discriminate].
    cbn [res_bind]. now intros [= <- _].
Qed.

(** X19.  An attempt yields at most one candidate for every prompt
    variant, and the loop accepts nothing under 5 candidates: an object
    with fewer than 5 prompt variants never returns a table from
    [get_candidate_points], every call ends with an exception. *)
Theorem fewer_than_five_variants_never_succeed (fuel : nat) (self : LLM_ACQ)
  (observed_configs observed_fvals : DataFrame Q) (ufs : bool) (a : Q)
  (current_trial n_initial_samples : nat) (w w' : world)
  (r : res (DataFrame (option Q) * Q)) :
  (num_prompt_variants self < 5)%nat ->
  get_candidate_points fuel self observed_configs observed_fvals ufs a
                       current_trial n_initial_samples w = Some (r, w') ->
  exists e, r = Raise e.
Proof.
  intros Hn. unfold get_candidate_points.
  destruct (_adjust_alpha_and_desired_fval _ observed_fvals _)
    as [[self1 [a1 d]] | e] eqn:Ea; [| intros [= <- _]; eauto].
  apply adjust_keeps_the_settings in Ea. cbn in Ea.
  destruct (_gen_prompt_templates_acquisitions _ _ _ _ _ _ _ _ w)
    as [[[pts qts] | e] w1]; [| intros [= <- _]; eauto].
  destruct (example_prompt pts qts); [| intros [= <- _]; eauto].
  destruct (retry_loop _ fuel _ pts qts (mkDF [] []) 0 0 w1)
    as [[[[df c] | e] w2] |] eqn:Er; try discriminate;
    [| intros [= <- _]; eauto].
  apply retry_loop_needs_five in Er as [e He];
    [discriminate | cbn; lia | cbn; lia].
Qed.

(** X20.  Without an observed performance there is no best value to aim
    at: [get_candidate_points] raises the [ValueError] of the minimum of
    an empty array, before any prompt is built or sent. *)
Theorem no_observation_raises_before_any_call (fuel : nat) (self : LLM_ACQ)
  (observed_configs observed_fvals : DataFrame Q) (ufs : bool) (a : Q)
  (current_trial n_initial_samples : nat) (w : world) :
  df_values observed_fvals = [] ->
  get_candidate_points fuel self observed_configs observed_fvals ufs a
                       current_trial n_initial_samples w
  = Some (Raise ValueError, w).
Proof.
  intros He. unfold get_candidate_points, _adjust_alpha_and_desired_fval.
  rewrite He. cbn [np_min np_max res_bind].
  now destruct (lower_is_better _).
Qed.

(** X21.  An alpha that is zero or negative is replaced by 0.001 before
    anything else: the call behaves as the call with alpha = 0.001 (the
    magnitude of a negative alpha is not used). *)
Theorem non_positive_alpha_is_replaced (fuel : nat) (self : LLM_ACQ)
  (observed_configs observed_fvals : DataFrame Q) (ufs : bool) (a : Q)
  (current_trial n_initial_samples : nat) (w : world) :
  a <= 0 ->
  get_candidate_points fuel self observed_configs observed_fvals ufs a
                       current_trial n_initial_samples w
  = get_candidate_points fuel self observed_configs observed_fvals ufs
                         (1 # 1000) current_trial n_initial_samples w.
Proof.
  intros Ha. unfold get_candidate_points.
  apply Qle_bool_iff in Ha. rewrite Ha.
  replace (Qle_bool (1 # 1000) 0) with false by reflexivity.
  reflexivity.
Qed.

End WholeCall.

(** ** Counting decimals *)

Section CountingDecimals.

Lemma occurrences_app (c : ascii) (a b : string) :
  occurrences c (a ++ b) = (occurrences c a + occurrences c b)%nat.
Proof.
  induction a as [| x a IH]; [reflexivity |]. simpl. rewrite IH. lia.
Qed.

Lemma uint_has_no_point (d : Decimal.uint) :
  occurrences "." (NilEmpty.string_of_uint d) = 0%nat.
Proof. induction d; simpl; [reflexivity | assumption ..]. Qed.

Lemma Z_to_string_has_no_point (z : Z) :
  occurrences "." (Z_to_string z) = 0%nat.
Proof.
  unfold Z_to_string, NilZero.string_of_int, NilZero.string_of_uint.
  destruct (Z.to_int z) as [d | d]; destruct d; simpl;
    try reflexivity; apply uint_has_no_point.
Qed.

Lemma digit_char_is_no_point (z : Z) :
  Ascii.eqb (digit_char (z mod 10)) "." = false.
Proof.
  pose proof (Z.mod_pos_bound z 10 ltac:(lia)) as H.
  assert (Hc : (z mod 10 = 0 \/ z mod 10 = 1 \/ z mod 10 = 2 \/ z mod 10 = 3
                \/ z mod 10 = 4 \/ z mod 10 = 5 \/ z mod 10 = 6
                \/ z mod 10 = 7 \/ z mod 10 = 8 \/ z mod 10 = 9)%Z) by lia.
  repeat (destruct Hc as [-> | Hc]; [reflexivity |]).
  now rewrite Hc.
Qed.

Lemma digits_have_no_point (n : nat) (z : Z) :
  occurrences "." (digits_of n z) = 0%nat.
Proof.
  revert z. induction n as [| n IH]; intros z; [reflexivity |].
  cbn [digits_of]. rewrite occurrences_app, IH. cbn [occurrences].
  now rewrite digit_char_is_no_point.
Qed.

Lemma split_at_point (a b : string) :
  occurrences "." a = 0%nat -> occurrences "." b = 0%nat ->
  py_split "." (a ++ String "." b) = [a; b].
Proof.
  unfold py_split. intros Ha Hb. induction a as [| c a IH].
  - cbn [append split_at String.prefix String.length Nat.sub].
    destruct (ascii_dec "." "."); [| congruence].
    rewrite prefix_empty.
    now rewrite (split_without_separator "." EmptyString b Hb).
  - cbn [occurrences] in Ha.
    destruct (Ascii.eqb c ".") eqn:E; [discriminate |].
    cbn [append split_at String.prefix].
    destruct (ascii_dec "." c) as [<- | _];
      [now rewrite Ascii.eqb_refl in E |].
    now rewrite (IH Ha).
Qed.

Lemma format_f_split (v : Q) (n : nat) :
  let scale := (10 ^ Z.of_nat (S n))%Z in
  let r := round_half_even (Qabs v * inject_Z scale) in
  exists int_part,
    py_split "." (format_f v (S n))
    = [int_part; digits_of (S n) (r mod scale)].
Proof.
  cbv zeta. unfold format_f.
  set (scale := (10 ^ Z.of_nat (S n))%Z).
  set (r := round_half_even _).
  set (sign := if Qlt_bool v 0 then _ else _).
  exists (sign ++ Z_to_string (r / scale))%string.
  rewrite <- append_assoc.
  apply split_at_point; [| apply digits_have_no_point].
  rewrite occurrences_app, Z_to_string_has_no_point.
  unfold sign. now destruct (Qlt_bool v 0).
Qed.

Lemma rstrip_by_length (p : ascii -> bool) (s : string) :
  (String.length (rstrip_by p s) <= String.length s)%nat.
Proof.
  induction s as [| c s IH]; [simpl; lia |]. cbn [rstrip_by].
  destruct (rstrip_by p s) as [| c' r]; simpl in *;
    [destruct (p c); simpl; lia | lia].
Qed.

Lemma rstrip_by_last (p : ascii -> bool) (s : string) (c : ascii) :
  p c = true ->
  rstrip_by p (s ++ String c EmptyString) = rstrip_by p s.
Proof.
  intros Hc. induction s as [| x s IH]; simpl.
  - now rewrite Hc.
  - now rewrite IH.
Qed.

Lemma trailing_zeros_are_stripped (n : nat) :
  forall (k : nat) (z : Z),
    (k <= n)%nat -> (10 ^ Z.of_nat k | z)%Z ->
    (String.length (rstrip_by (Ascii.eqb "0") (digits_of n z)) <= n - k)%nat.
Proof.
  induction n as [| n IH]; intros k z Hk Hd; [simpl; lia |].
  destruct k as [| k].
  - eapply Nat.le_trans; [apply rstrip_by_length |].
    rewrite digits_of_length. lia.
  - cbn [digits_of].
    assert (H10 : (10 | z)%Z).
    { apply Z.divide_trans with (10 ^ Z.of_nat (S k))%Z; [| exact Hd].
      exists (10 ^ Z.of_nat k)%Z. rewrite Nat2Z.inj_succ, Z.pow_succ_r by lia.
      ring. }
    assert (Hm : (z mod 10 = 0)%Z) by (apply Z.mod_divide; [lia | exact H10]).
    rewrite Hm. rewrite rstrip_by_last by reflexivity.
    replace (S n - S k)%nat with (n - k)%nat by lia.
    apply IH; [lia |].
    destruct Hd as [q Hq].
    exists q. rewrite Hq, Nat2Z.inj_succ, Z.pow_succ_r by lia.
    replace (q * (10 * 10 ^ Z.of_nat k))%Z
      with ((q * 10 ^ Z.of_nat k) * 10)%Z by ring.
    now rewrite Z.div_mul by lia.
Qed.

Lemma round_half_even_whole (v : Q) (k : Z) :
  v == inject_Z k -> round_half_even v = k.
Proof.
  intros Hv. unfold round_half_even.
  rewrite (Qfloor_comp _ _ Hv), Qfloor_Z.
  assert (Hc : Qcompare (v - inject_Z k) (1 # 2) = Lt).
  { apply (proj1 (Qlt_alt _ _)). rewrite Hv. unfold Qminus.
    rewrite Qplus_opp_r. reflexivity. }
  now rewrite Hc.
Qed.

(** X22.  [_count_decimal_places] never exceeds 10, the precision of the
    format that it reads. *)
Theorem at_most_ten_decimals_are_counted (n : Q) :
  (_count_decimal_places n <= 10)%nat.
Proof.
  unfold _count_decimal_places.
  destruct (format_f_split n 9) as [int_part ->].
  apply (trailing_zeros_are_stripped 10 0); [lia |].
  apply Z.divide_1_l.
Qed.

(** X23.  A number with at most [d] decimals ([d <= 10]) is counted at
    most [d] decimals: the trailing zeros of the 10 digits are stripped.
    A whole number has 0. *)
Theorem decimals_of_a_short_number (n : Q) (d : nat) :
  (d <= 10)%nat ->
  whole (n * inject_Z (10 ^ Z.of_nat d)) ->
  (_count_decimal_places n <= d)%nat.
Proof.
  intros Hd [m Hm]. unfold _count_decimal_places.
  destruct (format_f_split n 9) as [int_part ->].
  apply Nat.le_trans with (10 - (10 - d))%nat; [| lia].
  apply trailing_zeros_are_stripped; [lia |].
  set (scale := (10 ^ Z.of_nat 10)%Z).
  assert (Hs : (scale = 10 ^ Z.of_nat d * 10 ^ Z.of_nat (10 - d))%Z).
  { unfold scale. rewrite <- Z.pow_add_r by lia. f_equal. lia. }
  assert (Hr : round_half_even (Qabs n * inject_Z scale)
               = (Z.abs m * 10 ^ Z.of_nat (10 - d))%Z).
  { apply round_half_even_whole.
    rewrite Hs, !inject_Z_mult.
    change (inject_Z (Z.abs m)) with (Qabs (inject_Z m)).
    rewrite <- Hm, Qabs_Qmult.
    rewrite (Qabs_pos (inject_Z (10 ^ Z.of_nat d))).
    - ring.
    - change 0 with (inject_Z 0). rewrite <- Zle_Qle.
      apply Z.pow_nonneg. lia. }
  rewrite Hr, Hs.
  rewrite Z.mul_mod_distr_r by (apply Z.pow_nonzero; lia).
  apply Z.divide_factor_r.
Qed.

End CountingDecimals.

(** ** The few-shot examples *)

Section Examples.

Context {env : Collaborators}.
Variable self : LLM_ACQ.

Lemma df_loc_rows_incl {C : Type} (labels : list nat)
  (l : list (nat * list C)) :
  forall rs, df_loc_rows labels l = Ok rs -> incl rs l.
Proof.
  induction labels as [| i t IH]; intros rs; cbn [df_loc_rows].
  - intros [= <-]. intros r [].
  - destruct (filter (fun r => Nat.eqb (fst r) i) l) as [| h found] eqn:Ef;
      [discriminate |].
    destruct (df_loc_rows t l) as [rest |]; [| discriminate].
    cbn [res_bind]. intros [= <-]. intros r Hr.
    change (h :: found ++ rest) with ((h :: found) ++ rest) in Hr.
    apply in_app_iff in Hr as [Hr | Hr]; [| now apply (IH rest)].
    rewrite <- Ef in Hr. now apply filter_In in Hr.
Qed.

Lemma df_loc_incl {C : Type} (labels : list nat) (df df' : DataFrame C) :
  df_loc labels df = Ok df' ->
  columns df' = columns df /\ incl (rows df') (rows df).
Proof.
  unfold df_loc.
  destruct (df_loc_rows labels (rows df)) as [rs |] eqn:E; [| discriminate].
  cbn [res_bind]. intros [= <-]. cbn [columns rows].
  split; [reflexivity | now apply df_loc_rows_incl with labels].
Qed.

Lemma order_rows_incl (observed_configs fv : DataFrame Q)
  (seed : option nat) (w w' : world) (configs' : DataFrame Q)
  (fvals' : fvals_arg) :
  order_rows self observed_configs (FFrame fv) seed w
  = (Ok (configs', fvals'), w') ->
  columns configs' = columns observed_configs
  /\ incl (rows configs') (rows observed_configs)
  /\ exists fv', fvals' = FFrame fv' /\ incl (rows fv') (rows fv).
Proof.
  unfold order_rows, bind, seed_rng, draw, lift, ret.
  destruct seed as [seed |]; cbn [rng net log].
  - destruct (np_random_permutation nat _ _) as [shuffled g].
    destruct (df_loc shuffled observed_configs) as [oc |] eqn:Eo;
      [| discriminate].
    destruct (df_loc shuffled fv) as [fv' |] eqn:Ef; [| discriminate].
    intros [= <- <- _].
    apply df_loc_incl in Eo as [Hc Hr]. apply df_loc_incl in Ef as [_ Hf].
    split; [exact Hc |]. split; [exact Hr |]. now exists fv'.
  - destruct (sort_values fv _) as [fv' |] eqn:Es; [| discriminate].
    destruct (df_loc (df_index fv') observed_configs) as [oc |] eqn:Eo;
      [| discriminate].
    intros [= <- <- _].
    apply df_loc_incl in Eo as [Hc Hr].
    apply sort_values_spec in Es as (_ & Hp & _).
    split; [exact Hc |]. split; [exact Hr |]. exists fv'.
    split; [reflexivity |]. intros r Hin.
    now apply (Permutation_in _ Hp).
Qed.

Lemma get_loc_nth (label : nat) (idx : list nat) :
  forall j, get_loc label idx = Ok j -> nth_error idx j = Some label.
Proof.
  induction idx as [| h t IH]; intros j; cbn [get_loc]; [discriminate |].
  destruct (Nat.eqb_spec label h) as [-> | _].
  - now intros [= <-].
  - destruct (get_loc label t) as [j' |]; [| discriminate].
    cbn [res_bind]. intros [= <-]. now apply IH.
Qed.

Lemma render_perf_row (fv : DataFrame Q) (index : nat) (perf : string) :
  render_perf fv index = Ok perf ->
  exists x rest,
    In (index, x :: rest) (rows fv) /\ perf = format_f x 6.
Proof.
  unfold render_perf.
  destruct (get_loc index (df_index fv)) as [j |] eqn:Ej; [| discriminate].
  cbn [res_bind]. apply get_loc_nth in Ej.
  destruct (nth_error (rows fv) j) as [[i cells] |] eqn:Er;
    [| discriminate].
  cbn [or_raise res_bind snd].
  unfold df_index in Ej. rewrite nth_error_map, Er in Ej.
  injection Ej as ->.
  destruct cells as [| x rest]; [discriminate |].
  cbn [nth_error or_raise res_bind]. intros [= <-].
  exists x, rest. split; [| reflexivity].
  now apply nth_error_In with j.
Qed.

Lemma render_rows_examples (ufs : bool) (names : list string)
  (fv : DataFrame Q) (l : list (nat * list Q)) :
  forall examples,
    render_rows self ufs names (FFrame fv) l = Ok examples ->
    Forall2
      (fun r ex =>
         exists cells x rest,
           render_cells self ufs names (length (snd r)) 0 (snd r) = Ok cells
           /\ In (fst r, x :: rest) (rows fv)
           /\ ex = [("Q", "## " ++ cells ++ " ##"); ("A", format_f x 6)]%string)
      l examples.
Proof.
  induction l as [| [index row] t IH]; intros examples; cbn [render_rows].
  - intros [= <-]. constructor.
  - destruct (render_cells self ufs names (length row) 0 row)
      as [cells |] eqn:Ec; [| discriminate].
    cbn [res_bind].
    destruct (render_perf fv index) as [perf |] eqn:Ep; [| discriminate].
    cbn [res_bind].
    destruct (render_rows self ufs names (FFrame fv) t) as [rest |];
      [| discriminate].
    cbn [res_bind]. intros [= <-].
    constructor; [| now apply IH].
    apply render_perf_row in Ep as (x & more & Hin & ->).
    exists cells, x, more. cbn [fst snd]. now repeat split.
Qed.

(** X24.  The few-shot examples pair every configuration with its own
    performance.  Whether the rows are shuffled by a seed or sorted by
    performance, the two tables are reordered separately and matched by
    index label: every example is the text of a row of the observed
    configurations together with the performance, with 6 decimals, of a
    row of the observed performances that has the same label. *)
Theorem examples_pair_configurations_with_their_performance
  (observed_configs fv : DataFrame Q) (seed : option nat) (ufs : bool)
  (w w' : world) (examples : list (dict string)) :
  _prepare_configurations_acquisition self (Some observed_configs)
    (FFrame fv) seed ufs false w = (Ok examples, w') ->
  Forall
    (fun ex =>
       exists index row x rest cells,
         In (index, row) (rows observed_configs)
         /\ In (index, x :: rest) (rows fv)
         /\ render_cells self ufs (columns observed_configs) (length row) 0
                         row = Ok cells
         /\ ex = [("Q", "## " ++ cells ++ " ##"); ("A", format_f x 6)]%string)
    examples.
Proof.
  unfold _prepare_configurations_acquisition. unfold bind at 1.
  destruct (order_rows self observed_configs (FFrame fv) seed w)
    as [[[oc fa] | e] w1] eqn:Eo; [| discriminate].
  apply order_rows_incl in Eo as (Hc & Hr & fv' & -> & Hf).
  cbn [fst snd]. unfold bind, ret, lift. rewrite Hc.
  destruct (render_rows self ufs (columns observed_configs) (FFrame fv')
              (rows oc)) as [exs |] eqn:Er; [| discriminate].
  intros [= <- _].
  apply render_rows_examples in Er.
  revert Hr Er. generalize (rows oc) as l. intros l Hr Er.
  induction Er
    as [| [index row] ex l exs (cells & x & rest & H1 & H2 & H3) _ IH];
    constructor.
  - exists index, row, x, rest, cells. cbn [fst snd] in *.
    split; [apply Hr; now left |]. split; [now apply Hf |]. now split.
  - apply IH. intros r Hin. apply Hr. now right.
Qed.

End Examples.

(** ** The cost *)

Section Cost.

Context {env : Collaborators} {txt : PromptText}.

(** A set of states of the backend that it does not leave, and in which
    it charges no negative cost. *)
Variable good : Net -> Prop.
Hypothesis good_ask :
  forall m n,
    good n ->
    good (snd (ask m n))
    /\ forall r c, fst (ask m n) = Ok (r, c) -> 0 <= c.

Lemma answered_good (messages : list string) (n n' : Net)
  (answers : list (string * Q)) :
  answered messages n answers n' ->
  good n -> good n' /\ 0 <= total_cost (map Some answers).
Proof.
  induction 1 as [n | m t n n1 n2 [resp c] rs Hask _ IH]; intros Hg.
  - split; [exact Hg | apply Qle_refl].
  - destruct (good_ask m n Hg) as [Hg1 Hc]. rewrite Hask in Hg1, Hc.
    cbn [fst snd] in Hg1, Hc. destruct (IH Hg1) as [Hg2 Ht].
    split; [exact Hg2 |]. cbn [map total_cost].
    specialize (Hc resp c eq_refl).
    replace 0 with (0 + 0) by reflexivity. now apply Qplus_le_compat.
Qed.

Lemma attempt_good (self : LLM_ACQ) (observed_configs : DataFrame Q)
  (pts : list prompt_template) (qts : list (list (dict string)))
  (tot tot' : Q) (w w1 : world) (raw : list (dict Q))
  (f : DataFrame (option Q)) :
  attempt self observed_configs pts qts tot w = (Ok (raw, f, tot'), w1) ->
  good (net w) -> 0 <= tot ->
  good (net w1) /\ 0 <= tot'.
Proof.
  unfold attempt, _async_generate_concurrently, bind, lift, raise, ret,
    record_event.
  destruct (build_messages pts qts) as [msgs | e]; [| discriminate].
  destruct (negb _); cbn [rng net log];
    [destruct (run_tasks msgs (net w)); discriminate |].
  pose proof (run_tasks_gather msgs (net w)) as Hrun.
  destruct (run_tasks msgs (net w)) as [outcomes n'].
  cbn [fst snd] in Hrun.
  destruct (gather outcomes) as [l |]; [| discriminate].
  destruct (Hrun l eq_refl) as (answers & Ha & ->).
  pose proof (collect_candidates_cost
                (fill_results (repeat None (length msgs)) (map Some answers))
                tot []) as Hc.
  destruct (collect_candidates _ tot []) as [tot1 cands].
  destruct (_filter_candidate_points self _ cands 6); [| discriminate].
  intros [= _ _ <- <-] Hg Ht. cbn [net].
  destruct (answered_good _ _ _ _ Ha Hg) as [Hg' Hcost].
  split; [exact Hg' |]. cbn [fst] in Hc. rewrite Hc.
  rewrite <- (answered_length _ _ _ _ Ha), <- (length_map Some answers),
    fill_results_id.
  replace 0 with (0 + 0) by reflexivity. now apply Qplus_le_compat.
Qed.

Lemma retry_loop_good (self : LLM_ACQ) (observed_configs : DataFrame Q)
  (pts : list prompt_template) (qts : list (list (dict string)))
  (fuel : nat) :
  forall filtered tot retry w df cost w',
    retry_loop self fuel observed_configs pts qts filtered tot retry w
    = Some (Ok (df, cost), w') ->
    good (net w) -> 0 <= tot -> 0 <= cost.
Proof.
  induction fuel as [| fuel IH]; intros filtered tot retry w df cost w';
    cbn [retry_loop]; destruct (shape0 filtered <? 5)%nat;
    try discriminate; try (now intros [= _ <- _]).
  destruct (attempt self observed_configs pts qts tot w)
    as [[[[raw f] tot1] | e] w1] eqn:Ea; [| discriminate].
  intros H Hg Ht.
  destruct (attempt_good _ _ _ _ _ _ _ _ _ _ Ea Hg Ht) as [Hg1 Ht1].
  destruct (10 <? S retry)%nat.
  - destruct (5 <=? length raw)%nat; [| discriminate].
    now injection H as _ <- _.
  - exact (IH _ _ _ _ _ _ _ H Hg1 Ht1).
Qed.

(** X25.  The cost that [get_candidate_points] returns is never negative
    when the backend never charges a negative cost: the cost of every
    response of every attempt is added to a total that starts at 0. *)
Theorem returned_cost_is_not_negative (fuel : nat) (self : LLM_ACQ)
  (observed_configs observed_fvals : DataFrame Q) (ufs : bool) (a : Q)
  (current_trial n_initial_samples : nat) (w w' : world)
  (df : DataFrame (option Q)) (cost : Q) :
  good (net w) ->
  get_candidate_points fuel self observed_configs observed_fvals ufs a
                       current_trial n_initial_samples w
  = Some (Ok (df, cost), w') ->
  0 <= cost.
Proof.
  intros Hg. unfold get_candidate_points.
  destruct (_adjust_alpha_and_desired_fval _ observed_fvals _)
    as [[self1 [a1 d]] | e]; [| discriminate].
  match goal with
  | |- context [_gen_prompt_templates_acquisitions ?s ?oc ?fv ?d ?n ?u ?sf
                  ?nis w] =>
      pose proof (keeps_net_gen_variants s oc fv d u sf nis n 0
                    (mkWorld (rng w) (net w) (log w ++ [EvGenerate n])))
        as Hn;
      unfold _gen_prompt_templates_acquisitions, bind, record_event;
      destruct (gen_variants s oc fv d u sf nis 0 n _)
        as [[[pts qts] | e] w1]; [| discriminate]
  end.
  cbn [snd net] in Hn.
  destruct (example_prompt pts qts); [| discriminate].
  destruct (retry_loop _ fuel _ pts qts (mkDF [] []) 0 0 w1)
    as [[[[df1 c] | e] w2] |] eqn:Er; try discriminate.
  intros [= _ <- _].
  apply (retry_loop_good _ _ _ _ _ _ _ _ _ _ _ _ Er);
    [now rewrite Hn | apply Qle_refl].
Qed.

End Cost.

(** ** What the adjustment records *)

Section Adjustment.

Variable self : LLM_ACQ.

Lemma Qabs_opp_eq (a : Q) : Qabs (- a) = Qabs a.
Proof.
  destruct a as [n d]. unfold Qabs, Qopp. simpl. now rewrite Z.abs_opp.
Qed.

(** X26.  Only the magnitude of alpha enters the adjustment: alpha and
    its opposite give the same object, the same adjusted alpha and the
    same target. *)
Theorem adjustment_ignores_the_sign_of_alpha
  (observed_fvals : DataFrame Q) (a : Q) :
  _adjust_alpha_and_desired_fval self observed_fvals (- a)
  = _adjust_alpha_and_desired_fval self observed_fvals a.
Proof.
  unfold _adjust_alpha_and_desired_fval. now rewrite Qabs_opp_eq.
Qed.

(** X27.  The adjustment records on the object the best and the worst of
    the observed performances under the direction, and changes no other
    attribute. *)
Theorem adjustment_records_best_and_worst
  (observed_fvals : DataFrame Q) (a : Q) (self' : LLM_ACQ) (x : Q * Q) :
  _adjust_alpha_and_desired_fval self observed_fvals a = Ok (self', x) ->
  exists best worst,
    best_of (lower_is_better self) (df_values observed_fvals) best
    /\ best_of (negb (lower_is_better self)) (df_values observed_fvals) worst
    /\ self' = set_observed self best worst
    /\ observed_best self' = Some best
    /\ observed_worst self' = Some worst
    /\ alpha self' = alpha self
    /\ desired_fval self' = desired_fval self
    /\ num_prompt_variants self' = num_prompt_variants self
    /\ apply_jitter self' = apply_jitter self.
Proof.
  unfold _adjust_alpha_and_desired_fval, best_of.
  destruct (df_values observed_fvals) as [| v t] eqn:Ev;
    [destruct (lower_is_better self); discriminate |].
  pose proof (fold_Qmin_spec t v) as [Hmin1 Hmin2].
  pose proof (fold_Qmax_spec t v) as [Hmax1 Hmax2].
  destruct (lower_is_better self); cbn [np_min np_max res_bind negb];
    intros [= <- _].
  - exists (fold_left Qmin t v), (fold_left Qmax t v). now repeat split.
  - exists (fold_left Qmax t v), (fold_left Qmin t v). now repeat split.
Qed.

End Adjustment.

(** ** No observation is lost *)

Section ExamplesCount.

Context {env : Collaborators}.
Variable self : LLM_ACQ.

Hypothesis permutation_permutes :
  forall (A : Type) (l : list A) (g : Rng),
    Permutation (fst (np_random_permutation A l g)) l.

Lemma render_rows_length (ufs : bool) (names : list string)
  (fa : fvals_arg) (l : list (nat * list Q)) :
  forall examples,
    render_rows self ufs names fa l = Ok examples ->
    length examples = length l.
Proof.
  induction l as [| [index row] t IH]; intros examples; cbn [render_rows].
  - now intros [= <-].
  - destruct (render_cells self ufs names (length row) 0 row);
      [| discriminate].
    cbn [res_bind].
    destruct (match fa with
              | FNone => _ | FFrame fv => _ | FFloat _ => _
              end); [| discriminate].
    cbn [res_bind].
    destruct (render_rows self ufs names fa t) as [rest |];
      [| discriminate].
    cbn [res_bind]. intros [= <-]. simpl. now rewrite (IH rest).
Qed.

(** X28.  When the two tables describe the same trials (the same index
    labels, none repeated) and numpy's [permutation] permutes, the few-shot
    examples that are returned are as many as the observations, shuffled
    by a seed or sorted by performance: none is lost and none is
    repeated. *)
Theorem every_observation_gives_one_example
  (observed_configs fv : DataFrame Q) (seed : option nat) (ufs : bool)
  (w w' : world) (examples : list (dict string)) :
  NoDup (df_index observed_configs) ->
  Permutation (df_index fv) (df_index observed_configs) ->
  _prepare_configurations_acquisition self (Some observed_configs)
    (FFrame fv) seed ufs false w = (Ok examples, w') ->
  length examples = shape0 observed_configs.
Proof.
  intros Hnd Hperm.
  unfold _prepare_configurations_acquisition. unfold bind at 1.
  destruct (order_rows self observed_configs (FFrame fv) seed w)
    as [[[oc fa] | e] w1] eqn:Eo; [| discriminate].
  cbn [fst snd]. unfold bind, ret, lift.
  destruct (render_rows self ufs (columns oc) fa (rows oc)) as [exs |] eqn:Er;
    [| discriminate].
  intros [= <- _]. apply render_rows_length in Er. rewrite Er.
  assert (Hlen : exists labels,
             Permutation labels (df_index observed_configs)
             /\ df_loc labels observed_configs = Ok oc).
  { unfold order_rows, bind, seed_rng, draw, lift, ret in Eo.
    destruct seed as [seed |]; cbn [rng net log] in Eo.
    - pose proof (permutation_permutes nat (df_index observed_configs)
                    (np_random_seed seed)) as Hp.
      destruct (np_random_permutation nat _ _) as [shuffled g].
      cbn [fst] in Hp.
      destruct (df_loc shuffled observed_configs) as [oc' |] eqn:El;
        [| discriminate].
      destruct (df_loc shuffled fv); [| discriminate].
      injection Eo as <- _ _. now exists shuffled.
    - destruct (sort_values fv _) as [fv' |] eqn:Es; [| discriminate].
      destruct (df_loc (df_index fv') observed_configs) as [oc' |] eqn:El;
        [| discriminate].
      injection Eo as <- _ _. exists (df_index fv'). split; [| exact El].
      apply sort_values_spec in Es as (_ & Hp & _).
      apply Permutation_trans with (df_index fv); [| exact Hperm].
      unfold df_index. now apply Permutation_map. }
  destruct Hlen as (labels & Hp & El).
  apply (df_loc_index _ _ _ Hnd) in El.
  unfold shape0. rewrite <- (length_map fst (rows oc)).
  change (map fst (rows oc)) with (df_index oc). rewrite El.
  rewrite (Permutation_length Hp). unfold df_index. apply length_map.
Qed.

End ExamplesCount.

(** * The further properties on concrete inputs *)

Import MoreScenario.

(** The three parts of the demonstration instance keep to the contracts
    that the properties assume of numpy and of the backend. *)
Lemma demo_uniform_in_range (lo hi : Q) (g : Rng) :
  lo <= hi ->
  lo <= fst (np_random_uniform lo hi g)
  /\ fst (np_random_uniform lo hi g) <= hi.
Proof.
  intros H. change (fst (np_random_uniform lo hi g)) with ((lo + hi) / 2).
  split.
  - apply Qle_shift_div_l; [reflexivity | lra].
  - apply Qle_shift_div_r; [reflexivity | lra].
Qed.

Lemma rotate_permutes {A : Type} (n : nat) :
  forall l : list A, Permutation (rotate n l) l.
Proof.
  induction n as [| n IH]; intros [| h t]; cbn [rotate];
    try apply Permutation_refl.
  apply Permutation_trans with (t ++ [h]); [apply IH |].
  apply Permutation_sym, Permutation_cons_append.
Qed.

Lemma demo_permutation_permutes (A : Type) (l : list A) (g : Rng) :
  Permutation (fst (np_random_permutation A l g)) l.
Proof. cbn. apply rotate_permutes. Qed.

Lemma scripted_charges_fairly (m : string) (n : Net) :
  charges_fairly n ->
  charges_fairly (snd (ask m n))
  /\ forall r c, fst (ask m n) = Ok (r, c) -> 0 <= c.
Proof.
  intros H. destruct n as [| [[r0 c0] | e] t]; cbn.
  - split; [constructor | discriminate].
  - inversion H as [| ? ? H1 H2]; subst.
    split; [exact H2 | now intros r c [= _ <-]].
  - inversion H as [| ? ? H1 H2]; subst. split; [exact H2 | discriminate].
Qed.

Lemma forest_is_well_formed :
  context_wf (hyperparameter_constraints (task_context acq1)).
Proof.
  intros k r. simpl.
  destruct (String.eqb k "n_estimators");
    [| destruct (String.eqb k "ccp_alpha"); [| discriminate]];
    intros [= <-]; left;
    (split; [simpl; auto | eexists; eexists; reflexivity]).
Qed.

(** ** The target *)

Lemma target_stays_in_band_witness :
  exists self' a d,
    _adjust_alpha_and_desired_fval acq1 fvals (1 # 10) = Ok (self', (a, d))
    /\ (a = Qabs (1 # 10) \/ In a alpha_range)
    /\ 1 # 100000 <= d.
Proof.
  destruct (_adjust_alpha_and_desired_fval acq1 fvals (1 # 10))
    as [[s [a d]] | e] eqn:E; [| vm_compute in E; discriminate E].
  exists s, a, d. split; [reflexivity |].
  exact (target_stays_in_band acq1 fvals (1 # 10) s a d E).
Defined.

Lemma adjustment_records_best_and_worst_witness :
  exists self' x,
    _adjust_alpha_and_desired_fval acq1 fvals (1 # 10) = Ok (self', x)
    /\ exists best worst,
         best_of (lower_is_better acq1) (df_values fvals) best
         /\ best_of (negb (lower_is_better acq1)) (df_values fvals) worst
         /\ self' = set_observed acq1 best worst
         /\ observed_best self' = Some best
         /\ observed_worst self' = Some worst
         /\ alpha self' = alpha acq1
         /\ desired_fval self' = desired_fval acq1
         /\ num_prompt_variants self' = num_prompt_variants acq1
         /\ apply_jitter self' = apply_jitter acq1.
Proof.
  destruct (_adjust_alpha_and_desired_fval acq1 fvals (1 # 10))
    as [[s x] | e] eqn:E; [| vm_compute in E; discriminate E].
  exists s, x. split; [reflexivity |].
  exact (adjustment_records_best_and_worst acq1 fvals (1 # 10) s x E).
Defined.

(** ** The validated table *)

Lemma validated_table_is_well_formed_witness :
  exists df,
    _filter_candidate_points acq1 (to_dict_records configs)
      [[("n_estimators"%string, 120); ("ccp_alpha"%string, 3 # 1000)];
       [("n_estimators"%string, 120)]] 6 = Ok df
    /\ (shape0 df <= 2)%nat
    /\ NoDup (columns df)
    /\ (forall c, In c (columns df) ->
          dict_get c (hyperparameter_constraints (task_context acq1))
          <> None)
    /\ Forall (fun r => length (snd r) = length (columns df)) (rows df)
    /\ df_index df = seq 0 (shape0 df).
Proof.
  destruct (_filter_candidate_points acq1 (to_dict_records configs)
              [[("n_estimators"%string, 120); ("ccp_alpha"%string, 3 # 1000)];
               [("n_estimators"%string, 120)]] 6)
    as [df | e] eqn:E; [| vm_compute in E; discriminate E].
  exists df. split; [reflexivity |].
  exact (validated_table_is_well_formed acq1 _ _ _ df E).
Defined.

(** An observed configuration and one out of range. *)
Lemma nothing_valid_gives_the_empty_table_witness :
  context_wf (hyperparameter_constraints (task_context acq1))
  /\ (forall c,
        In c [[("n_estimators"%string, 100); ("ccp_alpha"%string, 1 # 1000)];
              [("n_estimators"%string, 1000)]] ->
        dict_in (round_dict 6 c)
                (map (round_dict 6) (to_dict_records configs)) = true
        \/ passes acq1 (hyperparameter_constraints (task_context acq1)) c
           = false)
  /\ _filter_candidate_points acq1 (to_dict_records configs)
       [[("n_estimators"%string, 100); ("ccp_alpha"%string, 1 # 1000)];
        [("n_estimators"%string, 1000)]] 6
     = Ok (mkDF [] []).
Proof.
  assert (H : forall c,
            In c [[("n_estimators"%string, 100);
                   ("ccp_alpha"%string, 1 # 1000)];
                  [("n_estimators"%string, 1000)]] ->
            dict_in (round_dict 6 c)
                    (map (round_dict 6) (to_dict_records configs)) = true
            \/ passes acq1 (hyperparameter_constraints (task_context acq1)) c
               = false).
  { intros c [<- | [<- | []]]; [left | right]; vm_compute; reflexivity. }
  split; [exact forest_is_well_formed |]. split; [exact H |].
  exact (nothing_valid_gives_the_empty_table acq1 _ _ 6
           forest_is_well_formed H).
Defined.

Lemma unknown_kind_aborts_the_validation_witness :
  In [("mode"%string, 1)] [[("mode"%string, 1)]]
  /\ dict_in (round_dict 6 [("mode"%string, 1)]) (map (round_dict 6) [])
     = false
  /\ dict_get "mode" (hyperparameter_constraints (task_context acq_odd))
     = Some (mkConstraint "categorical" None [0; 1])
  /\ _filter_candidate_points acq_odd [] [[("mode"%string, 1)]] 6
     = Raise ValueError.
Proof.
  assert (H1 : In [("mode"%string, 1)] [[("mode"%string, 1)]])
    by (left; reflexivity).
  split; [exact H1 |]. split; [reflexivity |]. split; [reflexivity |].
  apply (unknown_kind_aborts_the_validation acq_odd [] _ 6 "mode" 1 []
           (mkConstraint "categorical" None [0; 1]) H1);
    [reflexivity | reflexivity | discriminate | discriminate | discriminate].
Defined.

Lemma observed_point_is_dropped_in_any_key_order_witness :
  In [("n_estimators"%string, 100); ("ccp_alpha"%string, 1 # 1000)]
     (to_dict_records configs)
  /\ Permutation swapped
       [("n_estimators"%string, 100); ("ccp_alpha"%string, 1 # 1000)]
  /\ _filter_candidate_points acq1 (to_dict_records configs)
       ([] ++ swapped :: [[("n_estimators"%string, 120)]]) 6
     = _filter_candidate_points acq1 (to_dict_records configs)
         ([] ++ [[("n_estimators"%string, 120)]]) 6.
Proof.
  assert (H1 : In [("n_estimators"%string, 100);
                   ("ccp_alpha"%string, 1 # 1000)]
                  (to_dict_records configs)) by (left; reflexivity).
  assert (H2 : NoDup (dict_keys [("n_estimators"%string, 100);
                                 ("ccp_alpha"%string, 1 # 1000)])).
  { repeat constructor; simpl; intuition discriminate. }
  assert (H3 : Permutation swapped
                 [("n_estimators"%string, 100);
                  ("ccp_alpha"%string, 1 # 1000)]) by apply perm_swap.
  split; [exact H1 |]. split; [exact H3 |].
  exact (observed_point_is_dropped_in_any_key_order acq1 _ [] _ 6 _ _
           H1 H2 H3).
Defined.

(** ** Parsed candidates *)

Lemma last_pair_of_a_key_wins_witness :
  exists d,
    convert_pairs (["x: 1"%string] ++ " x: 2"%string :: ["y: 3"%string]) []
    = Ok d
    /\ map strip (py_split ":" " x: 2") = ["x"; "2"]%string
    /\ (forall q, In q ["y: 3"%string] ->
          nth_error (map strip (py_split ":" q)) 0 <> Some "x"%string)
    /\ exists x, py_float "2" = Some x /\ dict_get "x" d = Some x.
Proof.
  assert (H : forall q, In q ["y: 3"%string] ->
                nth_error (map strip (py_split ":" q)) 0 <> Some "x"%string).
  { intros q [<- | []]. vm_compute. discriminate. }
  destruct (convert_pairs
              (["x: 1"%string] ++ " x: 2"%string :: ["y: 3"%string]) [])
    as [d | e] eqn:E; [| vm_compute in E; discriminate E].
  exists d. split; [reflexivity |]. split; [reflexivity |].
  split; [exact H |].
  exact (last_pair_of_a_key_wins ["x: 1"%string] ["y: 3"%string] " x: 2"
           "x" "2" [] d E eq_refl H).
Defined.

Lemma response_without_delimiter_is_dropped_witness :
  occurrences "#" "I cannot help with that." = 0%nat
  /\ parse_response "I cannot help with that." = Raise IndexError
  /\ collect_candidates [Some ("I cannot help with that."%string, 1 # 100)]
       0 []
     = collect_candidates [] (0 + (1 # 100)) [].
Proof.
  split; [reflexivity |].
  exact (response_without_delimiter_is_dropped "I cannot help with that."
           (1 # 100) 0 [] [] eq_refl).
Defined.

(** ** The dispatcher and the builder *)

(** One prompt for an object with three variants: the backend has
    answered it when the assertion error arrives. *)
Lemma count_mismatch_raises_after_the_calls_witness :
  build_messages one_prompt one_query
  = Ok ["target 0.080000 for 0.080000"%string]
  /\ length ["target 0.080000 for 0.080000"%string]
     <> num_prompt_variants acq3
  /\ _async_generate_concurrently acq3 one_prompt one_query (world0 silent)
     = (Raise AssertionError,
        mkWorld (rng (world0 silent))
          (snd (run_tasks ["target 0.080000 for 0.080000"%string]
                          (net (world0 silent))))
          (log (world0 silent)
           ++ [EvDispatch ["target 0.080000 for 0.080000"%string]]))
  /\ snd (run_tasks ["target 0.080000 for 0.080000"%string]
                    (net (world0 silent)))
     = (skipn 1 silent : Net).
Proof.
  assert (H : length ["target 0.080000 for 0.080000"%string]
              <> num_prompt_variants acq3) by (simpl; lia).
  split; [reflexivity |]. split; [exact H |].
  split; [| reflexivity].
  exact (count_mismatch_raises_after_the_calls acq3 one_prompt one_query
           (world0 silent) _ eq_refl H).
Defined.

Lemma builder_output_fits_the_dispatcher_witness :
  exists pts qts w',
    _gen_prompt_templates_acquisitions acq3 configs fvals (8 # 100) 3 true
      false 0 (world0 []) = (Ok (pts, qts), w')
    /\ length pts = 3%nat /\ length qts = 3%nat
    /\ Forall (fun q => exists j, q = [[("A"%string, format_f j 6)]]) qts
    /\ (apply_jitter acq3 = false ->
        Forall (fun q => q = [[("A"%string, format_f (8 # 100) 6)]]) qts)
    /\ exists messages,
         build_messages pts qts = Ok messages /\ length messages = 3%nat.
Proof.
  destruct (_gen_prompt_templates_acquisitions acq3 configs fvals (8 # 100) 3
              true false 0 (world0 []))
    as [[[pts qts] | e] w'] eqn:E.
  2: { exfalso.
       assert (H : match fst (_gen_prompt_templates_acquisitions acq3 configs
                                fvals (8 # 100) 3 true false 0 (world0 []))
                   with Ok _ => true | Raise _ => false end = true)
         by (vm_compute; reflexivity).
       rewrite E in H. discriminate H. }
  exists pts, qts, w'. split; [reflexivity |].
  exact (builder_output_fits_the_dispatcher acq3 configs fvals (8 # 100) 3
           true false 0 (world0 []) w' pts qts E).
Defined.

(** ** Jitter *)

Lemma jittered_target_is_between_target_and_best_witness :
  (forall lo hi (g : Rng),
     lo <= hi ->
     lo <= fst (np_random_uniform lo hi g)
     /\ fst (np_random_uniform lo hi g) <= hi)
  /\ observed_best acq_ready = Some (1 # 10)
  /\ observed_worst acq_ready <> None
  /\ alpha acq_ready <> None
  /\ exists j w',
       _jitter acq_ready (8 # 100) (world0 []) = (Ok j, w')
       /\ Qmin (8 # 100) (1 # 10) <= j /\ j <= Qmax (8 # 100) (1 # 10)
       /\ (apply_jitter acq_ready = false -> j = 8 # 100 /\ w' = world0 [])
       /\ net w' = net (world0 []) /\ log w' = log (world0 []).
Proof.
  assert (H2 : observed_worst acq_ready <> None) by discriminate.
  assert (H3 : alpha acq_ready <> None) by discriminate.
  split; [exact demo_uniform_in_range |]. split; [reflexivity |].
  split; [exact H2 |]. split; [exact H3 |].
  exact (jittered_target_is_between_target_and_best acq_ready (8 # 100)
           (1 # 10) (world0 []) demo_uniform_in_range eq_refl H2 H3).
Defined.

Lemma jitter_needs_the_recorded_observations_witness :
  apply_jitter acq_jitter = true
  /\ (observed_best acq_jitter = None \/ observed_worst acq_jitter = None
      \/ alpha acq_jitter = None)
  /\ _jitter acq_jitter (8 # 100) (world0 [])
     = (Raise AssertionError, world0 []).
Proof.
  split; [reflexivity |]. split; [left; reflexivity |].
  exact (jitter_needs_the_recorded_observations acq_jitter (8 # 100)
           (world0 []) eq_refl (or_introl eq_refl)).
Defined.

Lemma jitter_is_ready_after_the_adjustment_witness :
  exists self1 a1 d,
    _adjust_alpha_and_desired_fval (set_alpha acq_jitter (1 # 10)) fvals
      (1 # 10) = Ok (self1, (a1, d))
    /\ exists j w',
         _jitter (set_desired_fval self1 d) d (world0 []) = (Ok j, w').
Proof.
  destruct (_adjust_alpha_and_desired_fval (set_alpha acq_jitter (1 # 10))
              fvals (1 # 10))
    as [[s [a1 d]] | e] eqn:E; [| vm_compute in E; discriminate E].
  exists s, a1, d. split; [reflexivity |].
  exact (jitter_is_ready_after_the_adjustment acq_jitter fvals (1 # 10)
           (1 # 10) a1 d d d s (world0 []) E).
Defined.

(** ** The loop and the whole call *)

Lemma retries_draw_no_random_number_witness :
  exists r w',
    retry_loop acq1 11 configs one_prompt one_query (mkDF [] []) 0 0
               (world0 silent) = Some (r, w')
    /\ rng w' = rng (world0 silent).
Proof.
  destruct (retry_loop acq1 11 configs one_prompt one_query (mkDF [] []) 0 0
              (world0 silent)) as [[r w'] |] eqn:E.
  2: { exfalso.
       assert (H : match retry_loop acq1 11 configs one_prompt one_query
                           (mkDF [] []) 0 0 (world0 silent)
                   with Some _ => true | None => false end = true)
         by (vm_compute; reflexivity).
       rewrite E in H. discriminate H. }
  exists r, w'. split; [reflexivity |].
  exact (retries_draw_no_random_number acq1 configs one_prompt one_query 11
           _ _ _ _ r w' E).
Defined.

(** Three variants, and a backend that would answer each of them. *)
Lemma fewer_than_five_variants_never_succeed_witness :
  (num_prompt_variants acq3 < 5)%nat
  /\ exists r w',
       get_candidate_points 11 acq3 configs fvals true (1 # 10) 0 0
                            (world0 (helpful ++ silent)) = Some (r, w')
       /\ exists e, r = Raise e.
Proof.
  assert (H : (num_prompt_variants acq3 < 5)%nat) by (simpl; lia).
  split; [exact H |].
  destruct (get_candidate_points 11 acq3 configs fvals true (1 # 10) 0 0
              (world0 (helpful ++ silent))) as [[r w'] |] eqn:E.
  2: { exfalso.
       assert (H0 : match get_candidate_points 11 acq3 configs fvals true
                            (1 # 10) 0 0 (world0 (helpful ++ silent))
                    with Some _ => true | None => false end = true)
         by (vm_compute; reflexivity).
       rewrite E in H0. discriminate H0. }
  exists r, w'. split; [reflexivity |].
  exact (fewer_than_five_variants_never_succeed 11 acq3 configs fvals true
           (1 # 10) 0 0 (world0 (helpful ++ silent)) w' r H E).
Defined.

Lemma no_observation_raises_before_any_call_witness :
  df_values no_fvals = []
  /\ get_candidate_points 11 acq1 configs no_fvals true (1 # 10) 0 0
                          (world0 silent)
     = Some (Raise ValueError, world0 silent).
Proof.
  split; [reflexivity |].
  exact (no_observation_raises_before_any_call 11 acq1 configs no_fvals true
           (1 # 10) 0 0 (world0 silent) eq_refl).
Defined.

Lemma non_positive_alpha_is_replaced_witness :
  - (1 # 2) <= 0
  /\ get_candidate_points 11 acq1 configs fvals true (- (1 # 2)) 0 0
                          (world0 silent)
     = get_candidate_points 11 acq1 configs fvals true (1 # 1000) 0 0
                            (world0 silent).
Proof.
  assert (H : - (1 # 2) <= 0) by (unfold Qle; simpl; lia).
  split; [exact H |].
  exact (non_positive_alpha_is_replaced 11 acq1 configs fvals true
           (- (1 # 2)) 0 0 (world0 silent) H).
Defined.

Lemma returned_cost_is_not_negative_witness :
  (forall m (n : Net),
     charges_fairly n ->
     charges_fairly (snd (ask m n))
     /\ forall r c, fst (ask m n) = Ok (r, c) -> 0 <= c)
  /\ charges_fairly (net (world0 helpful))
  /\ exists df cost w',
       get_candidate_points 11 acq5 configs fvals true (1 # 10) 0 0
                            (world0 helpful) = Some (Ok (df, cost), w')
       /\ 0 <= cost.
Proof.
  assert (H : charges_fairly (net (world0 helpful))).
  { repeat constructor; discriminate. }
  split; [exact scripted_charges_fairly |]. split; [exact H |].
  destruct (get_candidate_points 11 acq5 configs fvals true (1 # 10) 0 0
              (world0 helpful)) as [[[[df cost] | e] w'] |] eqn:E.
  2, 3: exfalso;
    assert (H0 : match get_candidate_points 11 acq5 configs fvals true
                         (1 # 10) 0 0 (world0 helpful)
                 with Some (Ok _, _) => true | _ => false end = true)
      by (vm_compute; reflexivity);
    rewrite E in H0; discriminate H0.
  exists df, cost, w'. split; [reflexivity |].
  exact (returned_cost_is_not_negative charges_fairly scripted_charges_fairly
           11 acq5 configs fvals true (1 # 10) 0 0 (world0 helpful) w' df
           cost H E).
Defined.

(** ** Counting decimals and the examples *)

(** 0.25 has two decimals. *)
Lemma decimals_of_a_short_number_witness :
  (2 <= 10)%nat
  /\ whole ((1 # 4) * inject_Z (10 ^ Z.of_nat 2))
  /\ (_count_decimal_places (1 # 4) <= 2)%nat.
Proof.
  assert (H1 : (2 <= 10)%nat) by lia.
  assert (H2 : whole ((1 # 4) * inject_Z (10 ^ Z.of_nat 2)))
    by (exists 25%Z; reflexivity).
  split; [exact H1 |]. split; [exact H2 |].
  exact (decimals_of_a_short_number (1 # 4) 2 H1 H2).
Defined.

Lemma examples_pair_configurations_with_their_performance_witness :
  exists examples w',
    _prepare_configurations_acquisition acq1 (Some configs) (FFrame fvals)
      (Some 1%nat) true false (world0 []) = (Ok examples, w')
    /\ Forall
         (fun ex =>
            exists index row x rest cells,
              In (index, row) (rows configs)
              /\ In (index, x :: rest) (rows fvals)
              /\ render_cells acq1 true (columns configs) (length row) 0 row
                 = Ok cells
              /\ ex = [("Q", "## " ++ cells ++ " ##");
                       ("A", format_f x 6)]%string)
         examples.
Proof.
  destruct (_prepare_configurations_acquisition acq1 (Some configs)
              (FFrame fvals) (Some 1%nat) true false (world0 []))
    as [[examples | e] w'] eqn:E.
  2: { exfalso.
       assert (H0 : match fst (_prepare_configurations_acquisition acq1
                                 (Some configs) (FFrame fvals) (Some 1%nat)
                                 true false (world0 []))
                    with Ok _ => true | Raise _ => false end = true)
         by (vm_compute; reflexivity).
       rewrite E in H0. discriminate H0. }
  exists examples, w'. split; [reflexivity |].
  exact (examples_pair_configurations_with_their_performance acq1 configs
           fvals (Some 1%nat) true (world0 []) w' examples E).
Defined.

Lemma every_observation_gives_one_example_witness :
  (forall (A : Type) (l : list A) (g : Rng),
     Permutation (fst (np_random_permutation A l g)) l)
  /\ NoDup (df_index configs)
  /\ Permutation (df_index fvals) (df_index configs)
  /\ exists examples w',
       _prepare_configurations_acquisition acq1 (Some configs) (FFrame fvals)
         (Some 1%nat) true false (world0 []) = (Ok examples, w')
       /\ length examples = shape0 configs.
Proof.
  assert (H1 : NoDup (df_index configs)).
  { repeat constructor; simpl; intuition discriminate. }
  assert (H2 : Permutation (df_index fvals) (df_index configs))
    by apply Permutation_refl.
  split; [exact demo_permutation_permutes |]. split; [exact H1 |].
  split; [exact H2 |].
  destruct (_prepare_configurations_acquisition acq1 (Some configs)
              (FFrame fvals) (Some 1%nat) true false (world0 []))
    as [[examples | e] w'] eqn:E.
  2: { exfalso.
       assert (H0 : match fst (_prepare_configurations_acquisition acq1
                                 (Some configs) (FFrame fvals) (Some 1%nat)
                                 true false (world0 []))
                    with Ok _ => true | Raise _ => false end = true)
         by (vm_compute; reflexivity).
       rewrite E in H0. discriminate H0. }
  exists examples, w'. split; [reflexivity |].
  exact (every_observation_gives_one_example acq1 demo_permutation_permutes
           configs fvals (Some 1%nat) true (world0 []) w' examples H1 H2 E).
Defined.
